(** * The Slack adapter of matterbridge: a shallow embedding

    The development follows [bridge/slack/slack.go] and
    [bridge/slack/handlers.go].  Go structs are records, [interface{}]
    payloads are small tagged unions, the LRU cache is an association list
    ordered by recency, and every method of [*Bslack] that touches the cache,
    the clock, the platform client or the relay is a computation in the
    state-and-failure monad [M] over a [World]. *)

From Stdlib Require Import ZArith Lia.
From Stdlib.Strings Require Import Byte.
From stdpp Require Import base option list strings gmap.

Local Open Scope string_scope.

(** ** Time ([time.Time], [time.Duration]) *)

Module time.
(** A [Duration] is a signed 64-bit count of nanoseconds; an instant is a
    reading of the process clock in nanoseconds. *)
Definition Duration := Z.
Definition Time := Z.

Definition Second : Duration := 1000000000%Z.
Definition Minute : Duration := (60 * Second)%Z.

Definition maxDuration : Duration := (2 ^ 63 - 1)%Z.
Definition minDuration : Duration := (- 2 ^ 63)%Z.

(** [t.Sub(u)] saturates at the extreme durations. *)
Definition Sub (t u : Time) : Duration :=
  Z.max minDuration (Z.min maxDuration (t - u)).
End time.
Bind Scope Z_scope with time.Duration time.Time.

(** ** Platform data ([slack-go/slack]) *)

Inductive Block :=
| SectionBlock (BlockID : string) (text : string)
| OtherBlock (kind : string) (BlockID : string).

Module Attachment.
Record t := mk {
  Fallback : string; Color : string; Pretext : string;
  AuthorName : string; AuthorLink : string; AuthorIcon : string;
  Title : string; TitleLink : string; Text : string;
  ImageURL : string; ThumbURL : string;
  Footer : string; FooterIcon : string }.

Definition empty : t := mk "" "" "" "" "" "" "" "" "" "" "" "" "".
End Attachment.

Module File.
Record t := mk {
  ID : string; Name : string; Size : Z; URLPrivateDownload : string }.
End File.

(** [slack.Msg], as carried in [MessageEvent.SubMessage]. *)
Module Msg.
Record t := mk {
  Text : string;
  Timestamp : string;
  ThreadTimestamp : string;
  Edited : option (string * string);
  Blocks : list Block }.
End Msg.

Module MessageEvent.
Record t := mk {
  SubType : string;
  User : string;
  Username : string;
  BotID : string;
  Channel : string;
  Text : string;
  Hidden : bool;
  DeletedTimestamp : string;
  Blocks : list Block;
  SubMessage : option Msg.t;
  Files : list File.t;
  Attachments : list Attachment.t }.
End MessageEvent.

Module Channel.
Record t := mk { ID : string; Name : string; IsMember : bool }.
End Channel.

(** The answer of [UploadFile]: the file's ID and, per channel, the
    timestamps of the messages that share it. *)
Module UploadedFile.
Record t := mk {
  ID : string;
  SharesPrivate : gmap string (list string);
  SharesPublic : gmap string (list string) }.
End UploadedFile.

Module FileUploadParameters.
Record t := mk {
  Reader : list byte;
  Filename : string;
  Channels : list string;
  InitialComment : string;
  ThreadTimestamp : string }.
End FileUploadParameters.

Module PostMessageParameters.
Record t := mk {
  Username : string; AsUser : bool; LinkNames : Z;
  IconURL : string; ThreadTimestamp : string }.
End PostMessageParameters.

Inductive MsgOption :=
| MsgOptionText (text : string) (escape : bool)
| MsgOptionBlocks (blocks : list Block)
| MsgOptionEnableLinkUnfurl
| MsgOptionAttachments (attachments : list Attachment.t)
| MsgOptionPostMessageParameters (params : PostMessageParameters.t).

(** ** The relay's canonical message ([bridge/config]) *)

Module FileInfo.
Record t := mk {
  Name : string; Data : list byte; Comment : string; URL : string }.
End FileInfo.

(** A value stored under [interface{}]. *)
Inductive Any := AnyString (s : string) | AnyOther.

(** The payloads carried in [Message.Extra]. *)
Inductive Payload :=
| PFileInfo (fi : FileInfo.t)
| PSlackAttachments (l : list Attachment.t)
| PMap (m : gmap string Any)
| PChannelMembers (members : list string)
| POther.

Module Message.
Record t := mk {
  ID : string; ParentID : string; Channel : string;
  Username : string; UserID : string; Avatar : string;
  Text : string; Event : string;
  Extra : option (gmap string (list Payload));
  Account : string; Protocol : string }.

Definition empty : t := mk "" "" "" "" "" "" "" "" None "" "".

Definition withID (x : string) (m : t) : t :=
  mk x (ParentID m) (Channel m) (Username m) (UserID m) (Avatar m)
     (Text m) (Event m) (Extra m) (Account m) (Protocol m).
Definition withParentID (x : string) (m : t) : t :=
  mk (ID m) x (Channel m) (Username m) (UserID m) (Avatar m)
     (Text m) (Event m) (Extra m) (Account m) (Protocol m).
Definition withUsername (x : string) (m : t) : t :=
  mk (ID m) (ParentID m) (Channel m) x (UserID m) (Avatar m)
     (Text m) (Event m) (Extra m) (Account m) (Protocol m).
Definition withText (x : string) (m : t) : t :=
  mk (ID m) (ParentID m) (Channel m) (Username m) (UserID m) (Avatar m)
     x (Event m) (Extra m) (Account m) (Protocol m).
Definition withEvent (x : string) (m : t) : t :=
  mk (ID m) (ParentID m) (Channel m) (Username m) (UserID m) (Avatar m)
     (Text m) x (Extra m) (Account m) (Protocol m).
Definition withExtra (x : option (gmap string (list Payload))) (m : t) : t :=
  mk (ID m) (ParentID m) (Channel m) (Username m) (UserID m) (Avatar m)
     (Text m) (Event m) x (Account m) (Protocol m).

(** [m.Extra[k]]: reading a missing key, or a nil map, yields nil. *)
Definition extra (k : string) (m : t) : list Payload :=
  match Extra m with
  | Some e => default [] (e !! k)
  | None => []
  end.

(** [len(m.Extra)]. *)
Definition lenExtra (m : t) : nat :=
  match Extra m with
  | Some e => size e
  | None => 0
  end.
End Message.

(** The event kinds and the test for an unresolved thread parent are
    declared in [bridge/config], which the sources at hand do not include. *)
Module config.
(** Modelled from the spec: the names of the event kinds of section 3
    ([config.EventJoinLeave] and the like), which [bridge/config] declares. *)
Definition EventJoinLeave := "join_leave".
Definition EventTopicChange := "topic_change".
Definition EventUserAction := "user_action".
Definition EventMsgDelete := "msg_delete".
Definition EventFileDelete := "file_delete".
Definition EventUserTyping := "user_typing".
Definition EventGetChannelMembers := "get_channel_members".
(** Modelled from the spec: [msg.ParentNotFound()] of [bridge/config], true
    when the referenced thread parent could not be resolved (section 4.3,
    step 5), which the relay marks with a reserved parent ID. *)
Definition ParentIDNotFound := "msg-parent-not-found".
Definition ParentNotFound (m : Message.t) : bool :=
  bool_decide (Message.ParentID m = ParentIDNotFound).
End config.

(** The message of the webhook client ([matterhook.OMessage]). *)
Module OMessage.
Record t := mk {
  IconURL : string;
  Attachments : list Attachment.t;
  Channel : string;
  UserName : string;
  Text : string }.
End OMessage.

(** ** Errors *)

Inductive FmtArg (E : Type) :=
| ArgString (s : string)
| ArgError (e : E)
| ArgDuration (d : time.Duration)
| ArgEvent (ev : MessageEvent.t)
| ArgSubMessage (sm : Msg.t).
Arguments ArgString {E} s.
Arguments ArgError {E} e.
Arguments ArgDuration {E} d.
Arguments ArgEvent {E} ev.
Arguments ArgSubMessage {E} sm.

(** A Go [error] value: a rate-limit error of the platform client with its
    suggested wait, any other error with its [Error()] text, or the result
    of [fmt.Errorf], kept as its format and arguments. *)
#[warnings="-register-all"]
Inductive error :=
| RateLimitedError (RetryAfter : time.Duration)
| ErrorString (s : string)
| Errorf (format : string) (args : list (FmtArg error)).

Inductive Result (A : Type) :=
| Ok (a : A)
| Err (e : error).
Arguments Ok {A} a.
Arguments Err {A} e.

(** ** Constants of [slack.go] *)

Definition sChannelJoin := "channel_join".
Definition sChannelLeave := "channel_leave".
Definition sChannelJoined := "channel_joined".
Definition sMemberJoined := "member_joined_channel".
Definition sMessageChanged := "message_changed".
Definition sMessageDeleted := "message_deleted".
Definition sSlackAttachment := "slack_attachment".
Definition sPinnedItem := "pinned_item".
Definition sUnpinnedItem := "unpinned_item".
Definition sChannelTopic := "channel_topic".
Definition sChannelPurpose := "channel_purpose".
Definition sFileComment := "file_comment".
Definition sMeMessage := "me_message".
Definition sSystemUser := "system".
Definition sSlackBotUser := "slackbot".
Definition cfileDownloadChannel := "file_download_channel".

Definition tokenConfig := "TokenBot".
Definition incomingWebhookConfig := "WebhookBindAddress".
Definition outgoingWebhookConfig := "WebhookURL".
Definition useNickPrefixConfig := "PrefixMessagesWithNick".
Definition iconURLConfig := "iconurl".
Definition noSendJoinConfig := "nosendjoinpart".
Definition messageLength : Z := 3000.

(** ** The dedup cache ([hashicorp/golang-lru], created with [lru.New(5000)]) *)

(** A cached value: the bridge stores timestamps under the file-id and
    filename keys and a channel ID under the channel-binding keys. *)
Inductive CacheVal :=
| VTime (t : time.Time)
| VString (s : string).

Module lru.
(** Entries from the most to the least recently used. *)
Definition Cache := list (string * CacheVal).

Definition size : Z := 5000.

Fixpoint Peek (k : string) (c : Cache) : option CacheVal :=
  match c with
  | [] => None
  | (k', v) :: c' => if decide (k = k') then Some v else Peek k c'
  end.

Fixpoint remove (k : string) (c : Cache) : Cache :=
  match c with
  | [] => []
  | (k', v) :: c' => if decide (k = k') then remove k c' else (k', v) :: remove k c'
  end.

(** [Add]: an existing key is updated and moved to the front; a new one is
    pushed to the front and, past the capacity, the oldest entry goes. *)
Definition Add (k : string) (v : CacheVal) (c : Cache) : Cache :=
  match Peek k c with
  | Some _ => (k, v) :: remove k c
  | None =>
      let c' := (k, v) :: c in
      if decide (size < Z.of_nat (length c'))%Z then removelast c' else c'
  end.

(** [Get]: a hit moves the entry to the front. *)
Definition Get (k : string) (c : Cache) : option CacheVal * Cache :=
  match Peek k c with
  | Some v => (Some v, (k, v) :: remove k c)
  | None => (None, c)
  end.
End lru.

(** ** The world of the adapter *)

(** What the adapter does to its surroundings, in the order it does it. *)
Inductive Effect :=
| EPostMessage (channelID : string) (opts : list MsgOption)
| EUpdateMessage (channelID ts : string) (opts : list MsgOption)
| EDeleteMessage (channelID ts : string)
| ESetTopicOfConversation (channelID text : string)
| ESetPurposeOfConversation (channelID text : string)
| EUploadFile (params : FileUploadParameters.t)
| EJoinConversation (name : string)
| EGetUserInfo (user : string)
| EDownloadFileAuth (url auth : string)
| EWebhookSend (m : OMessage.t)
| EPopulateChannels (full : bool)
| ERemote (m : Message.t)
| ESleep (d : time.Duration).

Module World.
Record t := mk {
  cache : lru.Cache;
  now : time.Time;          (* the clock *)
  calls : nat;              (* requests issued so far *)
  refreshes : nat;          (* refreshes of the channel directory so far *)
  useChannelID : bool;      (* b.useChannelID *)
  trace : list Effect }.    (* newest effect last *)

Definition withCache (c : lru.Cache) (w : t) : t :=
  mk c (now w) (calls w) (refreshes w) (useChannelID w) (trace w).
Definition withUseChannelID (u : bool) (w : t) : t :=
  mk (cache w) (now w) (calls w) (refreshes w) u (trace w).
(** One more request on the wire. *)
Definition request (e : Effect) (w : t) : t :=
  mk (cache w) (now w) (S (calls w)) (refreshes w) (useChannelID w) (trace w ++ [e]).
Definition emit (e : Effect) (w : t) : t :=
  mk (cache w) (now w) (calls w) (refreshes w) (useChannelID w) (trace w ++ [e]).
Definition refresh (full : bool) (w : t) : t :=
  mk (cache w) (now w) (calls w) (S (refreshes w)) (useChannelID w)
     (trace w ++ [EPopulateChannels full]).
Definition sleep (d : time.Duration) (w : t) : t :=
  mk (cache w) (now w + Z.max 0 d)%Z (calls w) (refreshes w) (useChannelID w)
     (trace w ++ [ESleep d]).
End World.

(** The outcome of running a method: it returns, it panics (a failed type
    assertion, a nil dereference, a write to a nil map), or the fuel given
    to its retry loops runs out. *)
Inductive Res (A : Type) :=
| Ret (a : A) (w : World.t)
| Panic
| Timeout.
Arguments Ret {A} a w.
Arguments Panic {A}.
Arguments Timeout {A}.

Definition M (A : Type) := World.t -> Res A.

Definition ret {A} (a : A) : M A := fun w => Ret a w.
Definition bind {A B} (m : M A) (k : A -> M B) : M B :=
  fun w => match m w with
           | Ret a w' => k a w'
           | Panic => Panic
           | Timeout => Timeout
           end.
Definition panic {A} : M A := fun _ => Panic.
Definition timeout {A} : M A := fun _ => Timeout.
Definition gets {A} (f : World.t -> A) : M A := fun w => Ret (f w) w.
Definition modify (f : World.t -> World.t) : M unit := fun w => Ret tt (f w).

Declare Scope go_scope.
Delimit Scope go_scope with go.
Notation "x <- m ;; k" := (bind m (fun x => k))
  (at level 100, m at next level, right associativity) : go_scope.
Notation "m ;;; k" := (bind m (fun _ => k))
  (at level 100, right associativity) : go_scope.
Local Open Scope go_scope.

(** [time.Now()], [time.Sleep(d)], [time.Since(t)] *)
Definition time_Now : M time.Time := gets World.now.
Definition time_Sleep (d : time.Duration) : M unit := modify (World.sleep d).
Definition time_Since (t : time.Time) : M time.Duration :=
  n <- time_Now ;; ret (time.Sub n t).

(** [b.cache.Add], [b.cache.Get] *)
Definition cache_Add (k : string) (v : CacheVal) : M unit :=
  modify (fun w => World.withCache (lru.Add k v (World.cache w)) w).
Definition cache_Get (k : string) : M (option CacheVal) :=
  fun w => let '(r, c) := lru.Get k (World.cache w) in Ret r (World.withCache c w).

(** The assertion [ts.(time.Time)]. *)
Definition asTime (v : CacheVal) : M time.Time :=
  match v with
  | VTime t => ret t
  | VString _ => panic
  end.

(** ** JSON values ([encoding/json])

    The text of a request body is scanned by the library; what the library
    then does with the scanned value, member by member, is written out. *)
Module json.
#[warnings="-register-all"]
Inductive value :=
| Null
| Bool (b : bool)
| Number (literal : string)
| Str (s : string)
| Array (elements : list value)
| Object (members : list (string * value)).

(** Storing a value into a [string] field: null leaves the field as it
    is, a string is stored, anything else is a type error and leaves the
    field as it is.  The flag says whether an error was recorded. *)
Definition storeString (v : value) (cur : string) : string * bool :=
  match v with
  | Null => (cur, false)
  | Str s => (s, false)
  | _ => (cur, true)
  end.
End json.

(** ** Collaborators

    The platform client [b.sc], the webhook client [b.mh], the channel
    directory [b.channels] and the functions of [bridge/helper] and
    [bridge/config] are given.  A request to the platform is answered by an
    oracle that sees how many requests went before it; the directory
    answers by how often it was refreshed. *)
Record Env := {
  sc_PostMessage : nat -> string -> list MsgOption -> Result string;
  sc_UpdateMessage : nat -> string -> string -> list MsgOption -> option error;
  sc_DeleteMessage : nat -> string -> string -> option error;
  sc_SetTopicOfConversation : nat -> string -> string -> option error;
  sc_SetPurposeOfConversation : nat -> string -> string -> option error;
  sc_UploadFile : nat -> FileUploadParameters.t -> Result UploadedFile.t;
  sc_JoinConversation : nat -> string -> option error;
  sc_GetUserInfo : nat -> string -> Result string;
  mh_Send : nat -> OMessage.t -> option error;
  channels_getChannel : nat -> string -> Result Channel.t;
  channels_getChannelByID : nat -> string -> Result Channel.t;
  channels_getChannelMembers : nat -> list string;
  helper_ClipMessage : string -> Z -> string -> string;
  helper_HandleExtra : Message.t -> list Message.t;
  helper_HandleDownloadSize : Message.t -> string -> Z -> Message.t * option error;
  helper_DownloadFileAuth : nat -> string -> string -> Result (list byte);
  helper_HandleDownloadData2 :
    Message.t -> string -> string -> string -> string -> list byte -> Message.t;
  config_GetIconURL : Message.t -> string -> string;
  replaceCodeFence : string -> string;
  extractTopicOrPurpose : string -> string * string;
  populateReceivedMessage : MessageEvent.t -> Result Message.t;
  fmt_Sprintf : string -> list (FmtArg error) -> string;
  (* encoding/json: the scanner (None on a syntax error), the rule that
     matches a member key with a field name, and the encoding of a string *)
  json_scan : string -> option json.value;
  json_keyMatches : string -> string -> bool;
  json_quote : string -> string }.

(** The adapter instance: its configuration and the fields set once. *)
Record Bslack := {
  GetString : string -> string;
  GetBool : string -> bool;
  uuid : string;
  legacy : bool;
  hasClient : bool;      (* b.sc != nil *)
  Account : string;
  Protocol : string }.

(** [err.Error()] *)
Definition Error (env : Env) (e : error) : string :=
  match e with
  | ErrorString s => s
  | RateLimitedError d =>
      fmt_Sprintf env "slack rate limit exceeded, retry after %s" [ArgDuration d]
  | Errorf format args => fmt_Sprintf env format args
  end.

(** A request to the platform: it is answered, counted and recorded. *)
Definition request {A} (e : Effect) (answer : nat -> A) : M A :=
  fun w => Ret (answer (World.calls w)) (World.request e w).

(** Modelled from the spec: [handleRateLimit] (section 4.9, RateLimiter),
    which the sources at hand call but do not include.  A rate-limit error
    carrying a suggested wait is retryable: the wait is slept and nil is
    returned; any other error is handed back. *)
Definition handleRateLimit (err : error) : M (option error) :=
  match err with
  | RateLimitedError d => time_Sleep d ;;; ret None
  | _ => ret (Some err)
  end.

(** ** [handlers.go]: the dedup check *)

(** [ok && time.Since(ts.(time.Time)) < window] *)
Definition fresh (r : option CacheVal) (window : time.Duration) : M bool :=
  match r with
  | Some v => ts <- asTime v ;; d <- time_Since ts ;; ret (bool_decide (d < window)%Z)
  | None => ret false
  end.

Definition fileCached (file : File.t) : M bool :=
  r <- cache_Get ("file" +:+ File.ID file) ;;
  hit <- fresh r time.Minute ;;
  if hit : bool then ret true
  else
    r <- cache_Get ("filename" +:+ File.Name file) ;;
    hit <- fresh r (10 * time.Second)%Z ;;
    if hit : bool then ret true else ret false.

Fixpoint filesCached (files : list File.t) : M bool :=
  match files with
  | [] => ret true
  | f :: files' =>
      c <- fileCached f ;;
      if c : bool then filesCached files' else ret false
  end.

(** ** [slack.go]: the outbound side *)

Definition extractStringField (data : gmap string Any) (field : string) : string :=
  match data !! field with
  | Some (AnyString value) => value
  | _ => ""
  end.

(** [createAttach]: every entry is asserted to be a map. *)
Fixpoint createAttach (entries : list Payload) : M (list Attachment.t) :=
  match entries with
  | [] => ret []
  | PMap entry :: entries' =>
      let s := Attachment.mk
        (extractStringField entry "fallback")
        (extractStringField entry "color")
        (extractStringField entry "pretext")
        (extractStringField entry "author_name")
        (extractStringField entry "author_link")
        (extractStringField entry "author_icon")
        (extractStringField entry "title")
        (extractStringField entry "title_link")
        (extractStringField entry "text")
        (extractStringField entry "image_url")
        (extractStringField entry "thumb_url")
        (extractStringField entry "footer")
        (extractStringField entry "footer_icon") in
      rest <- createAttach entries' ;;
      ret (s :: rest)
  | _ :: _ => panic
  end.

(** The loop [attachs = append(attachs, attach.([]slack.Attachment)...)]. *)
Fixpoint nativeAttachments (entries : list Payload) : M (list Attachment.t) :=
  match entries with
  | [] => ret []
  | PSlackAttachments l :: entries' =>
      rest <- nativeAttachments entries' ;;
      ret (l ++ rest)%list
  | _ :: _ => panic
  end.

(** [v[0].Ts] when the channel has a non-empty share list. *)
Definition firstShare (shares : gmap string (list string)) (channelID : string)
    (messageID : string) : string :=
  match shares !! channelID with
  | Some (ts :: _) => ts
  | _ => messageID
  end.

(** The parameters [uploadFile] hands to [UploadFile] for one file. *)
Definition uploadParameters (msg : Message.t) (fi : FileInfo.t) (channelID : string)
    : FileUploadParameters.t :=
  let initialComment := "File from " +:+ Message.Username msg in
  let initialComment :=
    if decide (FileInfo.Comment fi = "") then initialComment
    else initialComment +:+ " with comment: " +:+ FileInfo.Comment fi in
  FileUploadParameters.mk (FileInfo.Data fi) (FileInfo.Name fi)
    [channelID] initialComment (Message.ParentID msg).

Section Outbound.
Variable env : Env.
Variable b : Bslack.
(** The number of attempts after which a retry loop is given up as not
    returning. *)
Variable fuel : nat.

Definition originTag : string := "matterbridge_" +:+ uuid b.

Definition prepareMessageOptions (msg : Message.t) : M (list MsgOption) :=
  let iconURL := config_GetIconURL env msg (GetString b iconURLConfig) in
  let params := PostMessageParameters.mk
    (Message.Username msg)
    (GetBool b useNickPrefixConfig)
    1
    (if decide (Message.Avatar msg = "") then iconURL else Message.Avatar msg)
    (Message.ParentID msg) in
  files <- createAttach (Message.extra "attachments" msg) ;;
  native <- match Message.Extra msg with
            | Some _ => nativeAttachments (Message.extra sSlackAttachment msg)
            | None => ret []
            end ;;
  let attachments := (files ++ native)%list in
  ret [ MsgOptionText (Message.Text msg) false;
        MsgOptionBlocks [SectionBlock originTag (Message.Text msg)];
        MsgOptionEnableLinkUnfurl;
        MsgOptionAttachments attachments;
        MsgOptionPostMessageParameters params ].

(** The [for] loop of [postAPIMessage]. *)
Fixpoint postAPIMessage_loop (n : nat) (channelID : string)
    (messageOptions : list MsgOption) : M (string * option error) :=
  match n with
  | 0 => timeout
  | S n' =>
      r <- request (EPostMessage channelID messageOptions)
             (fun k => sc_PostMessage env k channelID messageOptions) ;;
      match r with
      | Ok id => ret (id, None)
      | Err err =>
          e <- handleRateLimit err ;;
          match e with
          | Some err' => ret ("", Some err')
          | None => postAPIMessage_loop n' channelID messageOptions
          end
      end
  end.

Definition postAPIMessage (msg : Message.t) (channelInfo : Channel.t)
    : M (string * option error) :=
  if decide (Message.Text msg = "") then ret ("", None)
  else
    messageOptions <- prepareMessageOptions msg ;;
    postAPIMessage_loop fuel (Channel.ID channelInfo) messageOptions.

(** The [for] loop of [editMessage]. *)
Fixpoint editMessage_loop (n : nat) (channelID ts : string)
    (messageOptions : list MsgOption) : M (bool * option error) :=
  match n with
  | 0 => timeout
  | S n' =>
      r <- request (EUpdateMessage channelID ts messageOptions)
             (fun k => sc_UpdateMessage env k channelID ts messageOptions) ;;
      match r with
      | None => ret (true, None)
      | Some err =>
          e <- handleRateLimit err ;;
          match e with
          | Some err' => ret (true, Some err')
          | None => editMessage_loop n' channelID ts messageOptions
          end
      end
  end.

Definition editMessage (msg : Message.t) (channelInfo : Channel.t)
    : M (bool * option error) :=
  if decide (Message.ID msg = "") then ret (false, None)
  else
    messageOptions <- prepareMessageOptions msg ;;
    editMessage_loop fuel (Channel.ID channelInfo) (Message.ID msg) messageOptions.

(** The [for] loop of [deleteMessage]. *)
Fixpoint deleteMessage_loop (n : nat) (channelID ts : string)
    : M (bool * option error) :=
  match n with
  | 0 => timeout
  | S n' =>
      r <- request (EDeleteMessage channelID ts)
             (fun k => sc_DeleteMessage env k channelID ts) ;;
      match r with
      | None => ret (true, None)
      | Some err =>
          e <- handleRateLimit err ;;
          match e with
          | Some err' => ret (true, Some err')
          | None => deleteMessage_loop n' channelID ts
          end
      end
  end.

Definition deleteMessage (msg : Message.t) (channelInfo : Channel.t)
    : M (bool * option error) :=
  if decide (Message.Event msg = config.EventMsgDelete) then
    if decide (Message.ID msg = "") then ret (true, None)
    else deleteMessage_loop fuel (Channel.ID channelInfo) (Message.ID msg)
  else ret (false, None).

(** The [for] loop of [updateTopicOrPurpose]. *)
Fixpoint updateTopicOrPurpose_loop (n : nat) (incomingChangeType : string)
    (channelID text : string) : M (option error) :=
  match n with
  | 0 => timeout
  | S n' =>
      if decide (incomingChangeType = "topic"
                 \/ incomingChangeType = "purpose") then
        r <- (if decide (incomingChangeType = "topic") then
                request (ESetTopicOfConversation channelID text)
                  (fun k => sc_SetTopicOfConversation env k channelID text)
              else
                request (ESetPurposeOfConversation channelID text)
                  (fun k => sc_SetPurposeOfConversation env k channelID text)) ;;
        match r with
        | None => ret None
        | Some err =>
            e <- handleRateLimit err ;;
            match e with
            | Some err' => ret (Some err')
            | None => updateTopicOrPurpose_loop n' incomingChangeType channelID text
            end
        end
      else ret None
  end.

Definition updateTopicOrPurpose (msg : Message.t) (channelInfo : Channel.t)
    : M (option error) :=
  let '(incomingChangeType, text) := extractTopicOrPurpose env (Message.Text msg) in
  updateTopicOrPurpose_loop fuel incomingChangeType (Channel.ID channelInfo) text.

Definition handleTopicOrPurpose (msg : Message.t) (channelInfo : Channel.t)
    : M (bool * option error) :=
  if decide (Message.Event msg = config.EventTopicChange) then
    if GetBool b "SyncTopic" then
      e <- updateTopicOrPurpose msg channelInfo ;;
      ret (true, e)
    else if GetBool b "ShowTopicChange" then ret (false, None)
    else ret (true, None)
  else ret (false, None).

(** The loop of [uploadFile] over [msg.Extra["file"]]; [msg.Text] is
    cleared along the way. *)
Fixpoint uploadFile_loop (files : list Payload) (msg : Message.t)
    (channelID messageID : string) : M (string * option error) :=
  match files with
  | [] => ret (messageID, None)
  | PFileInfo fi :: files' =>
      let msg := if decide (Message.Text msg = FileInfo.Comment fi)
                 then Message.withText "" msg else msg in
      ts <- time_Now ;;
      cache_Add ("filename" +:+ FileInfo.Name fi) (VTime ts) ;;;
      let params := uploadParameters msg fi channelID in
      r <- request (EUploadFile params) (fun k => sc_UploadFile env k params) ;;
      match r with
      | Err err => ret ("", Some err)
      | Ok res =>
          if decide (UploadedFile.ID res = "") then
            uploadFile_loop files' msg channelID messageID
          else
            cache_Add ("file" +:+ UploadedFile.ID res) (VTime ts) ;;;
            let messageID :=
              firstShare (UploadedFile.SharesPrivate res) channelID messageID in
            let messageID :=
              firstShare (UploadedFile.SharesPublic res) channelID messageID in
            uploadFile_loop files' msg channelID messageID
      end
  | _ :: files' => uploadFile_loop files' msg channelID messageID
  end.

Definition uploadFile (msg : Message.t) (channelID : string)
    : M (string * option error) :=
  uploadFile_loop (Message.extra "file" msg) msg channelID "".
End Outbound.

Section Dispatch.
Variable env : Env.
Variable b : Bslack.
Variable fuel : nat.

(** [handleGetChannelMembers] ([handlers.go]): the roster goes straight to
    the relay. *)
Definition handleGetChannelMembers (rmsg : Message.t) : M bool :=
  if decide (Message.Event rmsg = config.EventGetChannelMembers) then
    k <- gets World.refreshes ;;
    let cMembers := channels_getChannelMembers env k in
    let extra : gmap string (list Payload) :=
      {[ config.EventGetChannelMembers := [PChannelMembers cMembers] ]} in
    let msg := Message.mk "" "" "" "" "" "" "" config.EventGetChannelMembers
                 (Some extra) (Account b) "" in
    modify (World.emit (ERemote msg)) ;;;
    ret true
  else ret false.

(** The loop of [sendAPI] over the messages of [helper.HandleExtra]. *)
Fixpoint postExtraMsgs (extraMsgs : list Message.t) (channelInfo : Channel.t)
    : M unit :=
  match extraMsgs with
  | [] => ret tt
  | rmsg :: extraMsgs' =>
      let rmsg := Message.withText (Message.Username rmsg +:+ Message.Text rmsg) rmsg in
      postAPIMessage env b fuel rmsg channelInfo ;;;
      postExtraMsgs extraMsgs' channelInfo
  end.

Definition sendAPI (msg : Message.t) : M (string * option error) :=
  handled <- handleGetChannelMembers msg ;;
  if handled : bool then ret ("", None)
  else
    k <- gets World.refreshes ;;
    match channels_getChannel env k (Message.Channel msg) with
    | Err err => ret ("", Some (Errorf "could not send message: %v" [ArgError err]))
    | Ok channelInfo =>
        if decide (Message.Event msg = config.EventUserTyping) then ret ("", None)
        else
          r <- handleTopicOrPurpose env b fuel msg channelInfo ;;
          if r.1 then ret ("", r.2)
          else
            let msg :=
              if config.ParentNotFound msg then
                Message.withText ("[thread]: " +:+ Message.Text msg)
                  (Message.withParentID "" msg)
              else msg in
            r <- deleteMessage env fuel msg channelInfo ;;
            if r.1 then ret (Message.ID msg, r.2)
            else
              let msg :=
                if GetBool b useNickPrefixConfig then
                  Message.withText (Message.Username msg +:+ Message.Text msg) msg
                else msg in
              r <- editMessage env b fuel msg channelInfo ;;
              if r.1 then ret (Message.ID msg, r.2)
              else if decide (0 < Message.lenExtra msg)%nat then
                postExtraMsgs (helper_HandleExtra env msg) channelInfo ;;;
                uploadFile env msg (Channel.ID channelInfo)
              else postAPIMessage env b fuel msg channelInfo
    end.

(** The first loop of [sendWebhook]: one post per message of
    [helper.HandleExtra]; a failure is logged only. *)
Fixpoint sendExtraWebhooks (rmsgs : list Message.t) (channel : string) : M unit :=
  match rmsgs with
  | [] => ret tt
  | rmsg :: rmsgs' =>
      let iconURL := config_GetIconURL env rmsg (GetString b iconURLConfig) in
      let matterMessage :=
        OMessage.mk iconURL [] channel (Message.Username rmsg) (Message.Text rmsg) in
      request (EWebhookSend matterMessage) (fun k => mh_Send env k matterMessage) ;;;
      sendExtraWebhooks rmsgs' channel
  end.

(** The second loop of [sendWebhook]: the URLs of the files are appended
    to the text. *)
Fixpoint appendFileURLs (files : list Payload) (text : string) : string :=
  match files with
  | [] => text
  | PFileInfo fi :: files' =>
      appendFileURLs files'
        (if decide (FileInfo.URL fi = "") then text else text +:+ " " +:+ FileInfo.URL fi)
  | _ :: files' => appendFileURLs files' text
  end.

Definition sendWebhook (msg : Message.t) : M (option error) :=
  if decide (Message.Event msg = "") then
    let msg :=
      if GetBool b useNickPrefixConfig then
        Message.withText (Message.Username msg +:+ Message.Text msg) msg
      else msg in
    msg <- match Message.Extra msg with
           | Some _ =>
               sendExtraWebhooks (helper_HandleExtra env msg) (Message.Channel msg) ;;;
               ret (Message.withText
                      (appendFileURLs (Message.extra "file" msg) (Message.Text msg)) msg)
           | None => ret msg
           end ;;
    attachs <- nativeAttachments (Message.extra sSlackAttachment msg) ;;
    let iconURL := config_GetIconURL env msg (GetString b iconURLConfig) in
    let matterMessage :=
      OMessage.mk
        (if decide (Message.Avatar msg = "") then iconURL else Message.Avatar msg)
        attachs (Message.Channel msg) (Message.Username msg) (Message.Text msg) in
    request (EWebhookSend matterMessage) (fun k => mh_Send env k matterMessage)
  else ret None.

Definition Send (msg : Message.t) : M (string * option error) :=
  let msg := Message.withText
    (helper_ClipMessage env (Message.Text msg) messageLength
       (GetString b "MessageClipped")) msg in
  let msg := Message.withText (replaceCodeFence env (Message.Text msg)) msg in
  let msg :=
    if decide (Message.Event msg = config.EventUserAction) then
      Message.withText ("_" +:+ Message.Text msg +:+ "_") msg
    else msg in
  if decide (GetString b outgoingWebhookConfig <> ""
             /\ GetString b tokenConfig = "") then
    e <- sendWebhook msg ;;
    ret ("", e)
  else sendAPI msg.

Definition JoinChannel (name : string) : M (option error) :=
  if hasClient b then
    joined <-
      (if legacy b then
         r <- request (EJoinConversation name)
                (fun k => sc_JoinConversation env k name) ;;
         match r with
         | Some err =>
             let s := Error env err in
             if decide (s = "name_taken" \/ s = "restricted_action") then ret None
             else if decide (s = "default") then ret (Some err)
             else ret None
         | None => ret None
         end
       else ret None) ;;
    match joined with
    | Some err => ret (Some err)
    | None =>
        modify (World.refresh false) ;;;
        k <- gets World.refreshes ;;
        match channels_getChannel env k name with
        | Err err => ret (Some (Errorf "could not join channel: %#v" [ArgError err]))
        | Ok channelInfo =>
            (if String.prefix "ID:" name
             then modify (World.withUseChannelID true) else ret tt) ;;;
            if negb (Channel.IsMember channelInfo) && negb (legacy b) then
              ret (Some (Errorf
                "slack integration that matterbridge is using is not member of channel '%s', please add it manually"
                [ArgString (Channel.Name channelInfo)]))
            else ret None
        end
    end
  else ret None.
End Dispatch.

(** ** [handlers.go]: the inbound side *)

Definition newline : string := String (Ascii.ascii_of_nat 10) EmptyString.

Definition getMessageTitle (attach : Attachment.t) : string :=
  if decide (Attachment.TitleLink attach = "") then Attachment.Title attach
  else "[" +:+ Attachment.Title attach +:+ "](" +:+ Attachment.TitleLink attach
       +:+ ")" +:+ newline.

(** One round of the loop of [handleAttachments] over [ev.Attachments]:
    the text of the message after the round, from the text before it. *)
Definition attachmentText (text : string) (attach : Attachment.t) : string :=
  if decide (Attachment.Text attach = "") then Attachment.Fallback attach
  else
    let text := if decide (Attachment.Title attach = "") then text
                else getMessageTitle attach in
    let text := text +:+ Attachment.Text attach in
    if decide (Attachment.Footer attach = "") then text
    else text +:+ newline +:+ newline +:+ Attachment.Footer attach.

(** Has the block set exactly one block, a section block with our tag? *)
Definition ourCallbackID (tag : string) (blockSet : list Block) (previous : bool) : bool :=
  match blockSet with
  | [SectionBlock blockID _] => bool_decide (blockID = tag)
  | [OtherBlock _ _] => false
  | _ => previous
  end.

Section Inbound.
Variable env : Env.
Variable b : Bslack.

Definition skipMessageEvent (ev : MessageEvent.t) : M bool :=
  let subType := MessageEvent.SubType ev in
  if decide (subType = sChannelLeave \/ subType = sChannelJoin) then
    ret (GetBool b noSendJoinConfig)
  else if decide (subType = sPinnedItem \/ subType = sUnpinnedItem) then
    ret true
  else if decide ((subType = sChannelTopic \/ subType = sChannelPurpose)
                  /\ (MessageEvent.User ev = ""
                      \/ MessageEvent.User ev = sSlackBotUser)) then
    ret true
  else
    let hasOurCallbackID :=
      ourCallbackID (originTag b) (MessageEvent.Blocks ev) false in
    let continue (hasOurCallbackID : bool) : M bool :=
      if bool_decide (MessageEvent.Username ev = sSlackBotUser) || hasOurCallbackID then
        ret true
      else
        match MessageEvent.Files ev with
        | [] => ret false
        | files => filesCached files
        end in
    match MessageEvent.SubMessage ev with
    | Some sub =>
        if decide (Msg.ThreadTimestamp sub <> Msg.Timestamp sub
                   /\ Msg.Edited sub = None) then ret true
        else if bool_decide (subType = "message_replied") && MessageEvent.Hidden ev then
          ret true
        else
          continue (ourCallbackID (originTag b) (Msg.Blocks sub) hasOurCallbackID)
    | None => continue hasOurCallbackID
    end.

Definition handleStatusEvent (ev : MessageEvent.t) (rmsg : Message.t)
    : M (bool * Message.t) :=
  let subType := MessageEvent.SubType ev in
  if decide (subType = sChannelJoined \/ subType = sMemberJoined) then
    ret (true, rmsg)
  else if decide (subType = sChannelJoin \/ subType = sChannelLeave) then
    ret (false, Message.withEvent config.EventJoinLeave
                  (Message.withUsername sSystemUser rmsg))
  else if decide (subType = sChannelTopic \/ subType = sChannelPurpose) then
    modify (World.refresh false) ;;;
    ret (false, Message.withEvent config.EventTopicChange rmsg)
  else if decide (subType = sMessageChanged) then
    match MessageEvent.SubMessage ev with
    | None => panic
    | Some sub =>
        let rmsg := Message.withText (Msg.Text sub) rmsg in
        if decide (Msg.Text sub = "This message was deleted.") then
          ret (true, Message.withEvent config.EventMsgDelete rmsg)
        else ret (false, rmsg)
    end
  else if decide (subType = sMessageDeleted) then
    ret (true, Message.withID (MessageEvent.DeletedTimestamp ev)
                 (Message.withEvent config.EventMsgDelete
                    (Message.withText config.EventMsgDelete rmsg)))
  else if decide (subType = sMeMessage) then
    ret (false, Message.withEvent config.EventUserAction rmsg)
  else ret (false, rmsg).

(** [handleDownloadFile] calls itself once more, with [retry] set, after a
    first fetch of the wrong length; [n] bounds the depth of the calls. *)
Fixpoint handleDownloadFile_rec (n : nat) (rmsg : Message.t) (file : File.t)
    (retry : bool) : M (Message.t * option error) :=
  match n with
  | 0 => timeout
  | S n' =>
      cached <- fileCached file ;;
      if cached : bool then ret (rmsg, None)
      else
        let '(rmsg, rejected) :=
          helper_HandleDownloadSize env rmsg (File.Name file) (File.Size file) in
        match rejected with
        | Some _ => ret (rmsg, None)
        | None =>
            let url := File.URLPrivateDownload file in
            let auth := "Bearer " +:+ GetString b tokenConfig in
            r <- request (EDownloadFileAuth url auth)
                   (fun k => helper_DownloadFileAuth env k url auth) ;;
            match r with
            | Err err =>
                ret (rmsg, Some (Errorf "download %s failed %#v"
                                   [ArgString url; ArgError err]))
            | Ok data =>
                if bool_decide (Z.of_nat (length data) <> File.Size file) && negb retry then
                  time_Sleep (1 * time.Second)%Z ;;;
                  handleDownloadFile_rec n' rmsg file true
                else
                  let comment := Message.Text rmsg in
                  let rmsg := Message.withText "" rmsg in
                  ret (helper_HandleDownloadData2 env rmsg (File.Name file)
                         (File.ID file) comment url data, None)
            end
        end
  end.

Definition handleDownloadFile := handleDownloadFile_rec 2.

(** The loop of [handleAttachments] over [ev.Files]. *)
Fixpoint downloadFiles (files : list File.t) (channel : string) (rmsg : Message.t)
    : M Message.t :=
  match files with
  | [] => ret rmsg
  | file :: files' =>
      cache_Add (cfileDownloadChannel +:+ File.ID file) (VString channel) ;;;
      r <- handleDownloadFile rmsg file false ;;
      downloadFiles files' channel r.1
  end.

Definition handleAttachments (ev : MessageEvent.t) (rmsg : Message.t) : M Message.t :=
  let rmsg :=
    if decide (MessageEvent.SubType ev = sFileComment)
    then Message.withUsername sSystemUser rmsg else rmsg in
  let rmsg :=
    if decide (Message.Text rmsg = "") then
      Message.withText
        (fold_left attachmentText (MessageEvent.Attachments ev) (Message.Text rmsg)) rmsg
    else rmsg in
  rmsg <- match MessageEvent.Attachments ev with
          | [] => ret rmsg
          | attachments =>
              match Message.Extra rmsg with
              | None => panic
              | Some extra =>
                  let saved := (Message.extra sSlackAttachment rmsg
                                ++ [PSlackAttachments attachments])%list in
                  ret (Message.withExtra (Some (<[sSlackAttachment := saved]> extra)) rmsg)
              end
          end ;;
  downloadFiles (MessageEvent.Files ev) (MessageEvent.Channel ev) rmsg.

Definition handleMessageEvent (ev : MessageEvent.t)
    : M (option Message.t * option error) :=
  match populateReceivedMessage env ev with
  | Err err => ret (None, Some err)
  | Ok rmsg =>
      r <- handleStatusEvent ev rmsg ;;
      if r.1 then ret (Some r.2, None)
      else
        rmsg <- handleAttachments ev r.2 ;;
        if bool_decide (MessageEvent.Files ev = [])
           && (bool_decide (Message.Text rmsg = "")
               || bool_decide (Message.Username rmsg = ""))
        then
          if decide (MessageEvent.BotID ev = "") then
            match MessageEvent.SubMessage ev with
            | Some sub =>
                ret (None, Some (Errorf
                  "message handling resulted in an empty message: %#v with submessage %#v"
                  [ArgEvent ev; ArgSubMessage sub]))
            | None =>
                ret (None, Some (Errorf
                  "message handling resulted in an empty message: %#v" [ArgEvent ev]))
            end
          else
            ret (None, Some (Errorf
              "message handling resulted in an empty bot message (probably an incoming webhook we couldn't resolve): %#v"
              [ArgEvent ev]))
        else ret (Some rmsg, None)
  end.
End Inbound.

(** ** [slack.go]: the events endpoint *)

Module PreviousMessage.
Record t := mk { Ts : string; User : string; Text : string }.
Definition zero : t := mk "" "" "".
End PreviousMessage.

Module SlackEvent.
Record t := mk {
  Type_ : string; SubType : string; User : string; Text : string;
  Channel : string; Ts : string; DeletedTs : string;
  PreviousMessage : PreviousMessage.t }.
Definition zero : t := mk "" "" "" "" "" "" "" PreviousMessage.zero.
End SlackEvent.

Module SlackEventWrapper.
Record t := mk { Type_ : string; Challenge : string; Event : SlackEvent.t }.
Definition zero : t := mk "" "" SlackEvent.zero.
End SlackEventWrapper.

(** What the handler has written so far ([http.ResponseWriter]). *)
Module ResponseWriter.
Record t := mk {
  header : gmap string string;
  status : option Z;
  body : string }.

Definition fresh : t := mk ∅ None "".

Definition Header_Set (k v : string) (w : t) : t :=
  mk (<[k := v]> (header w)) (status w) (body w).

(** Only the first [WriteHeader] counts. *)
Definition WriteHeader (code : Z) (w : t) : t :=
  match status w with
  | Some _ => w
  | None => mk (header w) (Some code) (body w)
  end.

(** A first [Write] without a status sends 200. *)
Definition Write (data : string) (w : t) : t :=
  let w := WriteHeader 200 w in
  mk (header w) (status w) (body w +:+ data).

End ResponseWriter.

Definition dquote : string := String (Ascii.ascii_of_nat 34) EmptyString.

Section Events.
Variable env : Env.
Variable b : Bslack.

(** [http.Error(w, text, code)] *)
Definition http_Error (text : string) (code : Z) (w : ResponseWriter.t)
    : ResponseWriter.t :=
  let w := ResponseWriter.Header_Set "Content-Type" "text/plain; charset=utf-8" w in
  let w := ResponseWriter.Header_Set "X-Content-Type-Options" "nosniff" w in
  let w := ResponseWriter.WriteHeader code w in
  ResponseWriter.Write (text +:+ newline) w.

(** Storing the members of an object into the structs, in the order of
    the text; a later member with the same key overwrites. *)
Fixpoint storePreviousMessage (members : list (string * json.value))
    (cur : PreviousMessage.t) : PreviousMessage.t * bool :=
  match members with
  | [] => (cur, false)
  | (k, v) :: members' =>
      let '(cur, bad) :=
        if json_keyMatches env k "ts" then
          let '(x, bad) := json.storeString v (PreviousMessage.Ts cur) in
          (PreviousMessage.mk x (PreviousMessage.User cur) (PreviousMessage.Text cur), bad)
        else if json_keyMatches env k "user" then
          let '(x, bad) := json.storeString v (PreviousMessage.User cur) in
          (PreviousMessage.mk (PreviousMessage.Ts cur) x (PreviousMessage.Text cur), bad)
        else if json_keyMatches env k "text" then
          let '(x, bad) := json.storeString v (PreviousMessage.Text cur) in
          (PreviousMessage.mk (PreviousMessage.Ts cur) (PreviousMessage.User cur) x, bad)
        else (cur, false) in
      let '(cur, bad') := storePreviousMessage members' cur in
      (cur, bad || bad')
  end.

Definition storeStruct {A} (store : list (string * json.value) -> A -> A * bool)
    (v : json.value) (cur : A) : A * bool :=
  match v with
  | json.Null => (cur, false)
  | json.Object members => store members cur
  | _ => (cur, true)
  end.

Fixpoint storeEvent (members : list (string * json.value)) (cur : SlackEvent.t)
    : SlackEvent.t * bool :=
  match members with
  | [] => (cur, false)
  | (k, v) :: members' =>
      let '(SlackEvent.mk ty st us tx ch ts dts pm) := cur in
      let '(cur, bad) :=
        if json_keyMatches env k "type" then
          let '(x, bad) := json.storeString v ty in
          (SlackEvent.mk x st us tx ch ts dts pm, bad)
        else if json_keyMatches env k "subtype" then
          let '(x, bad) := json.storeString v st in
          (SlackEvent.mk ty x us tx ch ts dts pm, bad)
        else if json_keyMatches env k "user" then
          let '(x, bad) := json.storeString v us in
          (SlackEvent.mk ty st x tx ch ts dts pm, bad)
        else if json_keyMatches env k "text" then
          let '(x, bad) := json.storeString v tx in
          (SlackEvent.mk ty st us x ch ts dts pm, bad)
        else if json_keyMatches env k "channel" then
          let '(x, bad) := json.storeString v ch in
          (SlackEvent.mk ty st us tx x ts dts pm, bad)
        else if json_keyMatches env k "ts" then
          let '(x, bad) := json.storeString v ts in
          (SlackEvent.mk ty st us tx ch x dts pm, bad)
        else if json_keyMatches env k "deleted_ts" then
          let '(x, bad) := json.storeString v dts in
          (SlackEvent.mk ty st us tx ch ts x pm, bad)
        else if json_keyMatches env k "previous_message" then
          let '(x, bad) := storeStruct storePreviousMessage v pm in
          (SlackEvent.mk ty st us tx ch ts dts x, bad)
        else (cur, false) in
      let '(cur, bad') := storeEvent members' cur in
      (cur, bad || bad')
  end.

Fixpoint storeWrapper (members : list (string * json.value))
    (cur : SlackEventWrapper.t) : SlackEventWrapper.t * bool :=
  match members with
  | [] => (cur, false)
  | (k, v) :: members' =>
      let '(SlackEventWrapper.mk ty c e) := cur in
      let '(cur, bad) :=
        if json_keyMatches env k "type" then
          let '(x, bad) := json.storeString v ty in
          (SlackEventWrapper.mk x c e, bad)
        else if json_keyMatches env k "challenge" then
          let '(x, bad) := json.storeString v c in
          (SlackEventWrapper.mk ty x e, bad)
        else if json_keyMatches env k "event" then
          let '(x, bad) := storeStruct storeEvent v e in
          (SlackEventWrapper.mk ty c x, bad)
        else (cur, false) in
      let '(cur, bad') := storeWrapper members' cur in
      (cur, bad || bad')
  end.

(** The anonymous struct with the one field [Challenge]. *)
Fixpoint storeChallenge (members : list (string * json.value)) (cur : string)
    : string * bool :=
  match members with
  | [] => (cur, false)
  | (k, v) :: members' =>
      let '(cur, bad) :=
        if json_keyMatches env k "challenge" then json.storeString v cur
        else (cur, false) in
      let '(cur, bad') := storeChallenge members' cur in
      (cur, bad || bad')
  end.

(** [json.Unmarshal(body, &x)] from the zero value of [x]: a text that
    does not scan is an error and stores nothing. *)
Definition Unmarshal {A} (store : list (string * json.value) -> A -> A * bool)
    (body : string) (zero : A) : A * bool :=
  match json_scan env body with
  | None => (zero, true)
  | Some v => storeStruct store v zero
  end.

Definition handleSlackEvents (body : string) : M ResponseWriter.t :=
  let w := ResponseWriter.fresh in
  let evt := (Unmarshal storeWrapper body SlackEventWrapper.zero).1 in
  if decide (SlackEventWrapper.Type_ evt = "url_verification") then
    let '(challenge, bad) := Unmarshal storeChallenge body "" in
    if bad then ret (http_Error "bad request" 400 w)
    else
      let w := ResponseWriter.Header_Set "Content-Type" "application/json" w in
      let resp := "{" +:+ dquote +:+ "challenge" +:+ dquote +:+ ":"
                  +:+ json_quote env challenge +:+ "}" +:+ newline in
      ret (ResponseWriter.Write resp w)
  else
    let ev := SlackEventWrapper.Event evt in
    if bool_decide (SlackEventWrapper.Type_ evt = "event_callback")
       && bool_decide (SlackEvent.Type_ ev = "message")
       && negb (bool_decide (SlackEvent.SubType ev = "bot_message")) then
      k <- gets World.refreshes ;;
      match channels_getChannelByID env k (SlackEvent.Channel ev) with
      | Err _ => ret w
      | Ok channel =>
          username <-
            (if decide (SlackEvent.User ev = "") then ret (SlackEvent.User ev)
             else
               r <- request (EGetUserInfo (SlackEvent.User ev))
                      (fun k => sc_GetUserInfo env k (SlackEvent.User ev)) ;;
               match r with
               | Err _ => ret (SlackEvent.User ev)
               | Ok displayName =>
                   if decide (displayName = "") then ret (SlackEvent.User ev)
                   else ret displayName
               end) ;;
          let msg := Message.mk "" "" (Channel.Name channel) username "" ""
                       (SlackEvent.Text ev) "" None (Account b) "slack" in
          modify (World.emit (ERemote msg)) ;;;
          ret (ResponseWriter.WriteHeader 200 w)
      end
    else ret (ResponseWriter.WriteHeader 200 w).
End Events.

(** ** [handlers.go]: deleted files and typing *)

(** The assertion [rawChannel.(string)]. *)
Definition asString (v : CacheVal) : M string :=
  match v with
  | VString s => ret s
  | VTime _ => panic
  end.

Section FileEvents.
Variable env : Env.
Variable b : Bslack.

(** [handleFileDeletedEvent], on the [FileID] of the event. *)
Definition handleFileDeletedEvent (fileID : string)
    : M (option Message.t * option error) :=
  r <- cache_Get (cfileDownloadChannel +:+ fileID) ;;
  match r with
  | Some rawChannel =>
      id <- asString rawChannel ;;
      k <- gets World.refreshes ;;
      match channels_getChannelByID env k id with
      | Err err => ret (None, Some err)
      | Ok channel =>
          ret (Some (Message.mk fileID "" (Channel.Name channel) "" "" ""
                       config.EventFileDelete config.EventFileDelete None
                       (Account b) (Protocol b)), None)
      end
  | None =>
      ret (None, Some (Errorf "channel ID for file ID %s not found"
                         [ArgString fileID]))
  end.

(** [handleTypingEvent], on the [Channel] of the event. *)
Definition handleTypingEvent (channel : string)
    : M (option Message.t * option error) :=
  k <- gets World.refreshes ;;
  match channels_getChannelByID env k channel with
  | Err err => ret (None, Some err)
  | Ok channelInfo =>
      ret (Some (Message.mk "" "" (Channel.Name channelInfo) "" "" "" ""
                   config.EventUserTyping None (Account b) ""), None)
  end.
End FileEvents.

(** ** [slack.go]: connecting *)

(** What [Connect] leaves in the bridge: whether the API client and the
    events listener exist, the webhook client with its settings, and
    whether the receive loop [handleSlack] was started. *)
Module Connection.
Record t := mk {
  sc : bool;
  eventServer : bool;
  mhInsecureSkipVerify : bool;
  mhUrl : string;
  mhBindAddress : string;
  mhDisableServer : bool;
  receiving : bool }.
End Connection.

(** [Connect]: the webhook client is built whether or not there is a
    token. *)
Definition Connect (b : Bslack) : Result Connection.t :=
  if decide (GetString b incomingWebhookConfig = ""
             /\ GetString b outgoingWebhookConfig = ""
             /\ GetString b tokenConfig = "") then
    Err (ErrorString
      "no connection method found: WebhookBindAddress, WebhookURL or Token need to be configured")
  else
    let token := GetString b "TokenBot" in
    let token := if decide (token = "") then GetString b tokenConfig else token in
    let withToken := negb (bool_decide (token = "")) in
    let listening := negb (bool_decide (GetString b incomingWebhookConfig = "")) in
    Ok (Connection.mk withToken withToken (GetBool b "SkipTLSVerify")
          (GetString b outgoingWebhookConfig)
          (GetString b incomingWebhookConfig)
          (negb listening) listening).

(** ** [slack.go]: creating the bridge *)

(** The configuration of a bridge ([bridge.Config]), as far as the adapter
    reads it. *)
Module bridge.
Record Config := mk {
  GetString : string -> string;
  GetBool : string -> bool;
  Account : string;
  Protocol : string }.
End bridge.




(** ** [handlers.go]: the legacy receive loop *)

(** A message of the incoming webhook ([matterhook.IMessage]). *)
Module IMessage.
Record t := mk { UserName : string; Text : string; ChannelName : string }.
End IMessage.

(** The text rewriters of the bridge and the avatar lookup of the user
    directory, which the sources at hand call and do not include.  The
    directory [b.users] is created by [Connect] only with a token; the
    lookup is an answer, or none where it does not return. *)
Record Cleanup := {
  replaceMention : string -> string;
  replaceVariable : string -> string;
  replaceChannel : string -> string;
  replaceURL : string -> string;
  replaceb0rkedMarkDown : string -> string;
  html_UnescapeString : string -> string;
  users_getAvatar : string -> option string }.

(** [handleMatterHook] over the messages [b.mh.Receive()] returns one
    after the other: what it puts on the queue. *)
Fixpoint handleMatterHook (received : list IMessage.t) : list Message.t :=
  match received with
  | [] => []
  | message :: received' =>
      if decide (IMessage.UserName message = "slackbot") then
        handleMatterHook received'
      else
        Message.mk "" "" (IMessage.ChannelName message) (IMessage.UserName message)
          "" "" (IMessage.Text message) "" None "" ""
        :: handleMatterHook received'
  end.

Section ReceiveLoop.
Variable clean : Cleanup.
Variable b : Bslack.

(** The body of the loop of [handleSlack] for one queued message. *)
Definition forward (message : Message.t) : M unit :=
  message <-
    (if bool_decide (Message.Event message <> config.EventUserTyping)
        && bool_decide (Message.Event message <> config.EventMsgDelete)
        && bool_decide (Message.Event message <> config.EventFileDelete) then
       let text := replaceMention clean (Message.Text message) in
       let text := replaceVariable clean text in
       let text := replaceChannel clean text in
       let text := replaceURL clean text in
       let text := replaceb0rkedMarkDown clean text in
       let text := html_UnescapeString clean text in
       let message := Message.withText text message in
       match users_getAvatar clean (Message.UserID message) with
       | Some avatar =>
           ret (Message.mk (Message.ID message) (Message.ParentID message)
                  (Message.Channel message) (Message.Username message)
                  (Message.UserID message) avatar
                  (Message.Text message) (Message.Event message)
                  (Message.Extra message)
                  (Message.Account message) (Message.Protocol message))
       | None => panic
       end
     else ret message) ;;
  modify (World.emit (ERemote message)).

Fixpoint forwardAll (messages : list Message.t) : M unit :=
  match messages with
  | [] => ret tt
  | message :: messages' => forward message ;;; forwardAll messages'
  end.

(** [handleSlack] while the webhook client hands over [received]: the
    queue is fed by [handleMatterHook] only without a token; with one,
    nothing ever arrives on it. *)
Definition handleSlack (received : list IMessage.t) : M unit :=
  let messages :=
    if decide (GetString b incomingWebhookConfig <> ""
               /\ GetString b tokenConfig = "")
    then handleMatterHook received else [] in
  time_Sleep time.Second ;;;
  forwardAll messages.
End ReceiveLoop.

(** * Notions used in the statements *)

(** What [fresh] answers at a given time, [None] for a panic. *)
Definition freshAt (now : time.Time) (window : time.Duration) (r : option CacheVal)
    : option bool :=
  match r with
  | None => Some false
  | Some (VTime ts) => Some (bool_decide (time.Sub now ts < window)%Z)
  | Some (VString _) => None
  end.

Definition idKey (file : File.t) : string := "file" +:+ File.ID file.
Definition nameKey (file : File.t) : string := "filename" +:+ File.Name file.

(** The cache after [uploadFile] has recorded both markers of a file at
    time [T]: the filename marker first, the file-id marker after it. *)
Definition marked (T : time.Time) (name id : string) (c : lru.Cache) : lru.Cache :=
  lru.Add ("file" +:+ id) (VTime T) (lru.Add ("filename" +:+ name) (VTime T) c).

(** The world after a call was tried and answered with a rate-limit error
    once per entry of [waits], each wait slept before the next attempt. *)
Definition retried (e : Effect) (waits : list time.Duration) (w : World.t) : World.t :=
  fold_left (fun w d => World.sleep d (World.request e w)) waits w.

(** ... and after one more attempt. *)
Definition afterRetries (e : Effect) (waits : list time.Duration) (w : World.t)
    : World.t :=
  World.request e (retried e waits w).

(** A retry loop around one platform call [e], answered by [answer] at the
    [k]-th request: while the answers are rate-limit errors the loop sleeps
    the indicated wait and asks again; it returns with the first answer
    that is a success or another error, and in no other way. *)
Definition RetryLoop {A R} (loop : nat -> M A) (e : Effect)
    (answer : nat -> Result R) (ok : R -> A) (ko : error -> A) : Prop :=
  forall (waits : list time.Duration) (fuel : nat) (w : World.t),
    (forall i d, waits !! i = Some d ->
       answer (World.calls w + i) = Err (RateLimitedError d)) ->
    (length waits < fuel ->
       match answer (World.calls w + length waits) with
       | Ok r => loop fuel w = Ret (ok r) (afterRetries e waits w)
       | Err (RateLimitedError _) => True
       | Err err => loop fuel w = Ret (ko err) (afterRetries e waits w)
       end)
    /\ (fuel <= length waits -> loop fuel w = Timeout).

(** An answer without a value: nil or an error. *)
Definition answered (r : option error) : Result unit :=
  match r with
  | None => Ok tt
  | Some err => Err err
  end.

(** The message [Send] hands to a sender: the text clipped, its code fences
    rewritten, and wrapped in emphasis marks for a user action. *)
Definition outgoing (env : Env) (b : Bslack) (msg : Message.t) : Message.t :=
  let text := replaceCodeFence env
                (helper_ClipMessage env (Message.Text msg) messageLength
                   (GetString b "MessageClipped")) in
  Message.withText
    (if decide (Message.Event msg = config.EventUserAction)
     then "_" +:+ text +:+ "_" else text) msg.

(** The routing rule as the spec words it. *)
Definition webhookConfigured (b : Bslack) : Prop :=
  GetString b outgoingWebhookConfig <> "" /\ GetString b tokenConfig = "".

(** The block set is exactly one section block, and its ID is the tag of
    this instance. *)
Definition ownMarker (b : Bslack) (blockSet : list Block) : Prop :=
  exists text, blockSet = [SectionBlock (originTag b) text].

(** The event carries the marker, in itself or in its sub-message. *)
Definition carriesOwnMarker (b : Bslack) (ev : MessageEvent.t) : Prop :=
  ownMarker b (MessageEvent.Blocks ev)
  \/ exists sub, MessageEvent.SubMessage ev = Some sub /\ ownMarker b (Msg.Blocks sub).

(** The marker that decides: the one of the sub-message when there is a
    sub-message with exactly one block, the one of the event otherwise. *)
Definition decidingMarker (b : Bslack) (ev : MessageEvent.t) : Prop :=
  match MessageEvent.SubMessage ev with
  | Some sub =>
      ownMarker b (Msg.Blocks sub)
      \/ (ownMarker b (MessageEvent.Blocks ev) /\ length (Msg.Blocks sub) <> 1)
  | None => ownMarker b (MessageEvent.Blocks ev)
  end.


(** The text of the message a handler returned. *)
Definition textOf (r : Res Message.t) : option string :=
  match r with
  | Ret m _ => Some (Message.Text m)
  | _ => None
  end.

(** [w'] is [w] with the entries of the cache in another order. *)
Definition reordered (w w' : World.t) : Prop :=
  exists c, w' = World.withCache c w
            /\ forall k, lru.Peek k c = lru.Peek k (World.cache w).

(** The world after a download was requested twice with a second in between. *)
Definition afterTwoDownloads (url auth : string) (w : World.t) : World.t :=
  World.request (EDownloadFileAuth url auth)
    (World.sleep (1 * time.Second)
       (World.request (EDownloadFileAuth url auth) w)).

(** The envelope the endpoint reads from a body, and the challenge it reads
    on the verification path together with the flag of a failed parse. *)
Definition envelope (env : Env) (body : string) : SlackEventWrapper.t :=
  (Unmarshal env (storeWrapper env) body SlackEventWrapper.zero).1.

Definition challengeOf (env : Env) (body : string) : string * bool :=
  Unmarshal env (storeChallenge env) body "".


(** The message the endpoint forwards for an event. *)
Definition relayed (b : Bslack) (ev : SlackEvent.t) (channel : Channel.t)
    (username : string) : Message.t :=
  Message.mk "" "" (Channel.Name channel) username "" "" (SlackEvent.Text ev) ""
    None (Account b) "slack".

(** Is the envelope a message event the endpoint accepts? *)
Definition acceptedMessage (evt : SlackEventWrapper.t) : Prop :=
  SlackEventWrapper.Type_ evt = "event_callback"
  /\ SlackEvent.Type_ (SlackEventWrapper.Event evt) = "message"
  /\ SlackEvent.SubType (SlackEventWrapper.Event evt) <> "bot_message".

(** Is the effect a post to the outgoing webhook? *)
Definition isWebhookSend (e : Effect) : bool :=
  match e with
  | EWebhookSend _ => true
  | _ => false
  end.

(** [w'] continues the trace of [w] with effects that satisfy [P] only. *)
Definition continues (P : Effect -> bool) (w w' : World.t) : Prop :=
  exists t, World.trace w' = (World.trace w ++ t)%list /\ forallb P t = true.

(** Whenever [m] returns, it has added to the trace effects that satisfy
    [P] only. *)
Definition emits {A} (P : Effect -> bool) (m : M A) : Prop :=
  forall w a w', m w = Ret a w' -> continues P w w'.

Definition notWebhookSend (e : Effect) : bool := negb (isWebhookSend e).

(** What [fileCached] answers for a cache and a time, [None] for a panic. *)
Definition cachedAt (c : lru.Cache) (now : time.Time) (file : File.t) : option bool :=
  match freshAt now time.Minute (lru.Peek (idKey file) c) with
  | None => None
  | Some true => Some true
  | Some false => freshAt now (10 * time.Second) (lru.Peek (nameKey file) c)
  end.

(** The options [prepareMessageOptions] builds around given attachments. *)
Definition messageOptions (env : Env) (b : Bslack) (msg : Message.t)
    (attachments : list Attachment.t) : list MsgOption :=
  [ MsgOptionText (Message.Text msg) false;
    MsgOptionBlocks [SectionBlock (originTag b) (Message.Text msg)];
    MsgOptionEnableLinkUnfurl;
    MsgOptionAttachments attachments;
    MsgOptionPostMessageParameters
      (PostMessageParameters.mk (Message.Username msg)
         (GetBool b useNickPrefixConfig) 1
         (if decide (Message.Avatar msg = "")
          then config_GetIconURL env msg (GetString b iconURLConfig)
          else Message.Avatar msg)
         (Message.ParentID msg)) ].

(** The message after the thread fallback of [sendAPI]. *)
Definition unthreaded (msg : Message.t) : Message.t :=
  if config.ParentNotFound msg then
    Message.withText ("[thread]: " +:+ Message.Text msg) (Message.withParentID "" msg)
  else msg.

(** The message after the nickname prefix of [sendAPI]. *)
Definition prefixed (b : Bslack) (msg : Message.t) : Message.t :=
  if GetBool b useNickPrefixConfig then
    Message.withText (Message.Username msg +:+ Message.Text msg) msg
  else msg.

(** An event that none of the subtype rules of [skipMessageEvent] and no
    sub-message decides. *)
Definition plainEvent (ev : MessageEvent.t) : Prop :=
  MessageEvent.SubType ev = "" /\ MessageEvent.SubMessage ev = None.

(** A message none of the early rules of [sendAPI] takes: no roster
    request, no typing notice, no topic change, no deletion. *)
Definition ordinary (msg : Message.t) : Prop :=
  Message.Event msg <> config.EventGetChannelMembers
  /\ Message.Event msg <> config.EventUserTyping
  /\ Message.Event msg <> config.EventTopicChange
  /\ Message.Event msg <> config.EventMsgDelete.

(** The message [sendAPI] edits, uploads or posts. *)
Definition dressed (env : Env) (b : Bslack) (msg : Message.t) : Message.t :=
  prefixed b (unthreaded (outgoing env b msg)).

(** The roster message [handleGetChannelMembers] hands to the relay. *)
Definition rosterMessage (env : Env) (b : Bslack) (w : World.t) : Message.t :=
  Message.mk "" "" "" "" "" "" "" config.EventGetChannelMembers
    (Some {[ config.EventGetChannelMembers :=
               [PChannelMembers (channels_getChannelMembers env (World.refreshes w))] ]})
    (Account b) "".

Definition isUploadFile (e : Effect) : bool :=
  match e with
  | EUploadFile _ => true
  | _ => false
  end.

Definition isTopicCall (e : Effect) : bool :=
  match e with
  | ESetTopicOfConversation _ _ | ESetPurposeOfConversation _ _ | ESleep _ => true
  | _ => false
  end.

(** The options [prepareMessageOptions] builds for a message, which do not
    depend on the world. *)
Definition prepared (env : Env) (b : Bslack) (msg : Message.t)
    (opts : list MsgOption) : Prop :=
  forall w, prepareMessageOptions env b msg w = Ret opts w.

(** The directory resolves the channel of the message, at every refresh. *)
Definition resolves (env : Env) (msg : Message.t) (channelInfo : Channel.t) : Prop :=
  forall k, channels_getChannel env k (Message.Channel msg) = Ok channelInfo.

(** Is the payload a generic attachment, a map of fields? *)
Definition isMap (p : Payload) : bool :=
  match p with
  | PMap _ => true
  | _ => false
  end.

(** Is the payload a list of native attachments? *)
Definition isSlackAttachments (p : Payload) : bool :=
  match p with
  | PSlackAttachments _ => true
  | _ => false
  end.

(** * A concrete scenario

    A platform that answers the first two requests it receives with a
    rate-limit error and accepts every later one, a directory that knows
    every channel with a name, helpers that leave short texts alone, and a
    bridge configured with a bot token. *)
Module scenario.
Definition limited (k : nat) : option error :=
  match k with
  | 0 => Some (RateLimitedError (2 * time.Second))
  | 1 => Some (RateLimitedError (3 * time.Second))
  | _ => None
  end.

Definition posted : string := "1700000000.000200".

Definition uploaded : UploadedFile.t := UploadedFile.mk "F1" ∅ ∅.

Definition quoted (s : string) : string := dquote +:+ s +:+ dquote.

(** [{"type":"url_verification","challenge":"tok"}] *)
Definition verification : string :=
  "{" +:+ quoted "type" +:+ ":" +:+ quoted "url_verification" +:+ ","
  +:+ quoted "challenge" +:+ ":" +:+ quoted "tok" +:+ "}".

(** [{"type":"url_verification","challenge":5}] *)
Definition badVerification : string :=
  "{" +:+ quoted "type" +:+ ":" +:+ quoted "url_verification" +:+ ","
  +:+ quoted "challenge" +:+ ":5}".

(** [{"type":"event_callback","event":{"type":"message","user":"U1","text":"hi","channel":"C1"}}] *)
Definition messageEvent : string :=
  "{" +:+ quoted "type" +:+ ":" +:+ quoted "event_callback" +:+ ","
  +:+ quoted "event" +:+ ":{" +:+ quoted "type" +:+ ":" +:+ quoted "message" +:+ ","
  +:+ quoted "user" +:+ ":" +:+ quoted "U1" +:+ ","
  +:+ quoted "text" +:+ ":" +:+ quoted "hi" +:+ ","
  +:+ quoted "channel" +:+ ":" +:+ quoted "C1" +:+ "}}".

Definition scan (body : string) : option json.value :=
  if decide (body = verification) then
    Some (json.Object [("type", json.Str "url_verification");
                       ("challenge", json.Str "tok")])
  else if decide (body = badVerification) then
    Some (json.Object [("type", json.Str "url_verification");
                       ("challenge", json.Number "5")])
  else if decide (body = messageEvent) then
    Some (json.Object
            [("type", json.Str "event_callback");
             ("event", json.Object [("type", json.Str "message");
                                    ("user", json.Str "U1");
                                    ("text", json.Str "hi");
                                    ("channel", json.Str "C1")])])
  else None.

Definition keep (m : Message.t) (name id comment url : string) (data : list byte)
    : Message.t :=
  Message.withExtra
    (Some (<["file" := (Message.extra "file" m
                        ++ [PFileInfo (FileInfo.mk name data comment url)])%list]>
             (default ∅ (Message.Extra m)))) m.

Definition env : Env := {|
  sc_PostMessage := fun k _ _ =>
    match limited k with Some e => Err e | None => Ok posted end;
  sc_UpdateMessage := fun k _ _ _ => limited k;
  sc_DeleteMessage := fun k _ _ => limited k;
  sc_SetTopicOfConversation := fun k _ _ => limited k;
  sc_SetPurposeOfConversation := fun k _ _ => limited k;
  sc_UploadFile := fun _ _ => Ok uploaded;
  sc_JoinConversation := fun _ _ => Some (ErrorString "channel_not_found");
  sc_GetUserInfo := fun _ _ => Ok "alice";
  mh_Send := fun _ _ => None;
  channels_getChannel := fun _ name =>
    if decide (name = "") then Err (ErrorString "channel not found")
    else Ok (Channel.mk "C1" name true);
  channels_getChannelByID := fun _ id =>
    if decide (id = "") then Err (ErrorString "channel not found")
    else Ok (Channel.mk id "general" true);
  channels_getChannelMembers := fun _ => [];
  helper_ClipMessage := fun text _ _ => text;
  helper_HandleExtra := fun _ => [];
  helper_HandleDownloadSize := fun m _ _ => (m, None);
  helper_DownloadFileAuth := fun _ _ _ => Ok [Byte.x00];
  helper_HandleDownloadData2 := keep;
  config_GetIconURL := fun _ url => url;
  replaceCodeFence := fun text => text;
  extractTopicOrPurpose := fun text => ("topic", text);
  populateReceivedMessage := fun ev =>
    Ok (Message.mk "" "" (MessageEvent.Channel ev) (MessageEvent.Username ev)
          (MessageEvent.User ev) "" (MessageEvent.Text ev) "" (Some ∅)
          "slack.test" "slack");
  fmt_Sprintf := fun format _ => format;
  json_scan := scan;
  json_keyMatches := fun k name => bool_decide (k = name);
  json_quote := quoted |}.

Definition configured (settings : list (string * string)) (k : string) : string :=
  default "" (snd <$> List.find (fun kv => bool_decide (kv.1 = k)) settings).

(** A bridge with a bot token, no webhook, and every switch off. *)
Definition bridge : Bslack := {|
  GetString := configured [(tokenConfig, "xoxb-1")];
  GetBool := fun _ => false;
  uuid := "c5k2a9";
  legacy := false;
  hasClient := true;
  Account := "slack.test";
  Protocol := "slack" |}.


(** The same bridge with the nickname prefix switched on. *)
Definition prefixingBridge : Bslack := {|
  GetString := configured [(tokenConfig, "xoxb-1")];
  GetBool := fun k => bool_decide (k = useNickPrefixConfig);
  uuid := "c5k2a9";
  legacy := false;
  hasClient := true;
  Account := "slack.test";
  Protocol := "slack" |}.

(** A bridge with an outgoing webhook and no bot token. *)
Definition webhookBridge : Bslack := {|
  GetString := configured [(outgoingWebhookConfig, "https://hooks.example/T1")];
  GetBool := fun _ => false;
  uuid := "c5k2a9";
  legacy := false;
  hasClient := false;
  Account := "slack.test";
  Protocol := "slack" |}.

(** An empty cache, the clock at 0, nothing sent yet. *)
Definition world : World.t := World.mk [] 0 0 0 false [].

Definition report : FileInfo.t := FileInfo.mk "report.pdf" [Byte.x25] "" "".

Definition fileMsg : Message.t :=
  Message.mk "" "" "general" "bob" "" "" "" ""
    (Some {[ "file" := [PFileInfo report] ]}) "" "".

(** A join event that carries the marker of [bridge]. *)
Definition markedJoin : MessageEvent.t :=
  MessageEvent.mk sChannelJoin "U1" "alice" "" "C1" "alice has joined" false ""
    [SectionBlock (originTag bridge) "alice has joined"] None [] [].

(** A message of ours as the platform sends it back. *)
Definition echo : MessageEvent.t :=
  MessageEvent.mk "" "U1" "alice" "" "C1" "hello" false ""
    [SectionBlock (originTag bridge) "hello"] None [] [].

(** An attachment with a fallback only, one with a text only, and one with
    a title and a text. *)
Definition fallbackOnly : Attachment.t :=
  Attachment.mk "x" "" "" "" "" "" "" "" "" "" "" "" "".

Definition textOnly : Attachment.t :=
  Attachment.mk "" "" "" "" "" "" "" "" "b" "" "" "" "".

Definition titled : Attachment.t :=
  Attachment.mk "" "" "" "" "" "" "Release" "" " is out" "" "" "" "".

Definition attached (attachments : list Attachment.t) : MessageEvent.t :=
  MessageEvent.mk "" "U1" "alice" "" "C1" "" false "" [] None [] attachments.

(** The message built from an event without text. *)
Definition received : Message.t :=
  Message.mk "" "" "C1" "alice" "U1" "" "" "" (Some ∅) "slack.test" "slack".

(** A file whose declared size is two bytes. *)
Definition short : File.t :=
  File.mk "F7" "short.bin" 2 "https://files.example/short.bin".

(** A message of ours with the block of a third party in its previous
    version. *)
Definition echoWithForeignSub : MessageEvent.t :=
  MessageEvent.mk sMessageChanged "U1" "alice" "" "C1" "hello" false ""
    [SectionBlock (originTag bridge) "hello"]
    (Some (Msg.mk "hello" "1700000000.000100" "1700000000.000100" None
             [SectionBlock "greeting" "hello"]))
    [] [].

Definition hello : Message.t :=
  Message.mk "" "" "general" "bob" "" "" "hello" "" None "" "".

(** A plain message without text, from bob. *)
Definition blankMsg : Message.t :=
  Message.mk "" "" "general" "bob" "" "" "" "" None "" "".

(** The same bridge under another UUID. *)
Definition otherBridge : Bslack := {|
  GetString := configured [(tokenConfig, "xoxb-1")];
  GetBool := fun _ => false;
  uuid := "d7m3b1";
  legacy := false;
  hasClient := true;
  Account := "slack.test";
  Protocol := "slack" |}.

(** An inbound event that carries the file the platform called F1. *)
Definition sighting : MessageEvent.t :=
  MessageEvent.mk "" "U1" "alice" "" "C1" "" false "" [] None
    [File.mk "F1" "report.pdf" 1 "https://files.example/report.pdf"] [].

(** The deletion of the message with timestamp 42, from a sender without a
    name. *)
Definition deleted : MessageEvent.t :=
  MessageEvent.mk sMessageDeleted "U1" "" "" "C1" "" true "42" [] None [] [].

(** The scenario with other answers of the platform to the calls of the
    API sender and to uploads. *)
Definition answering (answer : nat -> option error)
    (upload : nat -> Result UploadedFile.t) : Env := {|
  sc_PostMessage := fun k _ _ =>
    match answer k with Some e => Err e | None => Ok posted end;
  sc_UpdateMessage := fun k _ _ _ => answer k;
  sc_DeleteMessage := fun k _ _ => answer k;
  sc_SetTopicOfConversation := fun k _ _ => answer k;
  sc_SetPurposeOfConversation := fun k _ _ => answer k;
  sc_UploadFile := fun k _ => upload k;
  sc_JoinConversation := sc_JoinConversation env;
  sc_GetUserInfo := sc_GetUserInfo env;
  mh_Send := mh_Send env;
  channels_getChannel := channels_getChannel env;
  channels_getChannelByID := channels_getChannelByID env;
  channels_getChannelMembers := channels_getChannelMembers env;
  helper_ClipMessage := helper_ClipMessage env;
  helper_HandleExtra := helper_HandleExtra env;
  helper_HandleDownloadSize := helper_HandleDownloadSize env;
  helper_DownloadFileAuth := helper_DownloadFileAuth env;
  helper_HandleDownloadData2 := helper_HandleDownloadData2 env;
  config_GetIconURL := config_GetIconURL env;
  replaceCodeFence := replaceCodeFence env;
  extractTopicOrPurpose := extractTopicOrPurpose env;
  populateReceivedMessage := populateReceivedMessage env;
  fmt_Sprintf := fmt_Sprintf env;
  json_scan := json_scan env;
  json_keyMatches := json_keyMatches env;
  json_quote := json_quote env |}.

(** A platform that accepts every call at once. *)
Definition accepting : Env := answering (fun _ => None) (fun _ => Ok uploaded).

(** A message without text whose thread parent the relay could not find. *)
Definition orphan : Message.t :=
  Message.mk "" config.ParentIDNotFound "general" "bob" "" "" "" "" None "" "".

(** The edit and the deletion of the message with ID 123. *)
Definition edited : Message.t :=
  Message.mk "123" "" "general" "bob" "" "" "hi edited" "" None "" "".

Definition deletion : Message.t :=
  Message.mk "123" "" "general" "bob" "" "" "" config.EventMsgDelete None "" "".

(** A typing notice for a channel without a name, and a request for the
    members of the channels. *)
Definition typing : Message.t :=
  Message.mk "" "" "" "bob" "" "" "" config.EventUserTyping None "" "".

Definition rosterRequest : Message.t :=
  Message.mk "" "" "" "" "" "" "" config.EventGetChannelMembers None "" "".

(** The bridge with topic sync switched on, and a topic change. *)
Definition syncingBridge : Bslack := {|
  GetString := configured [(tokenConfig, "xoxb-1")];
  GetBool := fun k => bool_decide (k = "SyncTopic");
  uuid := "c5k2a9";
  legacy := false;
  hasClient := true;
  Account := "slack.test";
  Protocol := "slack" |}.

Definition topicChange : Message.t :=
  Message.mk "" "" "general" "bob" "" "" "release day" config.EventTopicChange
    None "" "".

(** A message with a text that carries the attachments of another bridge. *)
Definition forwarded : Message.t :=
  Message.mk "" "" "general" "bob" "" "" "see the attachment" ""
    (Some {[ sSlackAttachment := [PSlackAttachments [titled]] ]}) "" "".

(** A user action. *)
Definition action : Message.t :=
  Message.mk "" "" "general" "bob" "" "" "waves" config.EventUserAction None "" "".

(** A bridge with a bot token and a bind address for the incoming
    webhook. *)
Definition listeningBridge : Bslack := {|
  GetString := configured [(tokenConfig, "xoxb-1");
                           (incomingWebhookConfig, "0.0.0.0:9999")];
  GetBool := fun _ => false;
  uuid := "c5k2a9";
  legacy := false;
  hasClient := true;
  Account := "slack.test";
  Protocol := "slack" |}.

(** An event without text that carries two attachments and the file F1,
    whose declared size is the one byte the download yields. *)
Definition attachedFile : MessageEvent.t :=
  MessageEvent.mk "" "U1" "alice" "" "C1" "" false "" [] None
    [File.mk "F1" "report.pdf" 1 "https://files.example/report.pdf"]
    [fallbackOnly; titled].

(** The configuration of [bridge]. *)
Definition settings : bridge.Config := {|
  bridge.GetString := configured [(tokenConfig, "xoxb-1")];
  bridge.GetBool := fun _ => false;
  bridge.Account := "slack.test";
  bridge.Protocol := "slack" |}.


(** An edit whose generic attachments hold a string in place of a map. *)
Definition malformedEdit : Message.t :=
  Message.mk "123" "" "general" "bob" "" "" "hi edited" ""
    (Some {[ "attachments" := [PMap ∅; POther] ]}) "" "".

End scenario.

(** * Properties *)

(** ** The cache *)

Module lru_facts.
Import lru.

Lemma Peek_remove_eq k c : Peek k (remove k c) = None.
Proof.
  induction c as [|[k' v] c IH]; simpl; [done|].
  destruct (decide (k = k')) as [->|Hne]; [done|].
  simpl. by destruct (decide (k = k')).
Qed.

Lemma Peek_remove_ne k k' c : k <> k' -> Peek k (remove k' c) = Peek k c.
Proof.
  intros Hne. induction c as [|[k'' v] c IH]; simpl; [done|].
  destruct (decide (k' = k'')) as [->|Hne'].
  - destruct (decide (k = k'')); [congruence|done].
  - simpl. by rewrite IH.
Qed.

(** A hit reorders the cache and keeps what it holds. *)
Lemma Get_fst k c : (Get k c).1 = Peek k c.
Proof. unfold Get. by destruct (Peek k c). Qed.

Lemma Peek_Get k k' c : Peek k (Get k' c).2 = Peek k c.
Proof.
  unfold Get. destruct (Peek k' c) as [v|] eqn:E; simpl; [|done].
  destruct (decide (k = k')) as [->|Hne]; [done|].
  by apply Peek_remove_ne.
Qed.

Lemma Peek_removelast k c :
  Peek k (removelast c) = Peek k c \/ Peek k (removelast c) = None.
Proof.
  induction c as [|[k' v] c IH]; [by left|].
  destruct c as [|kv c]; [by right|].
  change (removelast ((k', v) :: kv :: c)) with ((k', v) :: removelast (kv :: c)).
  simpl Peek at 1 3. simpl Peek at 2.
  destruct (decide (k = k')); [by left|exact IH].
Qed.

(** The entry just added is at the front, whatever was evicted. *)
Lemma Add_front k v c : exists rest, Add k v c = (k, v) :: rest.
Proof.
  unfold Add. destruct (Peek k c); [by eexists|].
  cbv zeta. destruct (decide _) as [Hfull|]; [|by eexists].
  destruct c as [|kv c]; [simpl in Hfull; unfold size in Hfull; lia|].
  by eexists.
Qed.

Lemma Peek_Add_eq k v c : Peek k (Add k v c) = Some v.
Proof.
  destruct (Add_front k v c) as [rest ->]. simpl.
  by destruct (decide (k = k)).
Qed.

(** Another key is found as before, unless it was the one evicted. *)
Lemma Peek_Add_ne k k' v c :
  k <> k' -> Peek k (Add k' v c) = Peek k c \/ Peek k (Add k' v c) = None.
Proof.
  intros Hne. unfold Add. destruct (Peek k' c).
  - left. simpl. destruct (decide (k = k')); [done|]. by apply Peek_remove_ne.
  - cbv zeta. destruct (decide _).
    + destruct (Peek_removelast k ((k', v) :: c)) as [->| ->]; [|by right].
      left. simpl. by destruct (decide (k = k')).
    + left. simpl. by destruct (decide (k = k')).
Qed.

(** The entry added just before the last one is never the one evicted. *)
Lemma Peek_Add_Add k1 v1 k2 v2 c :
  Peek k1 (Add k2 v2 (Add k1 v1 c)) = Some (if decide (k1 = k2) then v2 else v1).
Proof.
  destruct (decide (k1 = k2)) as [->|Hne]; [apply Peek_Add_eq|].
  destruct (Add_front k1 v1 c) as [rest ->].
  unfold Add. simpl Peek at 2.
  destruct (decide (k2 = k1)) as [|_]; [congruence|].
  destruct (Peek k2 rest).
  - simpl. destruct (decide (k1 = k2)); [done|].
    destruct (decide (k2 = k1)); [congruence|]. simpl.
    by destruct (decide (k1 = k1)).
  - cbv zeta. destruct (decide _) as [Hfull|].
    + destruct rest as [|kv rest];
        [simpl in Hfull; unfold size in Hfull; lia|].
      change (removelast ((k2, v2) :: (k1, v1) :: kv :: rest))
        with ((k2, v2) :: (k1, v1) :: removelast (kv :: rest)).
      simpl. destruct (decide (k1 = k2)); [done|].
      by destruct (decide (k1 = k1)).
    + simpl. destruct (decide (k1 = k2)); [done|].
      by destruct (decide (k1 = k1)).
Qed.
End lru_facts.

(** ** The dedup check *)

Lemma fresh_run r window w :
  fresh r window w =
  match freshAt (World.now w) window r with
  | Some hit => Ret hit w
  | None => Panic
  end.
Proof. by destruct r as [[ts|s]|]. Qed.

(** [fileCached] looks only at the two markers and the clock; it changes
    the order of the cache and nothing else. *)
Lemma fileCached_run file w :
  let c := World.cache w in
  let c1 := (lru.Get (idKey file) c).2 in
  let c2 := (lru.Get (nameKey file) c1).2 in
  fileCached file w =
  match freshAt (World.now w) time.Minute (lru.Peek (idKey file) c) with
  | None => Panic
  | Some true => Ret true (World.withCache c1 w)
  | Some false =>
      match freshAt (World.now w) (10 * time.Second)%Z (lru.Peek (nameKey file) c) with
      | None => Panic
      | Some hit => Ret hit (World.withCache c2 w)
      end
  end.
Proof.
  intros c c1 c2. unfold fileCached, bind at 1, cache_Get.
  fold (idKey file) (nameKey file) c.
  rewrite <- (lru_facts.Get_fst (idKey file) c).
  rewrite <- (lru_facts.Peek_Get (nameKey file) (idKey file) c).
  rewrite <- (lru_facts.Get_fst (nameKey file) (lru.Get (idKey file) c).2).
  fold c1. destruct (lru.Get (idKey file) c) as [r1 c1'] eqn:E1.
  subst c1. simpl. unfold bind at 1. rewrite fresh_run. simpl.
  destruct (freshAt (World.now w) time.Minute r1) as [[|]|]; try done.
  unfold bind at 1, cache_Get. simpl.
  subst c2. simpl. destruct (lru.Get (nameKey file) c1') as [r2 c2'] eqn:E2. simpl.
  unfold bind at 1. rewrite fresh_run. simpl.
  by destruct (freshAt (World.now w) (10 * time.Second)%Z r2) as [[|]|].
Qed.

Lemma Sub_within (t u d : Z) :
  (u <= t < u + d)%Z -> (d <= time.Minute)%Z -> (time.Sub t u < d)%Z.
Proof. unfold time.Sub, time.Minute, time.Second, time.minDuration, time.maxDuration. lia. Qed.

Lemma Sub_expired (t u d : Z) :
  (u + d <= t)%Z -> (d <= time.Minute)%Z -> ~ (time.Sub t u < d)%Z.
Proof. unfold time.Sub, time.Minute, time.Second, time.minDuration, time.maxDuration. lia. Qed.

(** ** Upload markers and the dedup windows *)

Lemma marked_id T name id c :
  lru.Peek ("file" +:+ id) (marked T name id c) = Some (VTime T).
Proof. apply lru_facts.Peek_Add_eq. Qed.

Lemma marked_name T name id c :
  lru.Peek ("filename" +:+ name) (marked T name id c) = Some (VTime T).
Proof.
  unfold marked. rewrite lru_facts.Peek_Add_Add. by destruct (decide _).
Qed.

Lemma marked_other T name id c k :
  lru.Peek k (marked T name id c) = Some (VTime T)
  \/ lru.Peek k (marked T name id c) = lru.Peek k c
  \/ lru.Peek k (marked T name id c) = None.
Proof.
  unfold marked.
  destruct (decide (k = "file" +:+ id)) as [->|Hid];
    [left; apply lru_facts.Peek_Add_eq|].
  destruct (lru_facts.Peek_Add_ne k _ (VTime T)
              (lru.Add ("filename" +:+ name) (VTime T) c) Hid) as [-> | ->];
    [|by right; right].
  destruct (decide (k = "filename" +:+ name)) as [->|Hname];
    [left; apply lru_facts.Peek_Add_eq|].
  destruct (lru_facts.Peek_Add_ne k _ (VTime T) c Hname) as [-> | ->];
    [by right; left|by right; right].
Qed.

(** [uploadFile] on a message with one file that the platform accepts. *)
Lemma uploadFile_one env msg channelID fi res w :
  Message.extra "file" msg = [PFileInfo fi] ->
  sc_UploadFile env (World.calls w) (uploadParameters msg fi channelID) = Ok res ->
  UploadedFile.ID res <> "" ->
  exists messageID w',
    uploadFile env msg channelID w = Ret (messageID, None) w'
    /\ World.cache w'
       = marked (World.now w) (FileInfo.Name fi) (UploadedFile.ID res) (World.cache w)
    /\ World.trace w' = (World.trace w ++ [EUploadFile (uploadParameters msg fi channelID)])%list.
Proof.
  intros Hfiles Hup Hid. unfold uploadFile. rewrite Hfiles. simpl.
  unfold bind, time_Now, gets, cache_Add, modify, request. simpl.
  replace (uploadParameters (if decide (Message.Text msg = FileInfo.Comment fi)
                             then Message.withText "" msg else msg) fi channelID)
    with (uploadParameters msg fi channelID) by (by destruct (decide _)).
  rewrite Hup. destruct (decide (UploadedFile.ID res = "")); [done|]. simpl.
  by eexists _, _.
Qed.

(** [UploadFile] is asked once: a rate-limit error is returned like any
    other, without a wait and without a second request. *)
Lemma uploadFile_rate_limit_not_retried env msg channelID fi d w :
  Message.extra "file" msg = [PFileInfo fi] ->
  sc_UploadFile env (World.calls w) (uploadParameters msg fi channelID)
  = Err (RateLimitedError d) ->
  exists w',
    uploadFile env msg channelID w = Ret ("", Some (RateLimitedError d)) w'
    /\ World.trace w'
       = (World.trace w ++ [EUploadFile (uploadParameters msg fi channelID)])%list
    /\ World.now w' = World.now w.
Proof.
  intros Hfiles Hup. unfold uploadFile. rewrite Hfiles. simpl.
  unfold bind, time_Now, gets, cache_Add, modify, request. simpl.
  replace (uploadParameters (if decide (Message.Text msg = FileInfo.Comment fi)
                             then Message.withText "" msg else msg) fi channelID)
    with (uploadParameters msg fi channelID) by (by destruct (decide _)).
  rewrite Hup. by eexists.
Qed.

(** C2. After [uploadFile] has recorded the markers of a file at time [T]
    (the filename marker before the upload, the file-id marker once the
    platform has returned the ID), [fileCached] answers true for a file with
    that ID asked less than 60 seconds after [T], true for a file with that
    name asked less than 10 seconds after [T], and false for the same file
    asked once 60 seconds have passed.  A file with that name and another ID
    is looked up under its own file-id key first; that key is taken not to
    hold a channel binding. *)
Theorem uploadFile_then_fileCached env msg channelID fi res w :
  Message.extra "file" msg = [PFileInfo fi] ->
  sc_UploadFile env (World.calls w) (uploadParameters msg fi channelID) = Ok res ->
  UploadedFile.ID res <> "" ->
  exists messageID w',
    uploadFile env msg channelID w = Ret (messageID, None) w'
    /\ (forall file wq,
          World.cache wq = World.cache w' ->
          File.ID file = UploadedFile.ID res ->
          (World.now w <= World.now wq < World.now w + 60 * time.Second)%Z ->
          exists wq', fileCached file wq = Ret true wq')
    /\ (forall file wq,
          World.cache wq = World.cache w' ->
          File.Name file = FileInfo.Name fi ->
          (forall s, lru.Peek (idKey file) (World.cache w) <> Some (VString s)) ->
          (World.now w <= World.now wq < World.now w + 10 * time.Second)%Z ->
          exists wq', fileCached file wq = Ret true wq')
    /\ (forall file wq,
          World.cache wq = World.cache w' ->
          File.ID file = UploadedFile.ID res ->
          File.Name file = FileInfo.Name fi ->
          (World.now w + 60 * time.Second <= World.now wq)%Z ->
          exists wq', fileCached file wq = Ret false wq').
Proof.
  intros Hfiles Hup Hid.
  destruct (uploadFile_one env msg channelID fi res w Hfiles Hup Hid)
    as (messageID & w' & Hrun & Hcache & _).
  exists messageID, w'. split; [exact Hrun|].
  set (T := World.now w) in *. set (c := World.cache w) in *.
  repeat split.
  - intros file wq Hc Hfid Ht. rewrite fileCached_run. cbv zeta.
    rewrite Hc, Hcache. unfold idKey. rewrite Hfid, marked_id. simpl.
    rewrite bool_decide_eq_true_2; [by eexists|].
    apply Sub_within; unfold time.Minute in *; lia.
  - intros file wq Hc Hname Htyped Ht. rewrite fileCached_run. cbv zeta.
    rewrite Hc, Hcache. unfold nameKey. rewrite Hname, marked_name.
    assert (Hin : (time.Sub (World.now wq) T < 10 * time.Second)%Z)
      by (apply Sub_within; unfold time.Minute, time.Second in *; lia).
    simpl freshAt at 2. rewrite (bool_decide_eq_true_2 _ Hin).
    destruct (marked_other T (FileInfo.Name fi) (UploadedFile.ID res) c (idKey file))
      as [-> | [-> | ->]].
    + simpl. rewrite bool_decide_eq_true_2; [by eexists|].
      unfold time.Minute, time.Second in *; lia.
    + destruct (lru.Peek (idKey file) c) as [[ts|s]|] eqn:E; simpl.
      * destruct (bool_decide _); by eexists.
      * by destruct (Htyped s).
      * by eexists.
    + simpl. by eexists.
  - intros file wq Hc Hfid Hname Ht. rewrite fileCached_run. cbv zeta.
    rewrite Hc, Hcache. unfold idKey, nameKey.
    rewrite Hfid, Hname, marked_id, marked_name. simpl.
    rewrite bool_decide_eq_false_2;
      [|apply Sub_expired; unfold time.Minute, time.Second in *; lia].
    rewrite bool_decide_eq_false_2;
      [|apply Sub_expired; unfold time.Minute, time.Second in *; lia].
    by eexists.
Qed.

(** ** The retry loops of the API sender *)

Lemma retried_cons e d waits w :
  retried e (d :: waits) w = retried e waits (World.sleep d (World.request e w)).
Proof. reflexivity. Qed.

Lemma afterRetries_calls e waits w :
  World.calls (afterRetries e waits w) = World.calls w + length waits + 1.
Proof.
  unfold afterRetries. revert w. induction waits as [|d waits IH]; intros w.
  - simpl. lia.
  - rewrite retried_cons. specialize (IH (World.sleep d (World.request e w))).
    simpl in *. lia.
Qed.

Lemma afterRetries_now e waits w :
  World.now (afterRetries e waits w)
  = (World.now w + foldr Z.add 0 (Z.max 0 <$> waits))%Z.
Proof.
  unfold afterRetries. revert w. induction waits as [|d waits IH]; intros w.
  - cbn. lia.
  - rewrite retried_cons. specialize (IH (World.sleep d (World.request e w))).
    cbn in *. lia.
Qed.

Lemma afterRetries_trace e waits w :
  World.trace (afterRetries e waits w)
  = (World.trace w ++ concat ((fun d => [e; ESleep d]) <$> waits) ++ [e])%list.
Proof.
  unfold afterRetries. revert w. induction waits as [|d waits IH]; intros w.
  - done.
  - rewrite retried_cons. specialize (IH (World.sleep d (World.request e w))).
    simpl in *. rewrite IH. by rewrite <- !app_assoc.
Qed.

Lemma afterRetries_cache e waits w :
  World.cache (afterRetries e waits w) = World.cache w.
Proof.
  unfold afterRetries. revert w. induction waits as [|d waits IH]; intros w.
  - done.
  - rewrite retried_cons. by rewrite (IH (World.sleep d (World.request e w))).
Qed.

(** A loop that stops without fuel and otherwise asks once, returning on a
    success or on another error and starting over after the indicated
    wait on a rate-limit error, is a retry loop. *)
Lemma RetryLoop_intro {A R} (loop : nat -> M A) e (answer : nat -> Result R) ok ko :
  (forall w, loop 0 w = Timeout) ->
  (forall n w,
     loop (S n) w =
     match answer (World.calls w) with
     | Ok r => Ret (ok r) (World.request e w)
     | Err (RateLimitedError d) => loop n (World.sleep d (World.request e w))
     | Err err => Ret (ko err) (World.request e w)
     end) ->
  RetryLoop loop e answer ok ko.
Proof.
  intros H0 HS waits. induction waits as [|d waits IH]; intros fuel w Hw.
  - split; intros Hf.
    + destruct fuel as [|n]; [simpl in Hf; lia|].
      rewrite HS. simpl. rewrite Nat.add_0_r.
      by destruct (answer (World.calls w)) as [r|[d|s|f a]].
    + simpl in Hf. assert (fuel = 0) as -> by lia. apply H0.
  - assert (Hd : answer (World.calls w) = Err (RateLimitedError d)).
    { rewrite <- (Nat.add_0_r (World.calls w)). by apply Hw. }
    set (w1 := World.sleep d (World.request e w)).
    assert (Hw1 : forall i d', waits !! i = Some d' ->
                    answer (World.calls w1 + i) = Err (RateLimitedError d')).
    { intros i d' Hi. replace (World.calls w1 + i) with (World.calls w + S i)
        by (simpl; lia). by apply Hw. }
    split; intros Hf.
    + destruct fuel as [|n]; [simpl in Hf; lia|].
      rewrite HS, Hd. fold w1.
      destruct (IH n w1 Hw1) as [Hret _].
      replace (World.calls w + length (d :: waits))
        with (World.calls w1 + length waits) by (simpl; lia).
      unfold afterRetries in *. rewrite retried_cons. fold w1.
      apply Hret. simpl in Hf. lia.
    + destruct fuel as [|n]; [apply H0|].
      rewrite HS, Hd. fold w1.
      destruct (IH n w1 Hw1) as [_ Hout]. apply Hout. simpl in Hf. lia.
Qed.

Section RetryLoops.
Variable env : Env.

Lemma postAPIMessage_loop_retries channelID opts :
  RetryLoop (fun n => postAPIMessage_loop env n channelID opts)
    (EPostMessage channelID opts)
    (fun k => sc_PostMessage env k channelID opts)
    (fun id => (id, None)) (fun err => ("", Some err)).
Proof.
  apply RetryLoop_intro; [done|]. intros n w. simpl.
  unfold bind, request.
  by destruct (sc_PostMessage env (World.calls w) channelID opts) as [id|[d|s|f a]].
Qed.

Lemma editMessage_loop_retries channelID ts opts :
  RetryLoop (fun n => editMessage_loop env n channelID ts opts)
    (EUpdateMessage channelID ts opts)
    (fun k => answered (sc_UpdateMessage env k channelID ts opts))
    (fun _ => (true, None)) (fun err => (true, Some err)).
Proof.
  apply RetryLoop_intro; [done|]. intros n w. simpl.
  unfold bind, request.
  by destruct (sc_UpdateMessage env (World.calls w) channelID ts opts) as [[d|s|f a]|].
Qed.

Lemma deleteMessage_loop_retries channelID ts :
  RetryLoop (fun n => deleteMessage_loop env n channelID ts)
    (EDeleteMessage channelID ts)
    (fun k => answered (sc_DeleteMessage env k channelID ts))
    (fun _ => (true, None)) (fun err => (true, Some err)).
Proof.
  apply RetryLoop_intro; [done|]. intros n w. simpl.
  unfold bind, request.
  by destruct (sc_DeleteMessage env (World.calls w) channelID ts) as [[d|s|f a]|].
Qed.

Lemma setTopic_loop_retries channelID text :
  RetryLoop (fun n => updateTopicOrPurpose_loop env n "topic" channelID text)
    (ESetTopicOfConversation channelID text)
    (fun k => answered (sc_SetTopicOfConversation env k channelID text))
    (fun _ => None) (fun err => Some err).
Proof.
  apply RetryLoop_intro; [done|]. intros n w. simpl.
  unfold bind, request.
  by destruct (sc_SetTopicOfConversation env (World.calls w) channelID text)
    as [[d|s|f a]|].
Qed.

Lemma setPurpose_loop_retries channelID text :
  RetryLoop (fun n => updateTopicOrPurpose_loop env n "purpose" channelID text)
    (ESetPurposeOfConversation channelID text)
    (fun k => answered (sc_SetPurposeOfConversation env k channelID text))
    (fun _ => None) (fun err => Some err).
Proof.
  apply RetryLoop_intro; [done|]. intros n w. simpl.
  unfold bind, request.
  by destruct (sc_SetPurposeOfConversation env (World.calls w) channelID text)
    as [[d|s|f a]|].
Qed.
End RetryLoops.

(** ** Routing of outbound messages *)

Lemma outgoing_Event env b msg :
  Message.Event (outgoing env b msg) = Message.Event msg.
Proof. reflexivity. Qed.

Lemma Send_webhook_mode env b fuel msg w :
  webhookConfigured b ->
  Send env b fuel msg w
  = bind (sendWebhook env b (outgoing env b msg)) (fun e => ret ("", e)) w.
Proof.
  intros H. unfold Send, webhookConfigured, outgoing in *. simpl.
  destruct (decide (Message.Event msg = config.EventUserAction));
    by destruct (decide (GetString b outgoingWebhookConfig <> ""
                         /\ GetString b tokenConfig = "")).
Qed.

Lemma Send_api_mode env b fuel msg w :
  ~ webhookConfigured b ->
  Send env b fuel msg w = sendAPI env b fuel (outgoing env b msg) w.
Proof.
  intros H. unfold Send, webhookConfigured, outgoing in *. simpl.
  destruct (decide (Message.Event msg = config.EventUserAction));
    by destruct (decide (GetString b outgoingWebhookConfig <> ""
                         /\ GetString b tokenConfig = "")).
Qed.

(** ** Blank messages at [Send] *)

(** A plain message whose text is empty after clipping and fence rewriting,
    with no ID and no extras, and a configured nickname prefix: the prefix
    makes the text non-empty and the message is posted. *)
Lemma Send_blank_message_prefixed_is_posted :
  (Message.Event scenario.blankMsg = ""
   /\ Message.ID scenario.blankMsg = ""
   /\ Message.lenExtra scenario.blankMsg = 0
   /\ Message.Text (outgoing scenario.env scenario.prefixingBridge scenario.blankMsg) = ""
   /\ (webhookConfigured scenario.prefixingBridge -> False))
  /\ exists opts w',
       Send scenario.env scenario.prefixingBridge 3 scenario.blankMsg scenario.world
       = Ret (scenario.posted, None) w'
       /\ World.trace w'
          = [EPostMessage "C1" opts; ESleep (2 * time.Second);
             EPostMessage "C1" opts; ESleep (3 * time.Second);
             EPostMessage "C1" opts]
       /\ In (MsgOptionText "bob" false) opts.
Proof.
  split.
  - repeat split; try reflexivity. intros [_ H]. discriminate H.
  - eexists _, _. split; [vm_compute; reflexivity|].
    split; [reflexivity|]. simpl. auto.
Qed.

(** C10 (as amended). A plain message (no event, no ID, no extras) whose
    text is empty after clipping and fence rewriting is dropped by [Send]
    in API mode, with no request to the platform and the answer (empty ID,
    nil), provided its channel resolves, its parent is not marked as not
    found, and no nickname prefix makes the text non-empty. *)
Theorem Send_blank_message_dropped env b fuel msg channelInfo w :
  ~ webhookConfigured b ->
  Message.Event msg = "" ->
  Message.ID msg = "" ->
  Message.lenExtra msg = 0 ->
  Message.Text (outgoing env b msg) = "" ->
  channels_getChannel env (World.refreshes w) (Message.Channel msg) = Ok channelInfo ->
  Message.ParentID msg <> config.ParentIDNotFound ->
  (GetBool b useNickPrefixConfig = true -> Message.Username msg = "") ->
  Send env b fuel msg w = Ret ("", None) w.
Proof.
  intros Hapi Hev Hid Hextra Htext Hch Hparent Hnick.
  rewrite (Send_api_mode env b fuel msg w Hapi).
  set (m := outgoing env b msg) in *.
  assert (Hev' : Message.Event m = "") by done.
  assert (Hid' : Message.ID m = "") by done.
  assert (Hextra' : Message.lenExtra m = 0) by done.
  assert (Hch' : channels_getChannel env (World.refreshes w) (Message.Channel m)
                 = Ok channelInfo) by done.
  assert (Hparent' : config.ParentNotFound m = false)
    by (by apply bool_decide_eq_false_2).
  assert (Huser : Message.Username m = Message.Username msg) by done.
  clearbody m.
  unfold sendAPI, handleGetChannelMembers, bind at 1. rewrite Hev'. simpl.
  unfold bind at 1, gets. rewrite Hch'.
  unfold bind at 1, handleTopicOrPurpose. rewrite Hev'. simpl.
  rewrite Hparent'.
  unfold bind at 1, deleteMessage. rewrite Hev'. simpl.
  destruct (GetBool b useNickPrefixConfig) eqn:Hb.
  - rewrite Huser, (Hnick eq_refl), Htext. simpl.
    unfold bind at 1, editMessage. simpl. rewrite Hid'. simpl.
    unfold Message.lenExtra in *. simpl. rewrite Hextra'. simpl.
    unfold postAPIMessage. simpl. done.
  - unfold bind at 1, editMessage. rewrite Hid'. simpl.
    rewrite Hextra'. simpl.
    unfold postAPIMessage. rewrite Htext. done.
Qed.

Lemma Send_blank_message_dropped_scenario :
  Send scenario.env scenario.bridge 3 scenario.blankMsg scenario.world
  = Ret ("", None) scenario.world.
Proof.
  apply (Send_blank_message_dropped scenario.env scenario.bridge 3 scenario.blankMsg
           (Channel.mk "C1" "general" true) scenario.world);
    try reflexivity; try discriminate.
  intros [_ H]. discriminate H.
Defined.

Lemma uploadFile_then_fileCached_scenario :
  exists messageID w',
    uploadFile scenario.env scenario.fileMsg "C1" scenario.world
    = Ret (messageID, None) w'
    /\ (forall file wq,
          World.cache wq = World.cache w' ->
          File.ID file = "F1" ->
          (0 <= World.now wq < 0 + 60 * time.Second)%Z ->
          exists wq', fileCached file wq = Ret true wq')
    /\ (forall file wq,
          World.cache wq = World.cache w' ->
          File.Name file = "report.pdf" ->
          (forall s, lru.Peek (idKey file) [] <> Some (VString s)) ->
          (0 <= World.now wq < 0 + 10 * time.Second)%Z ->
          exists wq', fileCached file wq = Ret true wq')
    /\ (forall file wq,
          World.cache wq = World.cache w' ->
          File.ID file = "F1" ->
          File.Name file = "report.pdf" ->
          (0 + 60 * time.Second <= World.now wq)%Z ->
          exists wq', fileCached file wq = Ret false wq').
Proof.
  apply (uploadFile_then_fileCached scenario.env scenario.fileMsg "C1"
           scenario.report scenario.uploaded scenario.world).
  - vm_compute. reflexivity.
  - reflexivity.
  - discriminate.
Defined.

(** ** Self-echo detection *)

Lemma ourCallbackID_own b blockSet previous :
  ownMarker b blockSet -> ourCallbackID (originTag b) blockSet previous = true.
Proof. intros [text ->]. simpl. by apply bool_decide_eq_true_2. Qed.

Lemma ourCallbackID_previous tag blockSet previous :
  length blockSet <> 1 -> ourCallbackID tag blockSet previous = previous.
Proof. by destruct blockSet as [|[] [|]]. Qed.

(** A join event that carries our marker, with join and leave events not
    suppressed by the configuration, is not skipped. *)
Lemma skipMessageEvent_join_with_marker_not_skipped :
  carriesOwnMarker scenario.bridge scenario.markedJoin
  /\ skipMessageEvent scenario.bridge scenario.markedJoin scenario.world
     = Ret false scenario.world.
Proof. split; [left; by eexists|reflexivity]. Qed.

(** C1 (as amended). An event whose deciding block set (the one of its
    sub-message when that has exactly one block, its own otherwise) is
    exactly one section block with the tag of this instance is skipped,
    whatever its other fields, unless it is a join or leave event and the
    configuration does not suppress those. *)
Theorem skipMessageEvent_self_echo b ev w :
  (MessageEvent.SubType ev = sChannelLeave \/ MessageEvent.SubType ev = sChannelJoin ->
   GetBool b noSendJoinConfig = true) ->
  decidingMarker b ev ->
  skipMessageEvent b ev w = Ret true w.
Proof.
  intros Hjoin Hmark. unfold skipMessageEvent.
  destruct (decide _) as [Hj|_]; [by rewrite (Hjoin Hj)|].
  destruct (decide _) as [|_]; [done|].
  destruct (decide _) as [|_]; [done|].
  unfold decidingMarker in Hmark.
  destruct (MessageEvent.SubMessage ev) as [sub|].
  - destruct (decide _) as [|_]; [done|].
    destruct (_ && _); [done|].
    assert (ourCallbackID (originTag b) (Msg.Blocks sub)
              (ourCallbackID (originTag b) (MessageEvent.Blocks ev) false) = true)
      as ->.
    { destruct Hmark as [Hsub|[Hev Hlen]].
      - by apply ourCallbackID_own.
      - rewrite ourCallbackID_previous by done. by apply ourCallbackID_own. }
    by rewrite orb_true_r.
  - rewrite (ourCallbackID_own b _ false Hmark). by rewrite orb_true_r.
Qed.

(** The echo of a message of ours is skipped. *)
Lemma skipMessageEvent_self_echo_scenario :
  skipMessageEvent scenario.bridge scenario.echo scenario.world
  = Ret true scenario.world.
Proof.
  apply (skipMessageEvent_self_echo scenario.bridge scenario.echo scenario.world).
  - intros [H|H]; discriminate H.
  - by eexists.
Defined.

(** A marker in the event itself is overridden by a sub-message that
    carries exactly one block of its own. *)
Lemma skipMessageEvent_marker_overridden :
  carriesOwnMarker scenario.bridge scenario.echoWithForeignSub
  /\ skipMessageEvent scenario.bridge scenario.echoWithForeignSub scenario.world
     = Ret false scenario.world.
Proof. split; [left; by eexists|reflexivity]. Qed.

(** Every message the API sender posts or edits carries the marker. *)
Lemma prepareMessageOptions_embeds_marker env b msg w opts w' :
  prepareMessageOptions env b msg w = Ret opts w' ->
  In (MsgOptionBlocks [SectionBlock (originTag b) (Message.Text msg)]) opts.
Proof.
  unfold prepareMessageOptions, bind.
  destruct (createAttach _ w) as [files w1| |]; [|done..].
  destruct (Message.Extra msg);
    [destruct (nativeAttachments _ w1) as [native w2| |]; [|done..]|];
  intros [= <- _]; simpl; auto.
Qed.

(** ** Joining a channel in legacy mode *)

(** The one error [JoinChannel] does return from the legacy join attempt
    is the one whose text is the word default. *)
Lemma JoinChannel_default_error_returned env b name err w :
  hasClient b = true ->
  legacy b = true ->
  sc_JoinConversation env (World.calls w) name = Some err ->
  Error env err = "default" ->
  JoinChannel env b name w = Ret (Some err) (World.request (EJoinConversation name) w).
Proof.
  intros Hsc Hlegacy Hjoin Hdefault. unfold JoinChannel.
  rewrite Hsc, Hlegacy. unfold bind at 1. unfold bind at 1, request.
  rewrite Hjoin, Hdefault. reflexivity.
Qed.







(** ** Text synthesised from attachments *)

Lemma append_assoc (s t u : string) : (s +:+ t) +:+ u = s +:+ t +:+ u.
Proof.
  induction s as [|c s IH]; [done|].
  change (String c ((s +:+ t) +:+ u) = String c (s +:+ t +:+ u)). by rewrite IH.
Qed.

Lemma attachmentText_overwrites text attach :
  Attachment.Title attach <> "" \/ Attachment.Text attach = "" ->
  attachmentText text attach = attachmentText "" attach.
Proof.
  unfold attachmentText. intros [H|H].
  - by destruct (decide (Attachment.Text attach = "")), (decide (Attachment.Title attach = "")).
  - by destruct (decide (Attachment.Text attach = "")).
Qed.

Lemma attachmentText_appends text attach :
  Attachment.Title attach = "" -> Attachment.Text attach <> "" ->
  attachmentText text attach = text +:+ attachmentText "" attach.
Proof.
  unfold attachmentText. intros Htitle Htext.
  destruct (decide (Attachment.Text attach = "")); [done|].
  destruct (decide (Attachment.Title attach = "")); [|done].
  destruct (decide (Attachment.Footer attach = "")); [done|].
  simpl. by rewrite !append_assoc.
Qed.

(** Two attachments, the last one a bare text: the fallback of the first
    stays in front of the text of the last. *)
Lemma handleAttachments_two_attachments_accumulate :
  textOf (handleAttachments scenario.env scenario.bridge
            (scenario.attached [scenario.fallbackOnly; scenario.textOnly])
            scenario.received scenario.world) = Some "xb"
  /\ textOf (handleAttachments scenario.env scenario.bridge
               (scenario.attached [scenario.textOnly])
               scenario.received scenario.world) = Some "b".
Proof. split; vm_compute; reflexivity. Qed.

Lemma cache_Add_run k v w :
  cache_Add k v w = Ret tt (World.withCache (lru.Add k v (World.cache w)) w).
Proof. reflexivity. Qed.

(** A file that is not cached, passes the size policy and arrives with the
    declared length at the first fetch is stored: the text of the message
    becomes the comment of the file and the message is left without text. *)
Lemma handleDownloadFile_stored env b rmsg rmsg1 file data retry w w1 :
  fileCached file w = Ret false w1 ->
  helper_HandleDownloadSize env rmsg (File.Name file) (File.Size file)
  = (rmsg1, None) ->
  helper_DownloadFileAuth env (World.calls w1) (File.URLPrivateDownload file)
    ("Bearer " +:+ GetString b tokenConfig) = Ok data ->
  Z.of_nat (length data) = File.Size file ->
  handleDownloadFile env b rmsg file retry w
  = Ret (helper_HandleDownloadData2 env (Message.withText "" rmsg1)
           (File.Name file) (File.ID file) (Message.Text rmsg1)
           (File.URLPrivateDownload file) data, None)
      (World.request
         (EDownloadFileAuth (File.URLPrivateDownload file)
            ("Bearer " +:+ GetString b tokenConfig)) w1).
Proof.
  intros Hc Hp Hd Hlen. unfold handleDownloadFile. simpl.
  unfold bind at 1. rewrite Hc, Hp. unfold bind at 1, request. rewrite Hd.
  by rewrite (bool_decide_eq_false_2 _ (fun H => H Hlen)).
Qed.

(** With attachments, [handleAttachments] is the file stage run on a
    message whose text is the one the attachment loop left; the attachments
    are saved in the Extra map, which has to exist. *)
Lemma handleAttachments_synthesized env b ev rmsg earlier last :
  Message.Text rmsg = "" ->
  MessageEvent.Attachments ev = (earlier ++ [last])%list ->
  match Message.Extra rmsg with
  | None => forall w, handleAttachments env b ev rmsg w = Panic
  | Some _ =>
      exists m,
        Message.Text m = attachmentText (fold_left attachmentText earlier "") last
        /\ forall w,
             handleAttachments env b ev rmsg w
             = downloadFiles env b (MessageEvent.Files ev) (MessageEvent.Channel ev) m w
  end.
Proof.
  intros Htext Hatt. unfold handleAttachments. rewrite Hatt.
  set (m0 := if decide (MessageEvent.SubType ev = sFileComment)
             then Message.withUsername sSystemUser rmsg else rmsg).
  assert (Ht0 : Message.Text m0 = "") by (subst m0; by destruct (decide _)).
  assert (He0 : Message.Extra m0 = Message.Extra rmsg)
    by (subst m0; by destruct (decide _)).
  clearbody m0. rewrite Ht0.
  destruct (decide ("" = "")) as [_|]; [|done].
  rewrite fold_left_app. simpl fold_left.
  destruct (earlier ++ [last])%list as [|a l] eqn:E; [by destruct earlier|].
  change (Message.Extra (Message.withText
                           (attachmentText (fold_left attachmentText earlier "") last)
                           m0))
    with (Message.Extra m0).
  rewrite He0. destruct (Message.Extra rmsg) as [extra|]; [|done].
  eexists (Message.withExtra _ (Message.withText _ m0)).
  split; reflexivity.
Qed.

(** C6 (as amended). When the text of the message is empty and the event
    has attachments, the text the attachment loop of [handleAttachments]
    leaves is that of the last attachment alone whenever the last
    attachment has a title or has no text; a last attachment with a text
    and no title has its text (and footer) appended to what the earlier
    attachments left. The message has to carry an Extra map, where the
    attachments are saved; without one the function panics. That text is
    the text of the message returned when the event has no files; with
    files it is the text the file stage starts from, and a file that is
    fetched and stored takes the text then present as its comment and
    leaves the message without text. *)
Theorem handleAttachments_text env b ev rmsg earlier last w :
  Message.Text rmsg = "" ->
  MessageEvent.Attachments ev = (earlier ++ [last])%list ->
  (Message.Extra rmsg = None -> handleAttachments env b ev rmsg w = Panic)
  /\ (Message.Extra rmsg <> None ->
      exists m,
        Message.Text m = attachmentText (fold_left attachmentText earlier "") last
        /\ (Attachment.Title last <> "" \/ Attachment.Text last = "" ->
            Message.Text m = attachmentText "" last)
        /\ (Attachment.Title last = "" -> Attachment.Text last <> "" ->
            Message.Text m
            = fold_left attachmentText earlier "" +:+ attachmentText "" last)
        /\ handleAttachments env b ev rmsg w
           = downloadFiles env b (MessageEvent.Files ev) (MessageEvent.Channel ev) m w
        /\ (MessageEvent.Files ev = [] ->
            handleAttachments env b ev rmsg w = Ret m w)
        /\ (forall file m1 data w1,
              MessageEvent.Files ev = [file] ->
              fileCached file
                (World.withCache
                   (lru.Add (cfileDownloadChannel +:+ File.ID file)
                      (VString (MessageEvent.Channel ev)) (World.cache w)) w)
              = Ret false w1 ->
              helper_HandleDownloadSize env m (File.Name file) (File.Size file)
              = (m1, None) ->
              helper_DownloadFileAuth env (World.calls w1)
                (File.URLPrivateDownload file)
                ("Bearer " +:+ GetString b tokenConfig) = Ok data ->
              Z.of_nat (length data) = File.Size file ->
              handleAttachments env b ev rmsg w
              = Ret (helper_HandleDownloadData2 env (Message.withText "" m1)
                       (File.Name file) (File.ID file) (Message.Text m1)
                       (File.URLPrivateDownload file) data)
                  (World.request
                     (EDownloadFileAuth (File.URLPrivateDownload file)
                        ("Bearer " +:+ GetString b tokenConfig)) w1))).
Proof.
  intros Htext Hatt.
  pose proof (handleAttachments_synthesized env b ev rmsg earlier last Htext Hatt)
    as Hsyn.
  destruct (Message.Extra rmsg) as [extra|]; split; try done.
  intros _. destruct Hsyn as (m & Hm & Hrun). exists m.
  split; [exact Hm|]. rewrite Hm.
  split; [intros H; by apply attachmentText_overwrites|].
  split; [intros H1 H2; by apply attachmentText_appends|].
  split; [apply Hrun|]. split.
  - intros Hfiles. by rewrite Hrun, Hfiles.
  - intros file m1 data w1 Hfiles Hc Hp Hd Hlen. rewrite Hrun, Hfiles.
    cbn [downloadFiles]. unfold bind at 1. rewrite cache_Add_run.
    unfold bind at 1.
    by rewrite (handleDownloadFile_stored _ _ _ _ _ _ _ _ _ Hc Hp Hd Hlen).
Qed.

Lemma handleAttachments_text_scenario :
  (exists m,
     handleAttachments scenario.env scenario.bridge
       (scenario.attached [scenario.fallbackOnly; scenario.titled])
       scenario.received scenario.world = Ret m scenario.world
     /\ Message.Text m = "Release is out")
  /\ (exists m w',
        handleAttachments scenario.env scenario.bridge scenario.attachedFile
          scenario.received scenario.world
        = Ret (scenario.keep (Message.withText "" m) "report.pdf" "F1"
                 "Release is out" "https://files.example/report.pdf" [Byte.x00]) w').
Proof.
  split.
  - destruct (handleAttachments_text scenario.env scenario.bridge
                (scenario.attached [scenario.fallbackOnly; scenario.titled])
                scenario.received [scenario.fallbackOnly] scenario.titled
                scenario.world eq_refl eq_refl) as (_ & H).
    destruct H as (m & Htext & Hlast & _ & _ & Hnofiles & _); [discriminate|].
    exists m. split; [by apply Hnofiles|].
    rewrite Hlast; [reflexivity|left; discriminate].
  - destruct (handleAttachments_text scenario.env scenario.bridge
                scenario.attachedFile
                scenario.received [scenario.fallbackOnly] scenario.titled
                scenario.world eq_refl eq_refl) as (_ & H).
    destruct H as (m & Htext & Hlast & _ & _ & _ & Hfile); [discriminate|].
    exists m. eexists.
    erewrite (Hfile (File.mk "F1" "report.pdf" 1 "https://files.example/report.pdf")
                m [Byte.x00]);
      [|reflexivity|vm_compute; reflexivity|reflexivity|reflexivity|reflexivity].
    rewrite Hlast; [reflexivity|left; discriminate].
Defined.

(** ** Downloading a file *)

Lemma fileCached_reorders file w r w' :
  fileCached file w = Ret r w' -> reordered w w'.
Proof.
  rewrite fileCached_run. cbv zeta.
  destruct (freshAt _ _ (lru.Peek (idKey file) _)) as [[|]|]; [| |done].
  - intros [= <- <-]. eexists. split; [done|]. intros k. apply lru_facts.Peek_Get.
  - destruct (freshAt _ _ (lru.Peek (nameKey file) _)) as [hit|]; [|done].
    intros [= <- <-]. eexists. split; [done|]. intros k.
    by rewrite !lru_facts.Peek_Get.
Qed.

Lemma Sub_mono (t t' u : Z) : (t <= t')%Z -> (time.Sub t u <= time.Sub t' u)%Z.
Proof. unfold time.Sub. lia. Qed.

Lemma freshAt_false_later now now' window r :
  (now <= now')%Z ->
  freshAt now window r = Some false -> freshAt now' window r = Some false.
Proof.
  intros Hle. destruct r as [[ts|s]|]; simpl; [|done..].
  intros [= H]. f_equal. apply bool_decide_eq_false in H.
  apply bool_decide_eq_false_2. pose proof (Sub_mono now now' ts Hle). lia.
Qed.

(** A file that is not cached stays so while time passes and the cache
    holds the same entries. *)
Lemma fileCached_false_later file w w1 w2 :
  fileCached file w = Ret false w1 ->
  (forall k, lru.Peek k (World.cache w2) = lru.Peek k (World.cache w)) ->
  (World.now w <= World.now w2)%Z ->
  exists c, fileCached file w2 = Ret false (World.withCache c w2).
Proof.
  intros Hrun Hsame Hnow. rewrite fileCached_run in *. cbv zeta in *.
  rewrite !Hsame.
  destruct (freshAt (World.now w) _ (lru.Peek (idKey file) _)) as [[|]|] eqn:E1;
    [done| |done].
  rewrite (freshAt_false_later _ _ _ _ Hnow E1).
  destruct (freshAt (World.now w) _ (lru.Peek (nameKey file) _)) as [[|]|] eqn:E2;
    [done| |done].
  rewrite (freshAt_false_later _ _ _ _ Hnow E2). by eexists.
Qed.

Section Download.
Variable env : Env.
Variable b : Bslack.
Variable file : File.t.

Lemma handleDownloadFile_cached rmsg retry w w' :
  fileCached file w = Ret true w' ->
  handleDownloadFile env b rmsg file retry w = Ret (rmsg, None) w'.
Proof.
  intros H. unfold handleDownloadFile. simpl. unfold bind at 1. by rewrite H.
Qed.

Lemma handleDownloadFile_rejected rmsg rmsg' err retry w w' :
  fileCached file w = Ret false w' ->
  helper_HandleDownloadSize env rmsg (File.Name file) (File.Size file)
  = (rmsg', Some err) ->
  handleDownloadFile env b rmsg file retry w = Ret (rmsg', None) w'.
Proof.
  intros H Hp. unfold handleDownloadFile. simpl. unfold bind at 1. rewrite H.
  by rewrite Hp.
Qed.

Lemma handleDownloadFile_retried_once rmsg rmsg1 rmsg2 data1 data2 w w1 :
  fileCached file w = Ret false w1 ->
  helper_HandleDownloadSize env rmsg (File.Name file) (File.Size file)
  = (rmsg1, None) ->
  helper_DownloadFileAuth env (World.calls w) (File.URLPrivateDownload file)
    ("Bearer " +:+ GetString b tokenConfig) = Ok data1 ->
  Z.of_nat (length data1) <> File.Size file ->
  helper_HandleDownloadSize env rmsg1 (File.Name file) (File.Size file)
  = (rmsg2, None) ->
  helper_DownloadFileAuth env (S (World.calls w)) (File.URLPrivateDownload file)
    ("Bearer " +:+ GetString b tokenConfig) = Ok data2 ->
  exists w',
    handleDownloadFile env b rmsg file false w
    = Ret (helper_HandleDownloadData2 env (Message.withText "" rmsg2)
             (File.Name file) (File.ID file) (Message.Text rmsg2)
             (File.URLPrivateDownload file) data2, None) w'
    /\ reordered
         (afterTwoDownloads (File.URLPrivateDownload file)
            ("Bearer " +:+ GetString b tokenConfig) w) w'.
Proof.
  intros Hc Hp1 Hd1 Hlen Hp2 Hd2.
  destruct (fileCached_reorders _ _ _ _ Hc) as (c1 & -> & Hc1).
  set (url := File.URLPrivateDownload file) in *.
  set (auth := "Bearer " +:+ GetString b tokenConfig) in *.
  set (w3 := World.sleep (1 * time.Second)
               (World.request (EDownloadFileAuth url auth) (World.withCache c1 w))).
  destruct (fileCached_false_later file w (World.withCache c1 w) w3 Hc) as [c2 Hc2].
  { intros k. simpl. apply Hc1. }
  { simpl. unfold time.Second. lia. }
  unfold handleDownloadFile. cbn [handleDownloadFile_rec].
  unfold bind at 1. rewrite Hc, Hp1.
  fold url auth. unfold bind at 1, request at 1.
  change (World.calls (World.withCache c1 w)) with (World.calls w). rewrite Hd1.
  rewrite bool_decide_eq_true_2 by done. cbn [andb negb].
  unfold bind at 1, time_Sleep, modify. fold w3.
  unfold bind at 1. rewrite Hc2. rewrite Hp2.
  unfold bind at 1, request at 1.
  change (World.calls (World.withCache c2 w3)) with (S (World.calls w)). rewrite Hd2.
  rewrite andb_false_r.
  eexists. split; [reflexivity|].
  exists c2. split; [reflexivity|].
  intros k. simpl. pose proof (fileCached_reorders _ _ _ _ Hc2) as (c' & Heq & Hk).
  assert (c' = c2) as -> by (by injection Heq).
  rewrite Hk. simpl. apply Hc1.
Qed.

Lemma fileCached_no_timeout w : fileCached file w <> Timeout.
Proof.
  rewrite fileCached_run. cbv zeta.
  destruct (freshAt _ _ (lru.Peek (idKey file) _)) as [[|]|]; [done| |done].
  by destruct (freshAt _ _ (lru.Peek (nameKey file) _)) as [[|]|].
Qed.

(** The two levels of calls suffice: [handleDownloadFile] always returns
    or panics. *)
Lemma handleDownloadFile_no_timeout rmsg retry w :
  handleDownloadFile env b rmsg file retry w <> Timeout.
Proof.
  unfold handleDownloadFile. cbn [handleDownloadFile_rec]. unfold bind at 1.
  pose proof (fileCached_no_timeout w) as Hc.
  destruct (fileCached file w) as [[|] w1| |]; [done| |done..].
  destruct (helper_HandleDownloadSize env rmsg _ _) as [rmsg1 [e|]]; [done|].
  unfold bind at 1, request at 1.
  destruct (helper_DownloadFileAuth env _ _ _) as [data1|e]; [|done].
  destruct (_ && negb retry); [|done].
  unfold bind at 1, time_Sleep, modify. unfold bind at 1.
  pose proof (fileCached_no_timeout
                (World.sleep (1 * time.Second)
                   (World.request
                      (EDownloadFileAuth (File.URLPrivateDownload file)
                         ("Bearer " +:+ GetString b tokenConfig)) w1))) as Hc'.
  destruct (fileCached file _) as [[|] w2| |]; [done| |done..].
  destruct (helper_HandleDownloadSize env rmsg1 _ _) as [rmsg2 [e|]]; [done|].
  unfold bind at 1, request at 1.
  destruct (helper_DownloadFileAuth env _ _ _) as [data2|e]; [|done].
  by rewrite andb_false_r.
Qed.
End Download.

(** C8. [handleDownloadFile] does nothing and succeeds when the file is
    cached; a rejection by the size and blacklist policy is a success
    without a download; a first fetch whose length differs from the
    declared size is followed by a sleep of one second and exactly one more
    fetch, whose data is processed whatever its length; and the two levels
    of calls are enough for it to return. *)
Theorem handleDownloadFile_policy env b file rmsg w :
  (forall retry w',
     fileCached file w = Ret true w' ->
     handleDownloadFile env b rmsg file retry w = Ret (rmsg, None) w'
     /\ World.trace w' = World.trace w)
  /\ (forall retry w' rmsg' err,
        fileCached file w = Ret false w' ->
        helper_HandleDownloadSize env rmsg (File.Name file) (File.Size file)
        = (rmsg', Some err) ->
        handleDownloadFile env b rmsg file retry w = Ret (rmsg', None) w'
        /\ World.trace w' = World.trace w)
  /\ (forall rmsg1 rmsg2 data1 data2 w1,
        fileCached file w = Ret false w1 ->
        helper_HandleDownloadSize env rmsg (File.Name file) (File.Size file)
        = (rmsg1, None) ->
        helper_DownloadFileAuth env (World.calls w) (File.URLPrivateDownload file)
          ("Bearer " +:+ GetString b tokenConfig) = Ok data1 ->
        Z.of_nat (length data1) <> File.Size file ->
        helper_HandleDownloadSize env rmsg1 (File.Name file) (File.Size file)
        = (rmsg2, None) ->
        helper_DownloadFileAuth env (S (World.calls w)) (File.URLPrivateDownload file)
          ("Bearer " +:+ GetString b tokenConfig) = Ok data2 ->
        exists w',
          handleDownloadFile env b rmsg file false w
          = Ret (helper_HandleDownloadData2 env (Message.withText "" rmsg2)
                   (File.Name file) (File.ID file) (Message.Text rmsg2)
                   (File.URLPrivateDownload file) data2, None) w'
          /\ reordered
               (afterTwoDownloads (File.URLPrivateDownload file)
                  ("Bearer " +:+ GetString b tokenConfig) w) w')
  /\ (forall retry, handleDownloadFile env b rmsg file retry w <> Timeout).
Proof.
  split; [|split; [|split]].
  - intros retry w' H. split; [by apply handleDownloadFile_cached|].
    by destruct (fileCached_reorders _ _ _ _ H) as (c & -> & _).
  - intros retry w' rmsg' err H Hp.
    split; [by eapply handleDownloadFile_rejected|].
    by destruct (fileCached_reorders _ _ _ _ H) as (c & -> & _).
  - intros. by eapply handleDownloadFile_retried_once.
  - intros retry. apply handleDownloadFile_no_timeout.
Qed.

(** A file declared with two bytes of which one arrives, twice. *)
Lemma handleDownloadFile_policy_scenario :
  exists w',
    handleDownloadFile scenario.env scenario.bridge scenario.received
      scenario.short false scenario.world
    = Ret (scenario.keep (Message.withText "" scenario.received) "short.bin" "F7" ""
             "https://files.example/short.bin" [Byte.x00], None) w'
    /\ reordered
         (afterTwoDownloads "https://files.example/short.bin" "Bearer xoxb-1"
            scenario.world) w'.
Proof.
  destruct (handleDownloadFile_policy scenario.env scenario.bridge scenario.short
              scenario.received scenario.world) as (_ & _ & H & _).
  apply (H scenario.received scenario.received [Byte.x00] [Byte.x00] scenario.world);
    try reflexivity. discriminate.
Defined.

(** ** The final validation of an inbound message *)

(** C7. For an event without files that is not handled as a status event,
    [handleMessageEvent] returns the message left by the attachment stage
    when it has a text and a username; otherwise it returns no message and
    an error that tells the cause: an unresolved webhook bot when the event
    has a bot ID, an empty edited sub-message when it has a sub-message,
    and the plain one otherwise. *)
Theorem handleMessageEvent_validates env b ev rmsg0 rmsg1 rmsg w w1 w2 :
  populateReceivedMessage env ev = Ok rmsg0 ->
  handleStatusEvent ev rmsg0 w = Ret (false, rmsg1) w1 ->
  handleAttachments env b ev rmsg1 w1 = Ret rmsg w2 ->
  MessageEvent.Files ev = [] ->
  (Message.Text rmsg <> "" /\ Message.Username rmsg <> "" ->
   handleMessageEvent env b ev w = Ret (Some rmsg, None) w2)
  /\ (Message.Text rmsg = "" \/ Message.Username rmsg = "" ->
      (MessageEvent.BotID ev <> "" ->
       handleMessageEvent env b ev w
       = Ret (None, Some (Errorf
           "message handling resulted in an empty bot message (probably an incoming webhook we couldn't resolve): %#v"
           [ArgEvent ev])) w2)
      /\ (forall sub,
            MessageEvent.BotID ev = "" ->
            MessageEvent.SubMessage ev = Some sub ->
            handleMessageEvent env b ev w
            = Ret (None, Some (Errorf
                "message handling resulted in an empty message: %#v with submessage %#v"
                [ArgEvent ev; ArgSubMessage sub])) w2)
      /\ (MessageEvent.BotID ev = "" ->
          MessageEvent.SubMessage ev = None ->
          handleMessageEvent env b ev w
          = Ret (None, Some (Errorf
              "message handling resulted in an empty message: %#v" [ArgEvent ev])) w2)).
Proof.
  intros Hpop Hstatus Hatt Hfiles.
  assert (Hrun : handleMessageEvent env b ev w =
    (if bool_decide (Message.Text rmsg = "")
        || bool_decide (Message.Username rmsg = "")
     then
       if decide (MessageEvent.BotID ev = "") then
         match MessageEvent.SubMessage ev with
         | Some sub =>
             ret (None, Some (Errorf
               "message handling resulted in an empty message: %#v with submessage %#v"
               [ArgEvent ev; ArgSubMessage sub]))
         | None =>
             ret (None, Some (Errorf
               "message handling resulted in an empty message: %#v" [ArgEvent ev]))
         end
       else
         ret (None, Some (Errorf
           "message handling resulted in an empty bot message (probably an incoming webhook we couldn't resolve): %#v"
           [ArgEvent ev]))
     else ret (Some rmsg, None)) w2).
  { unfold handleMessageEvent. rewrite Hpop. unfold bind at 1. rewrite Hstatus.
    simpl. unfold bind at 1. rewrite Hatt.
    by rewrite (bool_decide_eq_true_2 _ Hfiles), andb_true_l. }
  rewrite Hrun. clear Hrun. split.
  - intros [Ht Hu].
    by rewrite (bool_decide_eq_false_2 _ Ht), (bool_decide_eq_false_2 _ Hu).
  - intros Hempty.
    assert (bool_decide (Message.Text rmsg = "")
            || bool_decide (Message.Username rmsg = "") = true) as ->.
    { destruct Hempty as [H|H]; rewrite (bool_decide_eq_true_2 _ H);
        [done|apply orb_true_r]. }
    split; [|split].
    + intros Hbot. by destruct (decide (MessageEvent.BotID ev = "")).
    + intros sub Hbot Hsub. rewrite Hsub.
      by destruct (decide (MessageEvent.BotID ev = "")).
    + intros Hbot Hsub. rewrite Hsub.
      by destruct (decide (MessageEvent.BotID ev = "")).
Qed.

(** An event without text, attachments and files ends in the plain error. *)
Lemma handleMessageEvent_validates_scenario :
  handleMessageEvent scenario.env scenario.bridge (scenario.attached [])
    scenario.world
  = Ret (None, Some (Errorf "message handling resulted in an empty message: %#v"
                       [ArgEvent (scenario.attached [])])) scenario.world.
Proof.
  pose proof (handleMessageEvent_validates scenario.env scenario.bridge
                (scenario.attached []) scenario.received scenario.received
                scenario.received scenario.world scenario.world scenario.world
                eq_refl eq_refl eq_refl eq_refl) as [_ Hempty].
  destruct (Hempty (or_introl eq_refl)) as (_ & _ & Hplain).
  exact (Hplain eq_refl eq_refl).
Defined.

(** ** The events endpoint *)


Section Endpoint.
Variable env : Env.
Variable b : Bslack.





End Endpoint.



(** ** What the two senders do *)

Section Emits.
Context {P : Effect -> bool}.

Lemma continues_refl w : continues P w w.
Proof. exists []. by rewrite app_nil_r. Qed.

Lemma continues_trans w1 w2 w3 :
  continues P w1 w2 -> continues P w2 w3 -> continues P w1 w3.
Proof.
  intros (t1 & H1 & F1) (t2 & H2 & F2). exists (t1 ++ t2)%list.
  rewrite H2, H1, <- app_assoc. split; [done|].
  rewrite forallb_app. by rewrite F1, F2.
Qed.

Lemma emits_ret {A} (a : A) : emits P (ret a).
Proof. intros w a' w' [= _ <-]. apply continues_refl. Qed.

Lemma emits_panic {A} : emits P (@panic A).
Proof. by intros w a w'. Qed.

Lemma emits_timeout {A} : emits P (@timeout A).
Proof. by intros w a w'. Qed.

Lemma emits_bind {A B} (m : M A) (k : A -> M B) :
  emits P m -> (forall a, emits P (k a)) -> emits P (bind m k).
Proof.
  intros Hm Hk w r w' Hrun. unfold bind in Hrun.
  destruct (m w) as [a w1| |] eqn:E; [|done..].
  eapply continues_trans; [by eapply Hm|by eapply Hk].
Qed.

Lemma emits_gets {A} (f : World.t -> A) : emits P (gets f).
Proof. intros w a w' [= _ <-]. apply continues_refl. Qed.

Lemma emits_silent (f : World.t -> World.t) :
  (forall w, World.trace (f w) = World.trace w) -> emits P (modify f).
Proof.
  intros Hf w a w' [= _ <-]. exists []. by rewrite Hf, app_nil_r.
Qed.

Lemma emits_one (f : World.t -> World.t) e :
  (forall w, World.trace (f w) = (World.trace w ++ [e])%list) ->
  P e = true -> emits P (modify f).
Proof.
  intros Hf He w a w' [= _ <-]. exists [e]. split; [apply Hf|]. simpl.
  by rewrite He.
Qed.

Lemma emits_request {A} e (answer : nat -> A) :
  P e = true -> emits P (request e answer).
Proof.
  intros He w a w' [= _ <-]. exists [e]. split; [done|]. simpl. by rewrite He.
Qed.

Lemma emits_cache_Add k v : emits P (cache_Add k v).
Proof. by apply emits_silent. Qed.

Lemma emits_cache_Get k : emits P (cache_Get k).
Proof.
  intros w a w'. unfold cache_Get. destruct (lru.Get _ _). intros [= _ <-].
  exists []. by rewrite app_nil_r.
Qed.

Lemma emits_createAttach entries : emits P (createAttach entries).
Proof.
  induction entries as [|[] entries IH]; simpl;
    auto using emits_ret, emits_panic, emits_bind.
Qed.

Lemma emits_nativeAttachments entries : emits P (nativeAttachments entries).
Proof.
  induction entries as [|[] entries IH]; simpl;
    auto using emits_ret, emits_panic, emits_bind.
Qed.

Lemma emits_prepareMessageOptions env b msg :
  emits P (prepareMessageOptions env b msg).
Proof.
  unfold prepareMessageOptions.
  apply emits_bind; [apply emits_createAttach|intros files].
  apply emits_bind; [|intros native; apply emits_ret].
  destruct (Message.Extra msg); [apply emits_nativeAttachments|apply emits_ret].
Qed.
End Emits.

Section WebhookSender.
Variable env : Env.
Variable b : Bslack.

Lemma emits_sendExtraWebhooks rmsgs channel :
  emits isWebhookSend (sendExtraWebhooks env b rmsgs channel).
Proof.
  induction rmsgs as [|rmsg rmsgs IH]; simpl; [apply emits_ret|].
  apply emits_bind; [by apply emits_request|done].
Qed.

Lemma emits_sendWebhook msg : emits isWebhookSend (sendWebhook env b msg).
Proof.
  unfold sendWebhook. destruct (decide _); [|apply emits_ret].
  apply emits_bind.
  - destruct (Message.Extra _); [|apply emits_ret].
    apply emits_bind; [apply emits_sendExtraWebhooks|intros; apply emits_ret].
  - intros msg'. apply emits_bind; [apply emits_nativeAttachments|intros attachs].
    by apply emits_request.
Qed.
End WebhookSender.

Section APISender.
Variable env : Env.
Variable b : Bslack.
Variable fuel : nat.

Lemma emits_handleRateLimit err : emits notWebhookSend (handleRateLimit err).
Proof.
  destruct err; simpl; try apply emits_ret.
  apply emits_bind; [|intros; apply emits_ret].
  by eapply emits_one.
Qed.

(** One round of a retry loop: a request, and on an error the
    classification, then either the rest of the loop or a return. *)
Lemma emits_round {A R} e (answer : nat -> R) (next : R -> M A) :
  notWebhookSend e = true -> (forall r, emits notWebhookSend (next r)) ->
  emits notWebhookSend (bind (request e answer) next).
Proof. intros He Hn. apply emits_bind; [by apply emits_request|done]. Qed.

Lemma emits_postAPIMessage_loop n channelID opts :
  emits notWebhookSend (postAPIMessage_loop env n channelID opts).
Proof.
  induction n as [|n IH]; simpl; [apply emits_timeout|].
  apply emits_round; [done|]. intros [id|err]; [apply emits_ret|].
  apply emits_bind; [apply emits_handleRateLimit|].
  intros [e|]; [apply emits_ret|done].
Qed.

Lemma emits_editMessage_loop n channelID ts opts :
  emits notWebhookSend (editMessage_loop env n channelID ts opts).
Proof.
  induction n as [|n IH]; simpl; [apply emits_timeout|].
  apply emits_round; [done|]. intros [err|]; [|apply emits_ret].
  apply emits_bind; [apply emits_handleRateLimit|].
  intros [e|]; [apply emits_ret|done].
Qed.

Lemma emits_deleteMessage_loop n channelID ts :
  emits notWebhookSend (deleteMessage_loop env n channelID ts).
Proof.
  induction n as [|n IH]; simpl; [apply emits_timeout|].
  apply emits_round; [done|]. intros [err|]; [|apply emits_ret].
  apply emits_bind; [apply emits_handleRateLimit|].
  intros [e|]; [apply emits_ret|done].
Qed.

Lemma emits_updateTopicOrPurpose_loop n kind channelID text :
  emits notWebhookSend (updateTopicOrPurpose_loop env n kind channelID text).
Proof.
  induction n as [|n IH]; simpl; [apply emits_timeout|].
  destruct (decide _); [|apply emits_ret].
  apply emits_bind.
  - destruct (decide _); by apply emits_request.
  - intros [err|]; [|apply emits_ret].
    apply emits_bind; [apply emits_handleRateLimit|].
    intros [e|]; [apply emits_ret|done].
Qed.

Lemma emits_postAPIMessage msg channelInfo :
  emits notWebhookSend (postAPIMessage env b fuel msg channelInfo).
Proof.
  unfold postAPIMessage. destruct (decide _); [apply emits_ret|].
  apply emits_bind; [apply emits_prepareMessageOptions|].
  intros opts. apply emits_postAPIMessage_loop.
Qed.

Lemma emits_editMessage msg channelInfo :
  emits notWebhookSend (editMessage env b fuel msg channelInfo).
Proof.
  unfold editMessage. destruct (decide _); [apply emits_ret|].
  apply emits_bind; [apply emits_prepareMessageOptions|].
  intros opts. apply emits_editMessage_loop.
Qed.

Lemma emits_deleteMessage msg channelInfo :
  emits notWebhookSend (deleteMessage env fuel msg channelInfo).
Proof.
  unfold deleteMessage. destruct (decide _); [|apply emits_ret].
  destruct (decide _); [apply emits_ret|apply emits_deleteMessage_loop].
Qed.

Lemma emits_handleTopicOrPurpose msg channelInfo :
  emits notWebhookSend (handleTopicOrPurpose env b fuel msg channelInfo).
Proof.
  unfold handleTopicOrPurpose. destruct (decide _); [|apply emits_ret].
  destruct (GetBool b "SyncTopic").
  - apply emits_bind; [|intros; apply emits_ret].
    unfold updateTopicOrPurpose. destruct (extractTopicOrPurpose env _).
    apply emits_updateTopicOrPurpose_loop.
  - destruct (GetBool b "ShowTopicChange"); apply emits_ret.
Qed.

Lemma emits_uploadFile_loop files msg channelID messageID :
  emits notWebhookSend (uploadFile_loop env files msg channelID messageID).
Proof.
  revert msg messageID.
  induction files as [|[fi| | | |] files IH]; intros msg messageID; simpl;
    try apply emits_ret; try apply IH.
  apply emits_bind; [apply emits_gets|intros ts].
  apply emits_bind; [apply emits_cache_Add|intros _].
  apply emits_round; [done|]. intros [res|err]; [|apply emits_ret].
  destruct (decide _); [apply IH|].
  apply emits_bind; [apply emits_cache_Add|intros _; apply IH].
Qed.

Lemma emits_postExtraMsgs extraMsgs channelInfo :
  emits notWebhookSend (postExtraMsgs env b fuel extraMsgs channelInfo).
Proof.
  induction extraMsgs as [|rmsg extraMsgs IH]; simpl; [apply emits_ret|].
  apply emits_bind; [apply emits_postAPIMessage|done].
Qed.

Lemma emits_handleGetChannelMembers msg :
  emits notWebhookSend (handleGetChannelMembers env b msg).
Proof.
  unfold handleGetChannelMembers. destruct (decide _); [|apply emits_ret].
  apply emits_bind; [apply emits_gets|intros k].
  apply emits_bind; [by eapply emits_one|intros; apply emits_ret].
Qed.

Lemma emits_sendAPI msg : emits notWebhookSend (sendAPI env b fuel msg).
Proof.
  unfold sendAPI.
  apply emits_bind; [apply emits_handleGetChannelMembers|].
  intros [|]; [apply emits_ret|].
  apply emits_bind; [apply emits_gets|intros k].
  destruct (channels_getChannel env k _) as [channelInfo|err]; [|apply emits_ret].
  destruct (decide _); [apply emits_ret|].
  apply emits_bind; [apply emits_handleTopicOrPurpose|].
  intros [[|] e]; [apply emits_ret|]. simpl.
  apply emits_bind; [apply emits_deleteMessage|].
  intros [[|] e']; [apply emits_ret|]. simpl.
  apply emits_bind; [apply emits_editMessage|].
  intros [[|] e'']; [apply emits_ret|]. simpl.
  destruct (decide _); [|apply emits_postAPIMessage].
  apply emits_bind; [apply emits_postExtraMsgs|].
  intros _. apply emits_uploadFile_loop.
Qed.
End APISender.

(** C3. [Send] hands the message to the webhook sender exactly when an
    outgoing webhook URL is configured and no bot token is; in every other
    configuration it hands it to the API sender.  What leaves the adapter
    tells the two apart: in the first case nothing but posts to the
    webhook, in the second no post to the webhook at all. *)
Theorem Send_routes env b fuel msg w :
  (webhookConfigured b ->
     Send env b fuel msg w
     = bind (sendWebhook env b (outgoing env b msg)) (fun e => ret ("", e)) w
     /\ forall r w', Send env b fuel msg w = Ret r w' -> continues isWebhookSend w w')
  /\ (~ webhookConfigured b ->
        Send env b fuel msg w = sendAPI env b fuel (outgoing env b msg) w
        /\ forall r w', Send env b fuel msg w = Ret r w' ->
                        continues notWebhookSend w w').
Proof.
  split; intros H.
  - rewrite (Send_webhook_mode env b fuel msg w H). split; [done|].
    intros r w'. apply emits_bind; [apply emits_sendWebhook|].
    intros e. apply emits_ret.
  - rewrite (Send_api_mode env b fuel msg w H). split; [done|].
    intros r w'. apply emits_sendAPI.
Qed.

(** With a webhook and no token the message goes out as one post to the
    webhook. *)
Lemma Send_routes_scenario :
  Send scenario.env scenario.webhookBridge 3 scenario.hello scenario.world
  = Ret ("", None)
      (World.mk [] 0 1 0 false
         [EWebhookSend (OMessage.mk "" [] "general" "bob" "hello")]).
Proof.
  destruct (Send_routes scenario.env scenario.webhookBridge 3 scenario.hello
              scenario.world) as [Hwebhook _].
  destruct Hwebhook as [-> _]; [|reflexivity].
  split; [discriminate|reflexivity].
Defined.

(** * Further properties *)

Lemma append_inj_l (s t t' : string) : s +:+ t = s +:+ t' -> t = t'.
Proof.
  induction s as [|c s IH]; [done|].
  change (String c (s +:+ t) = String c (s +:+ t') -> t = t').
  intros [= H]. by apply IH.
Qed.

Lemma originTag_inj b b' : originTag b = originTag b' -> uuid b = uuid b'.
Proof. apply append_inj_l. Qed.

Lemma prepareMessageOptions_blocks env b msg w opts w' blocks :
  prepareMessageOptions env b msg w = Ret opts w' ->
  In (MsgOptionBlocks blocks) opts ->
  blocks = [SectionBlock (originTag b) (Message.Text msg)].
Proof.
  unfold prepareMessageOptions, bind.
  destruct (createAttach _ w) as [files w1| |]; [|done..].
  destruct (Message.Extra msg);
    [destruct (nativeAttachments _ w1) as [native w2| |]; [|done..]|];
    intros [= <- _]; simpl; intros [H|[H|[H|[H|[H|[]]]]]]; by inversion H.
Qed.

(** ** The origin marker *)

(** X1. The block [prepareMessageOptions] attaches to a message is the one
    [skipMessageEvent] looks for: a plain event that comes back with it is
    skipped by the instance that built it, and not by an instance with
    another UUID. *)
Theorem own_marker_round_trip env b b' msg w opts w' blocks ev wq :
  prepareMessageOptions env b msg w = Ret opts w' ->
  In (MsgOptionBlocks blocks) opts ->
  MessageEvent.Blocks ev = blocks ->
  plainEvent ev ->
  MessageEvent.Username ev <> sSlackBotUser ->
  MessageEvent.Files ev = [] ->
  skipMessageEvent b ev wq = Ret true wq
  /\ (uuid b' <> uuid b -> skipMessageEvent b' ev wq = Ret false wq).
Proof.
  intros Hopts Hin Hblocks [Hsub Hnosub] Huser Hfiles.
  rewrite (prepareMessageOptions_blocks _ _ _ _ _ _ _ Hopts Hin) in Hblocks.
  unfold skipMessageEvent. rewrite Hsub, Hnosub, Hblocks, Hfiles. simpl.
  rewrite (bool_decide_eq_false_2 _ Huser). simpl.
  split.
  - by rewrite bool_decide_eq_true_2.
  - intros Hne. rewrite bool_decide_eq_false_2; [done|].
    intros H. apply Hne. symmetry. by apply originTag_inj.
Qed.

Lemma own_marker_round_trip_scenario :
  skipMessageEvent scenario.bridge scenario.echo scenario.world
  = Ret true scenario.world
  /\ (uuid scenario.otherBridge <> uuid scenario.bridge ->
      skipMessageEvent scenario.otherBridge scenario.echo scenario.world
      = Ret false scenario.world).
Proof.
  apply (own_marker_round_trip scenario.env scenario.bridge scenario.otherBridge
           scenario.hello scenario.world
           (messageOptions scenario.env scenario.bridge scenario.hello [])
           scenario.world
           [SectionBlock (originTag scenario.bridge) "hello"]
           scenario.echo scenario.world); try reflexivity.
  - simpl. auto.
  - by split.
  - discriminate.
Defined.

(** ** Dedup across upload and inbound events *)

Lemma fileCached_at file w :
  match cachedAt (World.cache w) (World.now w) file with
  | Some r => exists w', fileCached file w = Ret r w' /\ reordered w w'
  | None => fileCached file w = Panic
  end.
Proof.
  unfold cachedAt. pose proof (fileCached_run file w) as Hrun. cbv zeta in Hrun.
  destruct (freshAt _ time.Minute _) as [[|]|] eqn:E1; [| |done].
  - eexists. split; [done|]. eexists. split; [done|].
    intros k. apply lru_facts.Peek_Get.
  - destruct (freshAt _ (10 * time.Second) _) as [hit|] eqn:E2; [|done].
    eexists. split; [done|]. eexists. split; [done|].
    intros k. by rewrite !lru_facts.Peek_Get.
Qed.

Lemma cachedAt_reordered w w' file :
  reordered w w' ->
  cachedAt (World.cache w') (World.now w') file
  = cachedAt (World.cache w) (World.now w) file.
Proof. intros (c & -> & Hc). unfold cachedAt. simpl. by rewrite !Hc. Qed.

Lemma reordered_refl w : reordered w w.
Proof. exists (World.cache w). split; [by destruct w|done]. Qed.

Lemma reordered_trans w1 w2 w3 : reordered w1 w2 -> reordered w2 w3 -> reordered w1 w3.
Proof.
  intros (c & -> & Hc) (c' & -> & Hc'). exists c'. split; [done|].
  intros k. rewrite Hc'. simpl. apply Hc.
Qed.

Lemma filesCached_run files w r w' :
  filesCached files w = Ret r w' ->
  reordered w w'
  /\ (r = true <->
      Forall (fun file => cachedAt (World.cache w) (World.now w) file = Some true) files).
Proof.
  revert w. induction files as [|file files IH]; intros w; simpl.
  - intros [= <- <-]. split; [apply reordered_refl|]. by split.
  - unfold bind. pose proof (fileCached_at file w) as Hat.
    destruct (cachedAt _ _ file) as [[|]|] eqn:E.
    + destruct Hat as (w1 & -> & Hre). intros Hrest.
      destruct (IH w1 Hrest) as [Hre' Hiff]. split; [by eapply reordered_trans|].
      rewrite Hiff. split.
      * intros Hall. constructor; [done|].
        eapply Forall_impl; [exact Hall|]. intros f Hf. simpl in Hf.
        by rewrite <- (cachedAt_reordered w w1 f Hre).
      * intros Hall. inversion Hall as [|? ? _ Hall']; subst.
        eapply Forall_impl; [exact Hall'|]. intros f Hf. simpl.
        by rewrite (cachedAt_reordered w w1 f Hre).
    + destruct Hat as (w1 & -> & Hre). intros [= <- <-]. split; [done|].
      split; [done|]. intros Hall. inversion Hall; congruence.
    + by rewrite Hat.
Qed.

Lemma filesCached_returns files w :
  Forall (fun file => cachedAt (World.cache w) (World.now w) file <> None) files ->
  exists r w', filesCached files w = Ret r w'.
Proof.
  revert w. induction files as [|file files IH]; intros w Hall; simpl.
  - by eexists _, _.
  - inversion Hall as [|? ? Hfile Hrest]; subst. unfold bind.
    pose proof (fileCached_at file w) as Hat.
    destruct (cachedAt _ _ file) as [[|]|]; [| |done].
    + destruct Hat as (w1 & -> & Hre). apply IH.
      eapply Forall_impl; [exact Hrest|]. intros f Hf. simpl in Hf.
      by rewrite (cachedAt_reordered w w1 f Hre).
    + destruct Hat as (w1 & -> & _). by eexists _, _.
Qed.

(** X2. While no marker key of the files holds a channel binding,
    [filesCached] returns, and it answers true exactly when every file of
    the list is cached at the time of the call; it leaves the world as it
    is up to the order of the cache. *)
Theorem filesCached_all files w :
  Forall (fun file => cachedAt (World.cache w) (World.now w) file <> None) files ->
  exists r w',
    filesCached files w = Ret r w'
    /\ reordered w w'
    /\ (r = true <->
        Forall (fun file => cachedAt (World.cache w) (World.now w) file = Some true)
          files).
Proof.
  intros Hall. destruct (filesCached_returns files w Hall) as (r & w' & Hrun).
  exists r, w'. split; [exact Hrun|]. by apply filesCached_run.
Qed.

Lemma filesCached_all_scenario :
  exists r w',
    filesCached (MessageEvent.Files scenario.sighting) scenario.world = Ret r w'
    /\ reordered scenario.world w'
    /\ (r = true <->
        Forall (fun file => cachedAt (World.cache scenario.world)
                              (World.now scenario.world) file = Some true)
          (MessageEvent.Files scenario.sighting)).
Proof.
  apply (filesCached_all (MessageEvent.Files scenario.sighting) scenario.world).
  repeat constructor. vm_compute. discriminate.
Defined.

Lemma cachedAt_marked_id T name id c now file :
  File.ID file = id ->
  (T <= now < T + 60 * time.Second)%Z ->
  cachedAt (marked T name id c) now file = Some true.
Proof.
  intros Hid Ht. unfold cachedAt, idKey. rewrite Hid, marked_id. simpl.
  rewrite bool_decide_eq_true_2; [done|].
  apply Sub_within; unfold time.Minute in *; lia.
Qed.

Lemma cachedAt_marked_expired T name id c now file :
  File.ID file = id -> File.Name file = name ->
  (T + 60 * time.Second <= now)%Z ->
  cachedAt (marked T name id c) now file = Some false.
Proof.
  intros Hid Hname Ht. unfold cachedAt, idKey, nameKey.
  rewrite Hid, Hname, marked_id, marked_name. simpl.
  rewrite !bool_decide_eq_false_2;
    [done|apply Sub_expired; unfold time.Minute, time.Second in *; lia..].
Qed.

(** X3. An inbound event that carries only the file the adapter has just
    uploaded is skipped while the file-id marker is fresh, whatever else
    the event holds, unless it is a join or leave event; once 60 seconds
    have passed, a plain event with the same file is not skipped. *)
Theorem uploaded_file_sighting_skipped env b msg channelID fi res w :
  Message.extra "file" msg = [PFileInfo fi] ->
  sc_UploadFile env (World.calls w) (uploadParameters msg fi channelID) = Ok res ->
  UploadedFile.ID res <> "" ->
  exists messageID w',
    uploadFile env msg channelID w = Ret (messageID, None) w'
    /\ (forall ev file wq,
          World.cache wq = World.cache w' ->
          MessageEvent.Files ev = [file] ->
          File.ID file = UploadedFile.ID res ->
          ~ (MessageEvent.SubType ev = sChannelLeave
             \/ MessageEvent.SubType ev = sChannelJoin) ->
          (World.now w <= World.now wq < World.now w + 60 * time.Second)%Z ->
          exists wq', skipMessageEvent b ev wq = Ret true wq')
    /\ (forall ev file wq,
          World.cache wq = World.cache w' ->
          MessageEvent.Files ev = [file] ->
          File.ID file = UploadedFile.ID res ->
          File.Name file = FileInfo.Name fi ->
          plainEvent ev ->
          MessageEvent.Blocks ev = [] ->
          MessageEvent.Username ev <> sSlackBotUser ->
          (World.now w + 60 * time.Second <= World.now wq)%Z ->
          exists wq', skipMessageEvent b ev wq = Ret false wq').
Proof.
  intros Hfiles Hup Hid.
  destruct (uploadFile_one env msg channelID fi res w Hfiles Hup Hid)
    as (messageID & w' & Hrun & Hcache & _).
  exists messageID, w'. split; [exact Hrun|]. split.
  - intros ev file wq Hc Hf Hfid Hjoin Ht.
    pose proof (fileCached_at file wq) as Hat.
    rewrite Hc, Hcache, (cachedAt_marked_id _ _ _ _ _ _ Hfid Ht) in Hat.
    destruct Hat as (wq1 & Hcached & _).
    assert (Hfc : filesCached [file] wq = Ret true wq1).
    { simpl. unfold bind. by rewrite Hcached. }
    unfold skipMessageEvent.
    destruct (decide _) as [|_]; [done|].
    destruct (decide _) as [|_]; [by eexists|].
    destruct (decide _) as [|_]; [by eexists|].
    rewrite Hf.
    destruct (MessageEvent.SubMessage ev) as [sub|].
    + destruct (decide _) as [|_]; [by eexists|].
      destruct (_ && _); [by eexists|].
      destruct (_ || _); by eexists.
    + destruct (_ || _); by eexists.
  - intros ev file wq Hc Hf Hfid Hname [Hsub Hnosub] Hblocks Huser Ht.
    pose proof (fileCached_at file wq) as Hat.
    rewrite Hc, Hcache, (cachedAt_marked_expired _ _ _ _ _ _ Hfid Hname Ht) in Hat.
    destruct Hat as (wq1 & Hcached & _).
    unfold skipMessageEvent. rewrite Hsub, Hnosub, Hblocks, Hf. simpl.
    rewrite (bool_decide_eq_false_2 _ Huser). simpl.
    unfold bind. rewrite Hcached. by eexists.
Qed.

Lemma uploaded_file_sighting_skipped_scenario :
  exists messageID w',
    uploadFile scenario.env scenario.fileMsg "C1" scenario.world
    = Ret (messageID, None) w'
    /\ exists wq', skipMessageEvent scenario.bridge scenario.sighting w'
                   = Ret true wq'.
Proof.
  destruct (uploaded_file_sighting_skipped scenario.env scenario.bridge
              scenario.fileMsg "C1" scenario.report scenario.uploaded scenario.world)
    as (messageID & w' & Hrun & Hskip & _);
    [vm_compute; reflexivity|reflexivity|discriminate|].
  exists messageID, w'. split; [exact Hrun|].
  apply (Hskip scenario.sighting
           (File.mk "F1" "report.pdf" 1 "https://files.example/report.pdf") w');
    try reflexivity.
  - intros [H|H]; discriminate H.
  - vm_compute in Hrun. injection Hrun as _ <-. simpl. unfold time.Second. lia.
Defined.

(** X4. The adapter does not download a file it has just uploaded: while
    the file-id marker is fresh, [handleDownloadFile] returns the message
    untouched and nil without a request. *)
Theorem uploaded_file_not_downloaded env b msg channelID fi res w :
  Message.extra "file" msg = [PFileInfo fi] ->
  sc_UploadFile env (World.calls w) (uploadParameters msg fi channelID) = Ok res ->
  UploadedFile.ID res <> "" ->
  exists messageID w',
    uploadFile env msg channelID w = Ret (messageID, None) w'
    /\ forall rmsg file retry wq,
         World.cache wq = World.cache w' ->
         File.ID file = UploadedFile.ID res ->
         (World.now w <= World.now wq < World.now w + 60 * time.Second)%Z ->
         exists wq',
           handleDownloadFile env b rmsg file retry wq = Ret (rmsg, None) wq'
           /\ World.trace wq' = World.trace wq
           /\ World.calls wq' = World.calls wq.
Proof.
  intros Hfiles Hup Hid.
  destruct (uploadFile_one env msg channelID fi res w Hfiles Hup Hid)
    as (messageID & w' & Hrun & Hcache & _).
  exists messageID, w'. split; [exact Hrun|].
  intros rmsg file retry wq Hc Hfid Ht.
  pose proof (fileCached_at file wq) as Hat.
  rewrite Hc, Hcache, (cachedAt_marked_id _ _ _ _ _ _ Hfid Ht) in Hat.
  destruct Hat as (wq1 & Hcached & (c & -> & _)).
  exists (World.withCache c wq).
  split; [by apply handleDownloadFile_cached|done].
Qed.

Lemma uploaded_file_not_downloaded_scenario :
  exists messageID w',
    uploadFile scenario.env scenario.fileMsg "C1" scenario.world
    = Ret (messageID, None) w'
    /\ exists wq',
         handleDownloadFile scenario.env scenario.bridge scenario.received
           (File.mk "F1" "report.pdf" 1 "https://files.example/report.pdf") false w'
         = Ret (scenario.received, None) wq'
         /\ World.trace wq' = World.trace w'
         /\ World.calls wq' = World.calls w'.
Proof.
  destruct (uploaded_file_not_downloaded scenario.env scenario.bridge
              scenario.fileMsg "C1" scenario.report scenario.uploaded scenario.world)
    as (messageID & w' & Hrun & Hskip);
    [vm_compute; reflexivity|reflexivity|discriminate|].
  exists messageID, w'. split; [exact Hrun|].
  apply Hskip; try reflexivity.
  vm_compute in Hrun. injection Hrun as _ <-. simpl. unfold time.Second. lia.
Defined.

(** ** Channel bindings of files *)

(** [handleDownloadFile] reads the cache and never writes it. *)
Lemma handleDownloadFile_keeps_cache env b rmsg file retry w r w' :
  handleDownloadFile env b rmsg file retry w = Ret r w' ->
  forall k, lru.Peek k (World.cache w') = lru.Peek k (World.cache w).
Proof.
  unfold handleDownloadFile. cbn [handleDownloadFile_rec]. unfold bind at 1.
  destruct (fileCached file w) as [[|] w1| |] eqn:E1; [| |done..].
  { intros H k. inversion H; subst.
    by destruct (fileCached_reorders _ _ _ _ E1) as (c & -> & Hc). }
  destruct (fileCached_reorders _ _ _ _ E1) as (c1 & -> & Hc1).
  destruct (helper_HandleDownloadSize env rmsg _ _) as [rmsg1 [e|]].
  { intros H k. inversion H; subst. apply Hc1. }
  unfold bind at 1, request at 1.
  destruct (helper_DownloadFileAuth env _ _ _) as [data1|e].
  2: { intros H k. inversion H; subst. apply Hc1. }
  destruct (_ && negb retry).
  2: { intros H k. inversion H; subst. apply Hc1. }
  unfold bind at 1, time_Sleep, modify. unfold bind at 1.
  set (w3 := World.sleep _ _).
  assert (Hc3 : forall k, lru.Peek k (World.cache w3) = lru.Peek k (World.cache w))
    by (intros k; apply Hc1).
  clearbody w3. clear E1.
  destruct (fileCached file w3) as [[|] w2| |] eqn:E2; [| |done..].
  { intros H k. inversion H; subst.
    destruct (fileCached_reorders _ _ _ _ E2) as (c & -> & Hc).
    simpl. rewrite Hc. apply Hc3. }
  destruct (fileCached_reorders _ _ _ _ E2) as (c2 & -> & Hc2).
  destruct (helper_HandleDownloadSize env rmsg1 _ _) as [rmsg2 [e|]].
  { intros H k. inversion H; subst. simpl. rewrite Hc2. apply Hc3. }
  unfold bind at 1, request at 1.
  destruct (helper_DownloadFileAuth env _ _ _) as [data2|e];
    rewrite ?andb_false_r; intros H k; inversion H; subst; simpl; rewrite Hc2;
    apply Hc3.
Qed.

(** After the loop over the files, the binding of the last file is in the
    cache. *)
Lemma downloadFiles_binds_last env b files file channel rmsg w rmsg' w' :
  downloadFiles env b (files ++ [file]) channel rmsg w = Ret rmsg' w' ->
  lru.Peek (cfileDownloadChannel +:+ File.ID file) (World.cache w')
  = Some (VString channel).
Proof.
  revert rmsg w. induction files as [|f files IH]; intros rmsg w; simpl.
  - unfold bind at 1. rewrite cache_Add_run. unfold bind at 1.
    destruct (handleDownloadFile env b rmsg file false _) as [r w1| |] eqn:E;
      [|done..].
    intros H. inversion H; subst.
    rewrite (handleDownloadFile_keeps_cache _ _ _ _ _ _ _ _ E). simpl.
    apply lru_facts.Peek_Add_eq.
  - unfold bind at 1. rewrite cache_Add_run. unfold bind at 1.
    destruct (handleDownloadFile env b rmsg f false _) as [r w1| |]; [|done..].
    apply IH.
Qed.

(** X5. The channel of an inbound file is found again when the file is
    deleted: after [handleAttachments] has handled an event, the deletion
    of its last file is turned into a file-delete message for the channel
    of the event, as the directory names it.  A file the adapter has no
    binding for gives an error and no message. *)
Theorem file_binding_round_trip env b ev rmsg files file w rmsg' w' :
  MessageEvent.Files ev = (files ++ [file])%list ->
  handleAttachments env b ev rmsg w = Ret rmsg' w' ->
  (forall wq channel,
     (forall k, lru.Peek k (World.cache wq) = lru.Peek k (World.cache w')) ->
     channels_getChannelByID env (World.refreshes wq) (MessageEvent.Channel ev)
     = Ok channel ->
     exists wq',
       handleFileDeletedEvent env b (File.ID file) wq
       = Ret (Some (Message.mk (File.ID file) "" (Channel.Name channel) "" "" ""
                      config.EventFileDelete config.EventFileDelete None
                      (Account b) (Protocol b)), None) wq')
  /\ (forall wq fileID,
        lru.Peek (cfileDownloadChannel +:+ fileID) (World.cache wq) = None ->
        handleFileDeletedEvent env b fileID wq
        = Ret (None, Some (Errorf "channel ID for file ID %s not found"
                             [ArgString fileID])) wq).
Proof.
  intros Hfiles Hrun. split.
  - assert (Hbound : lru.Peek (cfileDownloadChannel +:+ File.ID file) (World.cache w')
                     = Some (VString (MessageEvent.Channel ev))).
    { unfold handleAttachments in Hrun. rewrite Hfiles in Hrun.
      unfold bind at 1 in Hrun.
      destruct (MessageEvent.Attachments ev) as [|a l];
        [|destruct (Message.Extra _); [|done]];
        unfold ret in Hrun; by eapply downloadFiles_binds_last. }
    intros wq channel Hsame Hch. unfold handleFileDeletedEvent.
    unfold bind at 1, cache_Get.
    pose proof (lru_facts.Get_fst (cfileDownloadChannel +:+ File.ID file)
                  (World.cache wq)) as Hget.
    destruct (lru.Get _ (World.cache wq)) as [r c]. simpl in Hget.
    rewrite Hget, Hsame, Hbound. simpl. unfold bind, gets. simpl.
    rewrite Hch. by eexists.
  - intros wq fileID Hnone. unfold handleFileDeletedEvent.
    unfold bind at 1, cache_Get, lru.Get. rewrite Hnone. by destruct wq.
Qed.

Lemma file_binding_round_trip_scenario :
  exists rmsg' w',
    handleAttachments scenario.env scenario.bridge scenario.sighting
      scenario.received scenario.world = Ret rmsg' w'
    /\ exists wq',
         handleFileDeletedEvent scenario.env scenario.bridge "F1" w'
         = Ret (Some (Message.mk "F1" "" "general" "" "" ""
                        config.EventFileDelete config.EventFileDelete None
                        "slack.test" "slack"), None) wq'.
Proof.
  destruct (handleAttachments scenario.env scenario.bridge scenario.sighting
              scenario.received scenario.world) as [rmsg' w'| |] eqn:Hrun;
    [|vm_compute in Hrun; discriminate..].
  exists rmsg', w'. split; [done|].
  apply (proj1 (file_binding_round_trip scenario.env scenario.bridge
                  scenario.sighting scenario.received []
                  (File.mk "F1" "report.pdf" 1 "https://files.example/report.pdf")
                  scenario.world rmsg' w' eq_refl Hrun)
           w' (Channel.mk "C1" "general" true)); [done|reflexivity].
Defined.

(** X6. The three families of cache keys are told apart by their prefixes
    only: the file-id marker of an uploaded file whose ID the platform
    gave as _download_channel followed by [X] sits under the key of the
    channel binding of file [X], and the deletion of file [X] then panics
    on the assertion that the binding is a string. *)
Theorem key_families_collide env b msg channelID fi res X w :
  Message.extra "file" msg = [PFileInfo fi] ->
  sc_UploadFile env (World.calls w) (uploadParameters msg fi channelID) = Ok res ->
  UploadedFile.ID res = "_download_channel" +:+ X ->
  exists messageID w',
    uploadFile env msg channelID w = Ret (messageID, None) w'
    /\ forall wq,
         World.cache wq = World.cache w' ->
         handleFileDeletedEvent env b X wq = Panic.
Proof.
  intros Hfiles Hup Hid.
  destruct (uploadFile_one env msg channelID fi res w Hfiles Hup)
    as (messageID & w' & Hrun & Hcache & _); [by rewrite Hid|].
  exists messageID, w'. split; [exact Hrun|].
  intros wq Hc. unfold handleFileDeletedEvent, bind at 1, cache_Get.
  pose proof (lru_facts.Get_fst (cfileDownloadChannel +:+ X) (World.cache wq)) as Hget.
  destruct (lru.Get _ (World.cache wq)) as [r c]. simpl in Hget.
  rewrite Hget, Hc, Hcache, Hid.
  change (cfileDownloadChannel +:+ X) with ("file" +:+ "_download_channel" +:+ X).
  by rewrite marked_id.
Qed.

(** ** Classification of inbound events *)

Lemma handleStatusEvent_run ev rmsg w handled rmsg' w' :
  handleStatusEvent ev rmsg w = Ret (handled, rmsg') w' ->
  handled = true <->
  MessageEvent.SubType ev = sChannelJoined
  \/ MessageEvent.SubType ev = sMemberJoined
  \/ MessageEvent.SubType ev = sMessageDeleted
  \/ (MessageEvent.SubType ev = sMessageChanged
      /\ exists sub, MessageEvent.SubMessage ev = Some sub
                     /\ Msg.Text sub = "This message was deleted.").
Proof.
  unfold handleStatusEvent.
  destruct (decide _) as [[H|H]|H1]; [intros [= <- _ _]; tauto..|].
  destruct (decide _) as [[H|H]|H2].
  1,2: intros [= <- _ _]; split; [done|]; rewrite H;
       by intros [?|[?|[?|[? _]]]].
  destruct (decide _) as [[H|H]|H3].
  1,2: unfold bind, modify; intros [= <- _ _]; split; [done|]; rewrite H;
       by intros [?|[?|[?|[? _]]]].
  destruct (decide _) as [H|H4].
  { destruct (MessageEvent.SubMessage ev) as [sub|]; [|done].
    destruct (decide _) as [Hdel|Hdel]; intros [= <- _ _].
    - split; [|done]. intros _. right. right. right. split; [done|]. by exists sub.
    - split; [done|]. rewrite H.
      intros [?|[?|[?|[_ (sub' & [= <-] & ?)]]]]; done. }
  destruct (decide _) as [H|H5]; [intros [= <- _ _]; tauto|].
  destruct (decide _) as [H|H6]; intros [= <- _ _]; split; try done;
    intros [?|[?|[?|[? _]]]]; tauto.
Qed.

Lemma handleStatusEvent_returns ev rmsg w :
  (MessageEvent.SubType ev = sMessageChanged -> MessageEvent.SubMessage ev <> None) ->
  exists handled rmsg' w', handleStatusEvent ev rmsg w = Ret (handled, rmsg') w'.
Proof.
  intros Hsub. unfold handleStatusEvent.
  destruct (decide _); [by eexists _, _, _|].
  destruct (decide _); [by eexists _, _, _|].
  destruct (decide _); [by eexists _, _, _|].
  destruct (decide _) as [Hchanged|].
  { destruct (MessageEvent.SubMessage ev) as [sub|]; [|by destruct (Hsub Hchanged)].
    destruct (decide _); by eexists _, _, _. }
  destruct (decide _); [by eexists _, _, _|].
  destruct (decide _); by eexists _, _, _.
Qed.

(** X7. [handleStatusEvent] returns for every event but a message_changed
    event without a sub-message, and it reports the event as handled in
    full exactly when its subtype is channel_joined, member_joined_channel
    or message_deleted, or when it is a message_changed event whose edited
    text is the notice of a deleted message. *)
Theorem handleStatusEvent_handled ev rmsg w :
  (MessageEvent.SubType ev = sMessageChanged -> MessageEvent.SubMessage ev <> None) ->
  exists handled rmsg' w',
    handleStatusEvent ev rmsg w = Ret (handled, rmsg') w'
    /\ (handled = true <->
        MessageEvent.SubType ev = sChannelJoined
        \/ MessageEvent.SubType ev = sMemberJoined
        \/ MessageEvent.SubType ev = sMessageDeleted
        \/ (MessageEvent.SubType ev = sMessageChanged
            /\ exists sub, MessageEvent.SubMessage ev = Some sub
                           /\ Msg.Text sub = "This message was deleted.")).
Proof.
  intros Hsub.
  destruct (handleStatusEvent_returns ev rmsg w Hsub) as (handled & rmsg' & w' & Hrun).
  exists handled, rmsg', w'. split; [exact Hrun|].
  by eapply handleStatusEvent_run.
Qed.

Lemma handleStatusEvent_handled_scenario :
  exists handled rmsg' w',
    handleStatusEvent scenario.deleted scenario.received scenario.world
    = Ret (handled, rmsg') w'
    /\ (handled = true <->
        MessageEvent.SubType scenario.deleted = sChannelJoined
        \/ MessageEvent.SubType scenario.deleted = sMemberJoined
        \/ MessageEvent.SubType scenario.deleted = sMessageDeleted
        \/ (MessageEvent.SubType scenario.deleted = sMessageChanged
            /\ exists sub, MessageEvent.SubMessage scenario.deleted = Some sub
                           /\ Msg.Text sub = "This message was deleted.")).
Proof.
  apply (handleStatusEvent_handled scenario.deleted scenario.received scenario.world).
  discriminate.
Defined.

(** X8. Classifying twice is classifying once: on the message it has left,
    [handleStatusEvent] gives the same answer and the same message. *)
Theorem handleStatusEvent_idempotent ev rmsg w handled rmsg' w' :
  handleStatusEvent ev rmsg w = Ret (handled, rmsg') w' ->
  exists w'', handleStatusEvent ev rmsg' w' = Ret (handled, rmsg') w''.
Proof.
  unfold handleStatusEvent.
  destruct (decide _); [intros [= <- <- <-]; by eexists|].
  destruct (decide _); [intros [= <- <- <-]; by eexists|].
  destruct (decide _);
    [unfold bind, modify; intros [= <- <- <-]; by eexists|].
  destruct (decide _).
  { destruct (MessageEvent.SubMessage ev) as [sub|]; [|done].
    destruct (decide _); intros [= <- <- <-]; by eexists. }
  destruct (decide _); [intros [= <- <- <-]; by eexists|].
  destruct (decide _); intros [= <- <- <-]; by eexists.
Qed.

Lemma handleStatusEvent_idempotent_scenario :
  exists w'',
    handleStatusEvent scenario.deleted
      (Message.withID "42"
         (Message.withEvent config.EventMsgDelete
            (Message.withText config.EventMsgDelete scenario.received)))
      scenario.world
    = Ret (true,
           Message.withID "42"
             (Message.withEvent config.EventMsgDelete
                (Message.withText config.EventMsgDelete scenario.received)))
        w''.
Proof.
  apply (handleStatusEvent_idempotent scenario.deleted scenario.received
           scenario.world). reflexivity.
Defined.

(** X9. A message_deleted event is forwarded as a delete of the message
    with the deleted timestamp, without the attachment stage and without
    the final validation: also when the message has no username, and with
    no change to the cache or the trace. *)
Theorem handleMessageEvent_deleted env b ev rmsg w :
  populateReceivedMessage env ev = Ok rmsg ->
  MessageEvent.SubType ev = sMessageDeleted ->
  handleMessageEvent env b ev w
  = Ret (Some (Message.withID (MessageEvent.DeletedTimestamp ev)
                 (Message.withEvent config.EventMsgDelete
                    (Message.withText config.EventMsgDelete rmsg))), None) w.
Proof.
  intros Hpop Hsub. unfold handleMessageEvent. rewrite Hpop.
  unfold bind at 1, handleStatusEvent. by rewrite Hsub.
Qed.

Lemma handleMessageEvent_deleted_scenario :
  handleMessageEvent scenario.env scenario.bridge scenario.deleted scenario.world
  = Ret (Some (Message.mk "42" "" "C1" "" "U1" "" config.EventMsgDelete
                 config.EventMsgDelete (Some ∅) "slack.test" "slack"), None)
      scenario.world.
Proof.
  apply (handleMessageEvent_deleted scenario.env scenario.bridge scenario.deleted
           (Message.mk "" "" "C1" "" "U1" "" "" "" (Some ∅) "slack.test" "slack")
           scenario.world); reflexivity.
Defined.

Lemma key_families_collide_scenario :
  exists messageID w',
    uploadFile
      (scenario.answering (fun _ => None)
         (fun _ => Ok (UploadedFile.mk "_download_channelF9" ∅ ∅)))
      scenario.fileMsg "C1" scenario.world = Ret (messageID, None) w'
    /\ forall wq,
         World.cache wq = World.cache w' ->
         handleFileDeletedEvent
           (scenario.answering (fun _ => None)
              (fun _ => Ok (UploadedFile.mk "_download_channelF9" ∅ ∅)))
           scenario.bridge "F9" wq = Panic.
Proof.
  apply (key_families_collide
           (scenario.answering (fun _ => None)
              (fun _ => Ok (UploadedFile.mk "_download_channelF9" ∅ ∅)))
           scenario.bridge scenario.fileMsg "C1" scenario.report
           (UploadedFile.mk "_download_channelF9" ∅ ∅) "F9" scenario.world);
    [vm_compute; reflexivity|reflexivity..].
Defined.

(** ** The decision list of the API sender *)

Lemma prepareMessageOptions_run env b msg w opts w' :
  prepareMessageOptions env b msg w = Ret opts w' ->
  w' = w /\ exists attachments, opts = messageOptions env b msg attachments.
Proof.
  assert (Hc : forall l w a w', createAttach l w = Ret a w' -> w' = w).
  { induction l as [|[] l IH]; simpl; try done; intros w0 a w0'.
    - by intros [= _ <-].
    - unfold bind. destruct (createAttach l w0) as [r w1| |] eqn:E; [|done..].
      intros [= _ <-]. by eapply IH. }
  assert (Hn : forall l w a w', nativeAttachments l w = Ret a w' -> w' = w).
  { induction l as [|[] l IH]; simpl; try done; intros w0 a w0'.
    - by intros [= _ <-].
    - unfold bind. destruct (nativeAttachments l w0) as [r w1| |] eqn:E; [|done..].
      intros [= _ <-]. by eapply IH. }
  unfold prepareMessageOptions, bind.
  destruct (createAttach _ w) as [files w1| |] eqn:E1; [|done..].
  apply Hc in E1 as ->.
  destruct (Message.Extra msg).
  - destruct (nativeAttachments _ w) as [native w2| |] eqn:E2; [|done..].
    apply Hn in E2 as ->. intros [= <- <-]. split; [done|]. by eexists.
  - intros [= <- <-]. split; [done|]. by eexists.
Qed.

Lemma extra_without_payloads msg k : Message.lenExtra msg = 0 -> Message.extra k msg = [].
Proof.
  unfold Message.lenExtra, Message.extra. destruct (Message.Extra msg) as [e|]; [|done].
  intros H. apply map_size_empty_inv in H. subst. by rewrite lookup_empty.
Qed.

Lemma prepareMessageOptions_plain env b msg w :
  Message.lenExtra msg = 0 ->
  prepareMessageOptions env b msg w = Ret (messageOptions env b msg []) w.
Proof.
  intros H. unfold prepareMessageOptions.
  rewrite !(extra_without_payloads msg _ H). simpl. unfold bind. simpl.
  by destruct (Message.Extra msg).
Qed.

Lemma ordinary_outgoing env b msg : ordinary msg -> ordinary (outgoing env b msg).
Proof. done. Qed.

(** [sendAPI] on an ordinary message whose channel resolves: the thread
    fallback, the nickname prefix, then edit, upload or post. *)
Lemma sendAPI_ordinary env b fuel msg channelInfo w :
  ordinary msg ->
  channels_getChannel env (World.refreshes w) (Message.Channel msg) = Ok channelInfo ->
  sendAPI env b fuel msg w =
  bind (editMessage env b fuel (prefixed b (unthreaded msg)) channelInfo)
    (fun r =>
       if r.1 then ret (Message.ID msg, r.2)
       else if decide (0 < Message.lenExtra msg)%nat then
         postExtraMsgs env b fuel
           (helper_HandleExtra env (prefixed b (unthreaded msg))) channelInfo ;;;
         uploadFile env (prefixed b (unthreaded msg)) (Channel.ID channelInfo)
       else postAPIMessage env b fuel (prefixed b (unthreaded msg)) channelInfo) w.
Proof.
  intros (Hm & Ht & Htopic & Hdel) Hch.
  unfold sendAPI, handleGetChannelMembers, bind at 1.
  destruct (decide (Message.Event msg = config.EventGetChannelMembers)); [done|].
  simpl. unfold bind at 1, gets. rewrite Hch.
  destruct (decide (Message.Event msg = config.EventUserTyping)); [done|].
  unfold bind at 1, handleTopicOrPurpose.
  destruct (decide (Message.Event msg = config.EventTopicChange)); [done|].
  simpl. fold (unthreaded msg).
  assert (He : Message.Event (unthreaded msg) = Message.Event msg)
    by (unfold unthreaded; by destruct (config.ParentNotFound msg)).
  assert (Hi : Message.ID (unthreaded msg) = Message.ID msg)
    by (unfold unthreaded; by destruct (config.ParentNotFound msg)).
  assert (Hx : Message.lenExtra (unthreaded msg) = Message.lenExtra msg)
    by (unfold unthreaded; by destruct (config.ParentNotFound msg)).
  unfold bind at 1, deleteMessage. rewrite He.
  destruct (decide (Message.Event msg = config.EventMsgDelete)); [done|].
  simpl. fold (prefixed b (unthreaded msg)).
  assert (Hi' : Message.ID (prefixed b (unthreaded msg)) = Message.ID msg)
    by (unfold prefixed; by destruct (GetBool b useNickPrefixConfig)).
  assert (Hx' : Message.lenExtra (prefixed b (unthreaded msg)) = Message.lenExtra msg)
    by (unfold prefixed; by destruct (GetBool b useNickPrefixConfig)).
  by rewrite Hi', Hx'.
Qed.

Lemma dressed_Text env b msg :
  Message.ParentID msg <> config.ParentIDNotFound ->
  Message.Text (dressed env b msg)
  = (if GetBool b useNickPrefixConfig then Message.Username msg else "")
    +:+ Message.Text (outgoing env b msg).
Proof.
  intros H. unfold dressed, prefixed, unthreaded, config.ParentNotFound.
  change (Message.ParentID (outgoing env b msg)) with (Message.ParentID msg).
  rewrite (bool_decide_eq_false_2 _ H).
  by destruct (GetBool b useNickPrefixConfig).
Qed.

Lemma Send_post_run env b fuel msg channelInfo id w :
  ~ webhookConfigured b ->
  ordinary msg ->
  Message.ID msg = "" ->
  Message.lenExtra msg = 0 ->
  channels_getChannel env (World.refreshes w) (Message.Channel msg) = Ok channelInfo ->
  Message.Text (dressed env b msg) <> "" ->
  sc_PostMessage env (World.calls w) (Channel.ID channelInfo)
    (messageOptions env b (dressed env b msg) []) = Ok id ->
  Send env b (S fuel) msg w
  = Ret (id, None)
      (World.request
         (EPostMessage (Channel.ID channelInfo)
            (messageOptions env b (dressed env b msg) [])) w).
Proof.
  intros Hapi Hord Hid Hextra Hch Htext Hpost.
  rewrite (Send_api_mode env b (S fuel) msg w Hapi).
  rewrite (sendAPI_ordinary env b (S fuel) (outgoing env b msg) channelInfo w
             (ordinary_outgoing env b msg Hord) Hch).
  fold (dressed env b msg).
  assert (Hid' : Message.ID (dressed env b msg) = "").
  { unfold dressed, prefixed, unthreaded.
    by destruct (GetBool b _), (config.ParentNotFound _). }
  assert (Hextra' : Message.lenExtra (dressed env b msg) = 0).
  { unfold dressed, prefixed, unthreaded.
    by destruct (GetBool b _), (config.ParentNotFound _). }
  unfold bind at 1, editMessage. rewrite Hid'. simpl.
  change (Message.lenExtra (outgoing env b msg)) with (Message.lenExtra msg).
  rewrite Hextra. simpl. unfold postAPIMessage.
  destruct (decide (Message.Text (dressed env b msg) = "")); [done|].
  unfold bind at 1. rewrite (prepareMessageOptions_plain _ _ _ _ Hextra').
  simpl. unfold bind at 1, request. by rewrite Hpost.
Qed.

(** X10. A plain message with a text, no ID and no extras, whose channel
    resolves and whose post the platform accepts, costs exactly one
    request: the post, with the text (behind the username when the
    nickname prefix is on) and the marker block; [Send] returns the ID the
    platform assigned. *)
Theorem Send_posts_once env b fuel msg channelInfo id w :
  ~ webhookConfigured b ->
  Message.Event msg = "" ->
  Message.ID msg = "" ->
  Message.lenExtra msg = 0 ->
  Message.ParentID msg <> config.ParentIDNotFound ->
  channels_getChannel env (World.refreshes w) (Message.Channel msg) = Ok channelInfo ->
  Message.Text (dressed env b msg) <> "" ->
  sc_PostMessage env (World.calls w) (Channel.ID channelInfo)
    (messageOptions env b (dressed env b msg) []) = Ok id ->
  Send env b (S fuel) msg w
  = Ret (id, None)
      (World.request
         (EPostMessage (Channel.ID channelInfo)
            (messageOptions env b (dressed env b msg) [])) w)
  /\ Message.Text (dressed env b msg)
     = (if GetBool b useNickPrefixConfig then Message.Username msg else "")
       +:+ Message.Text (outgoing env b msg).
Proof.
  intros Hapi Hev Hid Hextra Hparent Hch Htext Hpost. split.
  - apply Send_post_run; try done. unfold ordinary. by rewrite Hev.
  - by apply dressed_Text.
Qed.

Lemma Send_posts_once_scenario :
  Send scenario.accepting scenario.bridge 1 scenario.hello scenario.world
  = Ret (scenario.posted, None)
      (World.request
         (EPostMessage "C1"
            (messageOptions scenario.accepting scenario.bridge
               (dressed scenario.accepting scenario.bridge scenario.hello) []))
         scenario.world)
  /\ Message.Text (dressed scenario.accepting scenario.bridge scenario.hello)
     = "" +:+ Message.Text (outgoing scenario.accepting scenario.bridge scenario.hello).
Proof.
  apply (Send_posts_once scenario.accepting scenario.bridge 0 scenario.hello
           (Channel.mk "C1" "general" true) scenario.posted scenario.world);
    try reflexivity; try discriminate.
  intros [_ H]. discriminate H.
Defined.

(** X11. A message whose thread parent could not be resolved is posted
    outside of any thread, with its text behind the words [thread]: and,
    when the nickname prefix is on, the username in front of both; it is
    posted also when its own text is empty. *)
Theorem Send_thread_fallback env b fuel msg channelInfo id w :
  ~ webhookConfigured b ->
  Message.Event msg = "" ->
  Message.ID msg = "" ->
  Message.lenExtra msg = 0 ->
  Message.ParentID msg = config.ParentIDNotFound ->
  channels_getChannel env (World.refreshes w) (Message.Channel msg) = Ok channelInfo ->
  sc_PostMessage env (World.calls w) (Channel.ID channelInfo)
    (messageOptions env b (dressed env b msg) []) = Ok id ->
  exists opts params,
    Send env b (S fuel) msg w
    = Ret (id, None) (World.request (EPostMessage (Channel.ID channelInfo) opts) w)
    /\ In (MsgOptionText
             ((if GetBool b useNickPrefixConfig then Message.Username msg else "")
              +:+ "[thread]: " +:+ Message.Text (outgoing env b msg)) false) opts
    /\ In (MsgOptionPostMessageParameters params) opts
    /\ PostMessageParameters.ThreadTimestamp params = "".
Proof.
  intros Hapi Hev Hid Hextra Hparent Hch Hpost.
  assert (Htext : Message.Text (dressed env b msg)
                  = (if GetBool b useNickPrefixConfig then Message.Username msg else "")
                    +:+ "[thread]: " +:+ Message.Text (outgoing env b msg)).
  { unfold dressed, prefixed, unthreaded, config.ParentNotFound.
    change (Message.ParentID (outgoing env b msg)) with (Message.ParentID msg).
    rewrite (bool_decide_eq_true_2 _ Hparent).
    by destruct (GetBool b useNickPrefixConfig). }
  assert (Hthread : Message.ParentID (dressed env b msg) = "").
  { unfold dressed, prefixed, unthreaded, config.ParentNotFound.
    change (Message.ParentID (outgoing env b msg)) with (Message.ParentID msg).
    rewrite (bool_decide_eq_true_2 _ Hparent).
    by destruct (GetBool b useNickPrefixConfig). }
  eexists _, _. split; [|split; [|split]].
  - apply (Send_post_run env b fuel msg channelInfo id w); try done.
    + unfold ordinary. by rewrite Hev.
    + rewrite Htext. destruct (GetBool b useNickPrefixConfig);
        [by destruct (Message.Username msg)|done].
  - rewrite <- Htext. simpl. auto.
  - simpl. do 4 right. left. reflexivity.
  - exact Hthread.
Qed.

Lemma Send_thread_fallback_scenario :
  exists opts params,
    Send scenario.accepting scenario.bridge 1 scenario.orphan scenario.world
    = Ret (scenario.posted, None) (World.request (EPostMessage "C1" opts) scenario.world)
    /\ In (MsgOptionText
             ("" +:+ "[thread]: "
              +:+ Message.Text (outgoing scenario.accepting scenario.bridge
                                  scenario.orphan)) false) opts
    /\ In (MsgOptionPostMessageParameters params) opts
    /\ PostMessageParameters.ThreadTimestamp params = "".
Proof.
  apply (Send_thread_fallback scenario.accepting scenario.bridge 0 scenario.orphan
           (Channel.mk "C1" "general" true) scenario.posted scenario.world);
    try reflexivity.
  intros [_ H]. discriminate H.
Defined.

(** X12. A message with an ID is an edit: when the platform accepts the
    update, [Send] has made exactly one request, the update of the message
    with that ID, and returns that ID; nothing is posted and, when the
    message carries files, nothing is uploaded. *)
Theorem Send_edits_once env b fuel msg channelInfo opts w :
  ~ webhookConfigured b ->
  ordinary msg ->
  Message.ID msg <> "" ->
  channels_getChannel env (World.refreshes w) (Message.Channel msg) = Ok channelInfo ->
  prepareMessageOptions env b (dressed env b msg) w = Ret opts w ->
  sc_UpdateMessage env (World.calls w) (Channel.ID channelInfo) (Message.ID msg) opts
  = None ->
  Send env b (S fuel) msg w
  = Ret (Message.ID msg, None)
      (World.request (EUpdateMessage (Channel.ID channelInfo) (Message.ID msg) opts) w).
Proof.
  intros Hapi Hord Hid Hch Hopts Hup.
  rewrite (Send_api_mode env b (S fuel) msg w Hapi).
  rewrite (sendAPI_ordinary env b (S fuel) (outgoing env b msg) channelInfo w
             (ordinary_outgoing env b msg Hord) Hch).
  fold (dressed env b msg).
  assert (Hid' : Message.ID (dressed env b msg) = Message.ID msg).
  { unfold dressed, prefixed, unthreaded.
    by destruct (GetBool b _), (config.ParentNotFound _). }
  unfold bind at 1, editMessage. rewrite Hid'.
  destruct (decide (Message.ID msg = "")); [done|].
  unfold bind at 1. rewrite Hopts. simpl. unfold bind at 1, request.
  by rewrite Hup.
Qed.

Lemma Send_edits_once_scenario :
  Send scenario.accepting scenario.bridge 1 scenario.edited scenario.world
  = Ret ("123", None)
      (World.request
         (EUpdateMessage "C1" "123"
            (messageOptions scenario.accepting scenario.bridge
               (dressed scenario.accepting scenario.bridge scenario.edited) []))
         scenario.world).
Proof.
  apply (Send_edits_once scenario.accepting scenario.bridge 0 scenario.edited
           (Channel.mk "C1" "general" true)); try reflexivity; try discriminate.
  - intros [_ H]. discriminate H.
  - repeat split; discriminate.
Defined.

Lemma deleteMessage_loop_handled env n channelID ts w r w' :
  deleteMessage_loop env n channelID ts w = Ret r w' -> r.1 = true.
Proof.
  revert w. induction n as [|n IH]; intros w; simpl; [done|].
  unfold bind at 1, request.
  destruct (sc_DeleteMessage env _ _ _) as [err|]; [|by intros [= <- _]].
  unfold bind at 1. destruct err; simpl; try (by intros [= <- _]).
  apply IH.
Qed.

Lemma sendAPI_delete env b n msg w :
  Message.Event msg = config.EventMsgDelete ->
  sendAPI env b n msg w =
  match channels_getChannel env (World.refreshes w) (Message.Channel msg) with
  | Err err => Ret ("", Some (Errorf "could not send message: %v" [ArgError err])) w
  | Ok channelInfo =>
      if decide (Message.ID msg = "") then Ret ("", None) w
      else bind (deleteMessage_loop env n (Channel.ID channelInfo) (Message.ID msg))
             (fun r => ret (Message.ID msg, r.2)) w
  end.
Proof.
  intros Hev. unfold sendAPI, handleGetChannelMembers, bind at 1.
  rewrite Hev. simpl. unfold bind at 1, gets.
  destruct (channels_getChannel env _ _) as [channelInfo|err]; [|done].
  unfold bind at 1, handleTopicOrPurpose. rewrite Hev. simpl.
  fold (unthreaded msg).
  assert (He : Message.Event (unthreaded msg) = config.EventMsgDelete).
  { unfold unthreaded. by destruct (config.ParentNotFound _). }
  assert (Hi : Message.ID (unthreaded msg) = Message.ID msg).
  { unfold unthreaded. by destruct (config.ParentNotFound _). }
  unfold bind at 1, deleteMessage. rewrite He, Hi. simpl.
  destruct (decide (Message.ID msg = "")) as [->|]; [done|].
  unfold bind.
  destruct (deleteMessage_loop env n _ _ w) as [[handled e] w1| |] eqn:E; try done.
  apply deleteMessage_loop_handled in E. simpl in E. by subst.
Qed.

(** X13. A deletion is sent on as one delete request for the message with
    the given ID, and [Send] returns that ID; a deletion without an ID is
    dropped without a request; and a deletion for a channel the directory
    does not know is an error even then. *)
Theorem Send_deletes env b fuel msg w :
  ~ webhookConfigured b ->
  Message.Event msg = config.EventMsgDelete ->
  (forall err,
     channels_getChannel env (World.refreshes w) (Message.Channel msg) = Err err ->
     Send env b fuel msg w
     = Ret ("", Some (Errorf "could not send message: %v" [ArgError err])) w)
  /\ (forall channelInfo,
        channels_getChannel env (World.refreshes w) (Message.Channel msg)
        = Ok channelInfo ->
        (Message.ID msg = "" -> Send env b fuel msg w = Ret ("", None) w)
        /\ (Message.ID msg <> "" ->
            sc_DeleteMessage env (World.calls w) (Channel.ID channelInfo)
              (Message.ID msg) = None ->
            Send env b (S fuel) msg w
            = Ret (Message.ID msg, None)
                (World.request
                   (EDeleteMessage (Channel.ID channelInfo) (Message.ID msg)) w))).
Proof.
  intros Hapi Hev.
  assert (Hrun : forall n,
    Send env b n msg w =
    match channels_getChannel env (World.refreshes w) (Message.Channel msg) with
    | Err err => Ret ("", Some (Errorf "could not send message: %v" [ArgError err])) w
    | Ok channelInfo =>
        if decide (Message.ID msg = "") then Ret ("", None) w
        else bind (deleteMessage_loop env n (Channel.ID channelInfo) (Message.ID msg))
               (fun r => ret (Message.ID msg, r.2)) w
    end).
  { intros n. rewrite (Send_api_mode env b n msg w Hapi).
    by rewrite (sendAPI_delete env b n (outgoing env b msg) w Hev). }
  split.
  - intros err Hch. by rewrite Hrun, Hch.
  - intros channelInfo Hch. split.
    + intros Hid. rewrite Hrun, Hch. by destruct (decide _).
    + intros Hid Hdel. rewrite Hrun, Hch. destruct (decide _); [done|].
      simpl. unfold bind at 1. unfold bind at 1, request. by rewrite Hdel.
Qed.

Lemma Send_deletes_scenario :
  Send scenario.accepting scenario.bridge 1 scenario.deletion scenario.world
  = Ret ("123", None) (World.request (EDeleteMessage "C1" "123") scenario.world).
Proof.
  destruct (Send_deletes scenario.accepting scenario.bridge 0 scenario.deletion
              scenario.world) as [_ H]; [|reflexivity|].
  - intros [_ H]. discriminate H.
  - destruct (H (Channel.mk "C1" "general" true) eq_refl) as [_ Hdel].
    apply Hdel; [discriminate|reflexivity].
Defined.

(** X14. A typing notice causes no request and is answered with an empty
    ID and nil, but only after its channel was resolved: for a channel the
    directory does not know, [Send] returns the error of the lookup. *)
Theorem Send_typing env b fuel msg w :
  ~ webhookConfigured b ->
  Message.Event msg = config.EventUserTyping ->
  Send env b fuel msg w =
  match channels_getChannel env (World.refreshes w) (Message.Channel msg) with
  | Ok _ => Ret ("", None) w
  | Err err => Ret ("", Some (Errorf "could not send message: %v" [ArgError err])) w
  end.
Proof.
  intros Hapi Hev. rewrite (Send_api_mode env b fuel msg w Hapi).
  unfold sendAPI, handleGetChannelMembers, bind at 1.
  change (Message.Event (outgoing env b msg)) with (Message.Event msg).
  change (Message.Channel (outgoing env b msg)) with (Message.Channel msg).
  rewrite Hev. simpl. unfold bind at 1, gets.
  by destruct (channels_getChannel env _ _).
Qed.

Lemma Send_typing_scenario :
  Send scenario.env scenario.bridge 0 scenario.typing scenario.world
  = Ret ("", Some (Errorf "could not send message: %v"
                     [ArgError (ErrorString "channel not found")])) scenario.world.
Proof.
  rewrite (Send_typing scenario.env scenario.bridge 0 scenario.typing scenario.world);
    [reflexivity| |reflexivity].
  intros [_ H]. discriminate H.
Defined.

(** X15. A request for the channel members is answered from the
    directory: the roster goes to the relay as one message, no request
    goes to the platform, and the channel of the message is not looked
    up. *)
Theorem Send_roster env b fuel msg w :
  ~ webhookConfigured b ->
  Message.Event msg = config.EventGetChannelMembers ->
  Send env b fuel msg w
  = Ret ("", None) (World.emit (ERemote (rosterMessage env b w)) w).
Proof.
  intros Hapi Hev. rewrite (Send_api_mode env b fuel msg w Hapi).
  unfold sendAPI, handleGetChannelMembers, bind at 1.
  change (Message.Event (outgoing env b msg)) with (Message.Event msg).
  by rewrite Hev.
Qed.

Lemma Send_roster_scenario :
  Send scenario.env scenario.bridge 0 scenario.rosterRequest scenario.world
  = Ret ("", None)
      (World.emit (ERemote (rosterMessage scenario.env scenario.bridge scenario.world))
         scenario.world).
Proof.
  apply (Send_roster scenario.env scenario.bridge 0 scenario.rosterRequest
           scenario.world); [|reflexivity].
  intros [_ H]. discriminate H.
Defined.

Lemma emits_topic_loop env n kind channelID text :
  emits isTopicCall (updateTopicOrPurpose_loop env n kind channelID text).
Proof.
  induction n as [|n IH]; simpl; [apply emits_timeout|].
  destruct (decide _); [|apply emits_ret].
  apply emits_bind.
  - destruct (decide _); by apply emits_request.
  - intros [err|]; [|apply emits_ret].
    apply emits_bind.
    + destruct err; simpl; try apply emits_ret.
      apply emits_bind; [by eapply emits_one|intros; apply emits_ret].
    + intros [e|]; [apply emits_ret|done].
Qed.

Lemma sendAPI_topic env b n msg channelInfo w :
  Message.Event msg = config.EventTopicChange ->
  channels_getChannel env (World.refreshes w) (Message.Channel msg) = Ok channelInfo ->
  GetBool b "SyncTopic" = true \/ GetBool b "ShowTopicChange" = false ->
  sendAPI env b n msg w
  = bind (handleTopicOrPurpose env b n msg channelInfo) (fun r => ret ("", r.2)) w.
Proof.
  intros Hev Hch Hcfg. unfold sendAPI, handleGetChannelMembers, bind at 1.
  rewrite Hev. simpl. unfold bind at 1, gets. rewrite Hch.
  unfold bind. destruct (handleTopicOrPurpose env b n msg channelInfo w)
    as [[handled e] w1| |] eqn:E; try done.
  destruct handled; [done|]. exfalso. revert E.
  unfold handleTopicOrPurpose. rewrite Hev. simpl.
  destruct (GetBool b "SyncTopic").
  - unfold bind. by destruct (updateTopicOrPurpose env n msg channelInfo w).
  - destruct Hcfg as [H|H]; [done|by rewrite H].
Qed.

(** X16. A topic change with topic sync switched on goes to the platform
    as topic and purpose calls only (with the waits of the retry loop
    between them): nothing is posted, edited, deleted or uploaded for it,
    and [Send] returns an empty ID.  When the text names a topic and the
    platform accepts the call, that is one request and nil.  With topic
    sync and the display of topic changes both off, the change is dropped
    without a request. *)
Theorem Send_topic_change env b fuel msg channelInfo w :
  ~ webhookConfigured b ->
  Message.Event msg = config.EventTopicChange ->
  channels_getChannel env (World.refreshes w) (Message.Channel msg) = Ok channelInfo ->
  (GetBool b "SyncTopic" = true ->
   forall r w', Send env b fuel msg w = Ret r w' ->
                r.1 = "" /\ continues isTopicCall w w')
  /\ (GetBool b "SyncTopic" = true ->
      forall text,
        extractTopicOrPurpose env (Message.Text (outgoing env b msg)) = ("topic", text) ->
        sc_SetTopicOfConversation env (World.calls w) (Channel.ID channelInfo) text
        = None ->
        Send env b (S fuel) msg w
        = Ret ("", None)
            (World.request (ESetTopicOfConversation (Channel.ID channelInfo) text) w))
  /\ (GetBool b "SyncTopic" = false -> GetBool b "ShowTopicChange" = false ->
      Send env b fuel msg w = Ret ("", None) w).
Proof.
  intros Hapi Hev Hch. split; [|split].
  - intros Hsync r w'. rewrite (Send_api_mode env b fuel msg w Hapi).
    rewrite (sendAPI_topic env b fuel (outgoing env b msg) channelInfo w Hev Hch);
      [|by left].
    unfold handleTopicOrPurpose.
    change (Message.Event (outgoing env b msg)) with (Message.Event msg).
    rewrite Hev, Hsync. simpl. unfold bind at 1. unfold bind at 1.
    destruct (updateTopicOrPurpose env fuel (outgoing env b msg) channelInfo w)
      as [e w1| |] eqn:E; [|done..].
    intros [= <- <-]. split; [done|].
    revert E. unfold updateTopicOrPurpose.
    destruct (extractTopicOrPurpose env _) as [kind text].
    apply emits_topic_loop.
  - intros Hsync text Hkind Hset. rewrite (Send_api_mode env b (S fuel) msg w Hapi).
    rewrite (sendAPI_topic env b (S fuel) (outgoing env b msg) channelInfo w Hev Hch);
      [|by left].
    unfold handleTopicOrPurpose.
    change (Message.Event (outgoing env b msg)) with (Message.Event msg).
    rewrite Hev, Hsync. simpl. unfold bind at 1. unfold bind at 1.
    unfold updateTopicOrPurpose. rewrite Hkind. simpl.
    unfold bind at 1, request. by rewrite Hset.
  - intros Hsync Hshow. rewrite (Send_api_mode env b fuel msg w Hapi).
    rewrite (sendAPI_topic env b fuel (outgoing env b msg) channelInfo w Hev Hch);
      [|by right].
    unfold handleTopicOrPurpose.
    change (Message.Event (outgoing env b msg)) with (Message.Event msg).
    by rewrite Hev, Hsync, Hshow.
Qed.

Lemma Send_topic_change_scenario :
  Send scenario.accepting scenario.syncingBridge 1 scenario.topicChange scenario.world
  = Ret ("", None)
      (World.request (ESetTopicOfConversation "C1" "release day") scenario.world)
  /\ continues isTopicCall scenario.world
       (World.request (ESetTopicOfConversation "C1" "release day") scenario.world).
Proof.
  destruct (Send_topic_change scenario.accepting scenario.syncingBridge 0
              scenario.topicChange (Channel.mk "C1" "general" true) scenario.world)
    as (_ & Hsent & _); [|reflexivity|reflexivity|].
  { intros [_ H]. discriminate H. }
  assert (Hrun := Hsent eq_refl "release day" eq_refl eq_refl).
  split; [exact Hrun|].
  destruct (Send_topic_change scenario.accepting scenario.syncingBridge 1
              scenario.topicChange (Channel.mk "C1" "general" true) scenario.world)
    as (Hsync & _); [|reflexivity|reflexivity|].
  { intros [_ H]. discriminate H. }
  by destruct (Hsync eq_refl _ _ Hrun).
Defined.

Lemma emits_upload_loop env files msg channelID messageID :
  emits isUploadFile (uploadFile_loop env files msg channelID messageID).
Proof.
  revert msg messageID.
  induction files as [|[fi| | | |] files IH]; intros msg messageID; simpl;
    try apply emits_ret; try apply IH.
  apply emits_bind; [apply emits_gets|intros ts].
  apply emits_bind; [apply emits_cache_Add|intros _].
  apply emits_bind; [by apply emits_request|].
  intros [res|err]; [|apply emits_ret].
  destruct (decide _); [apply IH|].
  apply emits_bind; [apply emits_cache_Add|intros _; apply IH].
Qed.

(** X17. The text of a message that carries extras is not posted: for a
    new message with payloads in [Extra] for which [helper.HandleExtra]
    has nothing to say, [Send] is the upload of its files and nothing
    else, so that only upload requests leave the adapter (none at all when
    the payloads are not files). *)
Theorem Send_with_extras_uploads_only env b fuel msg channelInfo w :
  ~ webhookConfigured b ->
  ordinary msg ->
  Message.ID msg = "" ->
  (0 < Message.lenExtra msg)%nat ->
  helper_HandleExtra env (dressed env b msg) = [] ->
  channels_getChannel env (World.refreshes w) (Message.Channel msg) = Ok channelInfo ->
  Send env b fuel msg w
  = uploadFile env (dressed env b msg) (Channel.ID channelInfo) w
  /\ (forall r w', Send env b fuel msg w = Ret r w' -> continues isUploadFile w w')
  /\ (Message.extra "file" msg = [] -> Send env b fuel msg w = Ret ("", None) w).
Proof.
  intros Hapi Hord Hid Hextra Hnone Hch.
  assert (Hrun : Send env b fuel msg w
                 = uploadFile env (dressed env b msg) (Channel.ID channelInfo) w).
  { rewrite (Send_api_mode env b fuel msg w Hapi).
    rewrite (sendAPI_ordinary env b fuel (outgoing env b msg) channelInfo w
               (ordinary_outgoing env b msg Hord) Hch).
    fold (dressed env b msg).
    assert (Hid' : Message.ID (dressed env b msg) = "").
    { unfold dressed, prefixed, unthreaded.
      by destruct (GetBool b _), (config.ParentNotFound _). }
    unfold bind at 1, editMessage. rewrite Hid'. simpl.
    change (Message.lenExtra (outgoing env b msg)) with (Message.lenExtra msg).
    destruct (decide (0 < Message.lenExtra msg)%nat); [|done].
    by rewrite Hnone. }
  split; [exact Hrun|]. split.
  - intros r w'. rewrite Hrun. apply emits_upload_loop.
  - intros Hfiles. rewrite Hrun. unfold uploadFile.
    assert (Message.extra "file" (dressed env b msg) = Message.extra "file" msg) as ->.
    { unfold dressed, prefixed, unthreaded.
      by destruct (GetBool b _), (config.ParentNotFound _). }
    by rewrite Hfiles.
Qed.

Lemma Send_with_extras_uploads_only_scenario :
  Send scenario.env scenario.bridge 3 scenario.forwarded scenario.world
  = uploadFile scenario.env
      (dressed scenario.env scenario.bridge scenario.forwarded) "C1" scenario.world
  /\ (forall r w',
        Send scenario.env scenario.bridge 3 scenario.forwarded scenario.world
        = Ret r w' -> continues isUploadFile scenario.world w')
  /\ (Message.extra "file" scenario.forwarded = [] ->
      Send scenario.env scenario.bridge 3 scenario.forwarded scenario.world
      = Ret ("", None) scenario.world).
Proof.
  apply (Send_with_extras_uploads_only scenario.env scenario.bridge 3
           scenario.forwarded (Channel.mk "C1" "general" true) scenario.world);
    try reflexivity.
  - intros [_ H]. discriminate H.
  - repeat split; discriminate.
  - vm_compute. lia.
Defined.

(** ** Uploads that fail *)

(** X18. [uploadFile] gives up at the first upload the platform refuses:
    it returns that error after this one request, the files behind it are
    not sent, and the filename marker recorded before the request stays,
    so that a file of that name is taken as cached for the next 10
    seconds although nothing was uploaded. *)
Theorem uploadFile_failure_leaves_marker env msg channelID fi rest err w :
  Message.extra "file" msg = PFileInfo fi :: rest ->
  sc_UploadFile env (World.calls w) (uploadParameters msg fi channelID) = Err err ->
  exists w',
    uploadFile env msg channelID w = Ret ("", Some err) w'
    /\ World.trace w'
       = (World.trace w ++ [EUploadFile (uploadParameters msg fi channelID)])%list
    /\ forall file wq,
         World.cache wq = World.cache w' ->
         File.Name file = FileInfo.Name fi ->
         lru.Peek (idKey file) (World.cache w) = None ->
         (World.now w <= World.now wq < World.now w + 10 * time.Second)%Z ->
         exists wq', fileCached file wq = Ret true wq'.
Proof.
  intros Hfiles Hup. unfold uploadFile. rewrite Hfiles. simpl.
  unfold bind, time_Now, gets, cache_Add, modify, request. simpl.
  replace (uploadParameters (if decide (Message.Text msg = FileInfo.Comment fi)
                             then Message.withText "" msg else msg) fi channelID)
    with (uploadParameters msg fi channelID) by (by destruct (decide _)).
  rewrite Hup. eexists. split; [reflexivity|]. split; [reflexivity|].
  intros file wq Hc Hname Hfresh Ht. simpl in Hc.
  rewrite fileCached_run. cbv zeta. rewrite Hc. unfold nameKey. rewrite Hname.
  rewrite lru_facts.Peek_Add_eq.
  destruct (decide (idKey file = "filename" +:+ FileInfo.Name fi)) as [->|Hne].
  - rewrite lru_facts.Peek_Add_eq. simpl.
    rewrite bool_decide_eq_true_2; [by eexists|].
    apply Sub_within; unfold time.Minute, time.Second in *; lia.
  - destruct (lru_facts.Peek_Add_ne (idKey file) _ (VTime (World.now w))
                (World.cache w) Hne) as [-> | ->]; rewrite ?Hfresh; simpl;
      (rewrite bool_decide_eq_true_2;
       [by eexists|apply Sub_within; unfold time.Minute, time.Second in *; lia]).
Qed.

Lemma uploadFile_failure_leaves_marker_scenario :
  exists w',
    uploadFile
      (scenario.answering (fun _ => None)
         (fun _ => Err (ErrorString "file_upload_failed")))
      scenario.fileMsg "C1" scenario.world
    = Ret ("", Some (ErrorString "file_upload_failed")) w'
    /\ World.trace w'
       = (World.trace scenario.world
          ++ [EUploadFile (uploadParameters scenario.fileMsg scenario.report "C1")])%list
    /\ forall file wq,
         World.cache wq = World.cache w' ->
         File.Name file = FileInfo.Name scenario.report ->
         lru.Peek (idKey file) (World.cache scenario.world) = None ->
         (World.now scenario.world <= World.now wq
          < World.now scenario.world + 10 * time.Second)%Z ->
         exists wq', fileCached file wq = Ret true wq'.
Proof.
  apply (uploadFile_failure_leaves_marker
           (scenario.answering (fun _ => None)
              (fun _ => Err (ErrorString "file_upload_failed")))
           scenario.fileMsg "C1" scenario.report [] (ErrorString "file_upload_failed")
           scenario.world); [vm_compute; reflexivity|reflexivity].
Defined.

(** ** The webhook sender *)

(** X19. Over the webhook nothing but plain messages goes out: a message
    with any event kind, a user action among them, is answered with nil
    and no post is made. *)
Theorem Send_webhook_drops_events env b fuel msg w :
  webhookConfigured b ->
  Message.Event msg <> "" ->
  Send env b fuel msg w = Ret ("", None) w.
Proof.
  intros Hweb Hev. rewrite (Send_webhook_mode env b fuel msg w Hweb).
  unfold bind, sendWebhook.
  change (Message.Event (outgoing env b msg)) with (Message.Event msg).
  by destruct (decide (Message.Event msg = "")).
Qed.

Lemma Send_webhook_drops_events_scenario :
  Send scenario.env scenario.webhookBridge 0 scenario.action scenario.world
  = Ret ("", None) scenario.world.
Proof.
  apply (Send_webhook_drops_events scenario.env scenario.webhookBridge 0
           scenario.action scenario.world); [|discriminate].
  split; [discriminate|reflexivity].
Defined.

Lemma sendExtraWebhooks_run env b rmsgs channel w :
  exists w',
    sendExtraWebhooks env b rmsgs channel w = Ret tt w'
    /\ World.calls w' = World.calls w + length rmsgs
    /\ continues isWebhookSend w w'.
Proof.
  revert w. induction rmsgs as [|rmsg rmsgs IH]; intros w; simpl.
  - eexists. split; [done|]. split; [lia|]. exists []. by rewrite app_nil_r.
  - unfold bind at 1, request.
    destruct (IH (World.request
                    (EWebhookSend
                       (OMessage.mk (config_GetIconURL env rmsg (GetString b iconURLConfig))
                          [] channel (Message.Username rmsg) (Message.Text rmsg))) w))
      as (w' & -> & Hcalls & (t & Ht & Hall)).
    eexists. split; [done|]. split; [simpl in Hcalls; lia|].
    eexists (_ :: t). split; [rewrite Ht; simpl; by rewrite <- app_assoc|].
    simpl. by rewrite Hall.
Qed.

Lemma sendWebhook_run env b msg w e w' :
  Message.Event msg = "" ->
  sendWebhook env b msg w = Ret e w' ->
  exists matterMessage,
    e = mh_Send env (World.calls w' - 1) matterMessage
    /\ last (World.trace w') = Some (EWebhookSend matterMessage)
    /\ OMessage.Channel matterMessage = Message.Channel msg
    /\ World.calls w'
       = World.calls w + 1
         + match Message.Extra msg with
           | Some _ => length (helper_HandleExtra env (prefixed b msg))
           | None => 0
           end.
Proof.
  intros Hev. unfold sendWebhook. rewrite Hev. simpl. fold (prefixed b msg).
  assert (Hx : Message.Extra (prefixed b msg) = Message.Extra msg)
    by (unfold prefixed; by destruct (GetBool b _)).
  assert (Hc : Message.Channel (prefixed b msg) = Message.Channel msg)
    by (unfold prefixed; by destruct (GetBool b _)).
  rewrite Hx. unfold bind at 1.
  destruct (Message.Extra msg) as [extra|].
  - unfold bind at 1.
    destruct (sendExtraWebhooks_run env b (helper_HandleExtra env (prefixed b msg))
                (Message.Channel (prefixed b msg)) w) as (w1 & -> & Hcalls & _).
    simpl. unfold bind at 1.
    assert (Hn : forall l w0 a w0', nativeAttachments l w0 = Ret a w0' -> w0' = w0).
    { induction l as [|[] l IH]; simpl; try done; intros w0 a w0'.
      - by intros [= _ <-].
      - unfold bind. destruct (nativeAttachments l w0) as [r w2| |] eqn:E; [|done..].
        intros [= _ <-]. by eapply IH. }
    destruct (nativeAttachments _ w1) as [attachs w2| |] eqn:E; [|done..].
    apply Hn in E as ->. unfold request. intros [= <- <-].
    eexists. split; [|split; [|split]].
    + f_equal. simpl. lia.
    + simpl. by rewrite last_snoc.
    + simpl. exact Hc.
    + simpl. lia.
  - unfold ret at 1. unfold bind at 1, Message.extra. rewrite Hx. simpl.
    unfold request. intros [= <- <-].
    eexists. split; [|split; [|split]].
    + f_equal. simpl. lia.
    + simpl. by rewrite last_snoc.
    + simpl. exact Hc.
    + simpl. lia.
Qed.

Lemma nativeAttachments_returns entries w :
  Forall (fun p => isSlackAttachments p = true) entries ->
  exists attachs, nativeAttachments entries w = Ret attachs w.
Proof.
  induction 1 as [|p entries Hp _ (attachs & IH)]; simpl; [by eexists|].
  destruct p; try done. unfold bind. rewrite IH. by eexists.
Qed.

Lemma sendWebhook_returns env b msg w :
  Message.Event msg = "" ->
  Forall (fun p => isSlackAttachments p = true) (Message.extra sSlackAttachment msg) ->
  exists e w', sendWebhook env b msg w = Ret e w'.
Proof.
  intros Hev Hnative. unfold sendWebhook. rewrite Hev. simpl. fold (prefixed b msg).
  assert (Hx : Message.Extra (prefixed b msg) = Message.Extra msg)
    by (unfold prefixed; by destruct (GetBool b _)).
  assert (Hs : Message.extra sSlackAttachment (prefixed b msg)
               = Message.extra sSlackAttachment msg)
    by (unfold Message.extra; by rewrite Hx).
  rewrite Hx. unfold bind at 1.
  destruct (Message.Extra msg) as [extra|] eqn:Hextra.
  - unfold bind at 1.
    destruct (sendExtraWebhooks_run env b (helper_HandleExtra env (prefixed b msg))
                (Message.Channel (prefixed b msg)) w) as (w1 & -> & _).
    simpl. unfold bind at 1.
    change (Message.extra sSlackAttachment (Message.withText _ (prefixed b msg)))
      with (Message.extra sSlackAttachment (prefixed b msg)).
    rewrite Hs.
    destruct (nativeAttachments_returns _ w1 Hnative) as (attachs & ->).
    unfold request. by eexists _, _.
  - unfold ret at 1. unfold bind at 1, Message.extra. rewrite Hx. simpl.
    unfold request. by eexists _, _.
Qed.

(** X20. A plain message whose native attachments are attachment lists is
    sent: [sendWebhook] returns, and the error it returns is the answer to
    its last post, the one with the message itself; the posts made before
    it for the messages of [helper.HandleExtra] are counted but their
    errors are not returned. *)
Theorem sendWebhook_returns_last_answer env b msg w :
  Message.Event msg = "" ->
  Forall (fun p => isSlackAttachments p = true) (Message.extra sSlackAttachment msg) ->
  exists e w' matterMessage,
    sendWebhook env b msg w = Ret e w'
    /\ e = mh_Send env (World.calls w' - 1) matterMessage
    /\ last (World.trace w') = Some (EWebhookSend matterMessage)
    /\ OMessage.Channel matterMessage = Message.Channel msg
    /\ World.calls w'
       = World.calls w + 1
         + match Message.Extra msg with
           | Some _ => length (helper_HandleExtra env (prefixed b msg))
           | None => 0
           end.
Proof.
  intros Hev Hnative.
  destruct (sendWebhook_returns env b msg w Hev Hnative) as (e & w' & Hrun).
  destruct (sendWebhook_run env b msg w e w' Hev Hrun) as (matterMessage & H).
  by exists e, w', matterMessage.
Qed.

Lemma sendWebhook_returns_last_answer_scenario :
  exists e w' matterMessage,
    sendWebhook scenario.env scenario.webhookBridge scenario.forwarded scenario.world
    = Ret e w'
    /\ e = mh_Send scenario.env (World.calls w' - 1) matterMessage
    /\ last (World.trace w') = Some (EWebhookSend matterMessage)
    /\ OMessage.Channel matterMessage = "general"
    /\ World.calls w' = 0 + 1 + 0.
Proof.
  apply (sendWebhook_returns_last_answer scenario.env scenario.webhookBridge
           scenario.forwarded scenario.world); [reflexivity|].
  vm_compute. repeat constructor.
Defined.

(** ** Joining without legacy tokens *)

(** X21. Without legacy tokens [JoinChannel] only verifies: it asks the
    platform for nothing, refreshes the channel directory once, and returns
    nil exactly when the directory knows the channel and the integration is
    a member of it; the bridge switches to channel IDs exactly when the
    name has the prefix ID: and resolves. Without a client it does nothing
    at all. *)
Theorem JoinChannel_verifies_membership env b name w :
  legacy b = false ->
  if hasClient b then
    exists r w',
      JoinChannel env b name w = Ret r w'
      /\ World.calls w' = World.calls w
      /\ World.cache w' = World.cache w
      /\ World.trace w' = (World.trace w ++ [EPopulateChannels false])%list
      /\ (r = None
          <-> exists channelInfo,
                channels_getChannel env (S (World.refreshes w)) name = Ok channelInfo
                /\ Channel.IsMember channelInfo = true)
      /\ (World.useChannelID w' = true
          <-> World.useChannelID w = true
              \/ (String.prefix "ID:" name = true
                  /\ exists channelInfo,
                       channels_getChannel env (S (World.refreshes w)) name
                       = Ok channelInfo))
  else JoinChannel env b name w = Ret None w.
Proof.
  intros Hlegacy. unfold JoinChannel. rewrite Hlegacy.
  destruct (hasClient b); [|done].
  unfold bind at 1. unfold ret at 1. cbv beta iota.
  unfold bind at 1, modify. unfold bind at 1, gets. simpl.
  destruct (channels_getChannel env (S (World.refreshes w)) name)
    as [channelInfo|err] eqn:Hch.
  - unfold bind at 1.
    destruct (String.prefix "ID:" name) eqn:Hp; simpl;
      destruct (Channel.IsMember channelInfo) eqn:Hm; simpl;
      eexists _, _; (split; [reflexivity|]); simpl;
      (split; [done|]); (split; [done|]); (split; [done|]); split; split;
      first [ by intros _; eauto
            | by intros (c & [= <-] & Hc); congruence
            | by intros [H|[H _]]
            | by intros _; right; eauto
            | by intros H
            | by intros [H|(H & c & [= <-])]
            | by left ].
  - eexists _, _. split; [reflexivity|]. simpl.
    (split; [done|]); (split; [done|]); (split; [done|]); split; split;
      first [ by intros H
            | by intros (c & H & _)
            | by left
            | by intros [H|(_ & c & H)] ].
Qed.

Lemma JoinChannel_verifies_membership_scenario :
  exists r w',
    JoinChannel scenario.env scenario.bridge "ID:C1" scenario.world = Ret r w'
    /\ World.calls w' = 0
    /\ World.cache w' = []
    /\ World.trace w' = [EPopulateChannels false]
    /\ (r = None
        <-> exists channelInfo,
              channels_getChannel scenario.env 1 "ID:C1" = Ok channelInfo
              /\ Channel.IsMember channelInfo = true)
    /\ (World.useChannelID w' = true
        <-> false = true
            \/ (String.prefix "ID:" "ID:C1" = true
                /\ exists channelInfo,
                     channels_getChannel scenario.env 1 "ID:C1" = Ok channelInfo)).
Proof.
  apply (JoinChannel_verifies_membership scenario.env scenario.bridge "ID:C1"
           scenario.world). reflexivity.
Defined.

(** ** The name on a relayed event *)

(** X22. The events endpoint always answers. For an accepted message event
    whose channel resolves it looks the user up at most once, not at all
    when the event names no user, and forwards one message: under the
    display name when the lookup gives one that is not empty, under the
    user ID in every other case, so the name is empty only when the event
    names no user. For everything else, a bot message or an event of
    another type among them, it asks for nothing and forwards nothing. *)
Theorem handleSlackEvents_relays_at_most_once env b body w :
  exists rw w',
    handleSlackEvents env b body w = Ret rw w'
    /\ (forall channel,
          acceptedMessage (envelope env body) ->
          channels_getChannelByID env (World.refreshes w)
            (SlackEvent.Channel (SlackEventWrapper.Event (envelope env body)))
          = Ok channel ->
          exists username,
            w' = World.emit
                   (ERemote (relayed b (SlackEventWrapper.Event (envelope env body))
                               channel username))
                   (if decide (SlackEvent.User (SlackEventWrapper.Event
                                                  (envelope env body)) = "")
                    then w
                    else World.request
                           (EGetUserInfo (SlackEvent.User (SlackEventWrapper.Event
                                                             (envelope env body)))) w)
            /\ (username = ""
                -> SlackEvent.User (SlackEventWrapper.Event (envelope env body)) = "")
            /\ (SlackEvent.User (SlackEventWrapper.Event (envelope env body)) = ""
                -> username = "")
            /\ (forall displayName,
                  SlackEvent.User (SlackEventWrapper.Event (envelope env body)) <> "" ->
                  sc_GetUserInfo env (World.calls w)
                    (SlackEvent.User (SlackEventWrapper.Event (envelope env body)))
                  = Ok displayName ->
                  username
                  = if decide (displayName = "")
                    then SlackEvent.User (SlackEventWrapper.Event (envelope env body))
                    else displayName)
            /\ (forall e,
                  sc_GetUserInfo env (World.calls w)
                    (SlackEvent.User (SlackEventWrapper.Event (envelope env body)))
                  = Err e ->
                  username
                  = SlackEvent.User (SlackEventWrapper.Event (envelope env body))))
    /\ (~ (acceptedMessage (envelope env body)
           /\ exists channel,
                channels_getChannelByID env (World.refreshes w)
                  (SlackEvent.Channel (SlackEventWrapper.Event (envelope env body)))
                = Ok channel) ->
        w' = w).
Proof.
  unfold handleSlackEvents. fold (envelope env body).
  set (evt := envelope env body). set (ev := SlackEventWrapper.Event evt).
  destruct (decide (SlackEventWrapper.Type_ evt = "url_verification")) as [Hv|Hv].
  { assert (Hna : ~ acceptedMessage evt).
    { intros (Hty & _). rewrite Hty in Hv. discriminate Hv. }
    fold (challengeOf env body). destruct (challengeOf env body) as [c [|]];
      eexists _, _; (split; [reflexivity|]); split; done. }
  destruct (bool_decide (SlackEventWrapper.Type_ evt = "event_callback")) eqn:H1;
    [apply bool_decide_eq_true in H1|apply bool_decide_eq_false in H1]; simpl.
  2: { eexists _, _. split; [reflexivity|]. split; [|done].
       by intros ? (? & _). }
  destruct (bool_decide (SlackEvent.Type_ ev = "message")) eqn:H2;
    [apply bool_decide_eq_true in H2|apply bool_decide_eq_false in H2]; simpl.
  2: { eexists _, _. split; [reflexivity|]. split; [|done].
       by intros ? (_ & ? & _). }
  destruct (bool_decide (SlackEvent.SubType ev = "bot_message")) eqn:H3;
    [apply bool_decide_eq_true in H3|apply bool_decide_eq_false in H3]; simpl.
  { eexists _, _. split; [reflexivity|]. split; [|done].
    by intros ? (_ & _ & ?). }
  unfold bind at 1, gets.
  destruct (channels_getChannelByID env (World.refreshes w) (SlackEvent.Channel ev))
    as [channel|e] eqn:Hch.
  2: { eexists _, _. split; [reflexivity|]. split; done. }
  unfold bind at 1.
  destruct (decide (SlackEvent.User ev = "")) as [Hu|Hu].
  - simpl. eexists _, _. split; [reflexivity|]. split.
    + intros c _ [= <-]. exists (SlackEvent.User ev). rewrite Hu.
      repeat split; done.
    + intros H. destruct H. split; [done|by eexists].
  - unfold bind at 1, request.
    destruct (sc_GetUserInfo env (World.calls w) (SlackEvent.User ev))
      as [displayName|e] eqn:Hinfo.
    + destruct (decide (displayName = "")) as [Hd|Hd]; simpl;
        eexists _, _; (split; [reflexivity|]); split.
      * intros c _ [= <-]. exists (SlackEvent.User ev).
        split; [done|]. split; [done|]. split; [done|]. split; [|done].
        intros d _ [= <-]. by rewrite decide_True.
      * intros H. destruct H. split; [done|by eexists].
      * intros c _ [= <-]. exists displayName.
        split; [done|]. split; [done|]. split; [done|]. split; [|done].
        intros d _ [= <-]. by rewrite decide_False.
      * intros H. destruct H. split; [done|by eexists].
    + simpl. eexists _, _. split; [reflexivity|]. split.
      * intros c _ [= <-]. exists (SlackEvent.User ev).
        split; [done|]. split; [done|]. split; [done|]. split; [done|].
        by intros e' [= <-].
      * intros H. destruct H. split; [done|by eexists].
Qed.

Lemma handleSlackEvents_relays_at_most_once_scenario :
  exists rw,
    handleSlackEvents scenario.env scenario.bridge scenario.messageEvent scenario.world
    = Ret rw
        (World.emit
           (ERemote (Message.mk "" "" "general" "alice" "" "" "hi" "" None
                       "slack.test" "slack"))
           (World.request (EGetUserInfo "U1") scenario.world)).
Proof.
  destruct (handleSlackEvents_relays_at_most_once scenario.env scenario.bridge
              scenario.messageEvent scenario.world) as (rw & w' & Hrun & Hrelay & _).
  destruct (Hrelay (Channel.mk "C1" "general" true))
    as (username & Hw & _ & _ & Hname & _).
  - vm_compute. repeat split; discriminate.
  - reflexivity.
  - exists rw. rewrite Hrun, Hw. do 3 f_equal.
    rewrite (Hname "alice"); [reflexivity|vm_compute; discriminate|reflexivity].
Defined.

(** ** The incoming webhook beside a token *)

(** X24. With a token and a bind address [Connect] builds the API client
    and also opens the incoming webhook and starts the receive loop; but
    the loop reads the webhook only without a token, so nothing that
    arrives there is ever forwarded: the loop sleeps its second and ends
    with nothing on the trace but the sleep. *)
Theorem Connect_webhook_unread_with_token b :
  GetString b tokenConfig <> "" ->
  GetString b incomingWebhookConfig <> "" ->
  exists c,
    Connect b = Ok c
    /\ Connection.sc c = true
    /\ Connection.receiving c = true
    /\ Connection.mhDisableServer c = false
    /\ Connection.mhBindAddress c = GetString b incomingWebhookConfig
    /\ forall clean received w,
         handleSlack clean b received w = Ret tt (World.sleep time.Second w).
Proof.
  intros Htoken Hin. unfold Connect.
  destruct (decide _) as [(H & _)|_]; [done|].
  eexists. split; [reflexivity|]. simpl.
  change (GetString b "TokenBot") with (GetString b tokenConfig).
  destruct (decide (GetString b tokenConfig = "")) as [|_]; [done|].
  rewrite (bool_decide_eq_false_2 _ Htoken), (bool_decide_eq_false_2 _ Hin).
  repeat (split; [done|]). intros clean received w.
  unfold handleSlack. by destruct (decide _) as [[_ H]|_].
Qed.

Lemma Connect_webhook_unread_with_token_scenario :
  exists c,
    Connect scenario.listeningBridge = Ok c
    /\ Connection.sc c = true
    /\ Connection.receiving c = true
    /\ Connection.mhDisableServer c = false
    /\ Connection.mhBindAddress c = "0.0.0.0:9999"
    /\ forall clean received w,
         handleSlack clean scenario.listeningBridge received w
         = Ret tt (World.sleep time.Second w).
Proof.
  apply (Connect_webhook_unread_with_token scenario.listeningBridge);
    vm_compute; discriminate.
Defined.

(** ** Attachments that are not maps *)

Lemma createAttach_panics entries w :
  Exists (fun p => isMap p = false) entries ->
  createAttach entries w = Panic.
Proof.
  induction 1 as [p entries Hp|p entries Hex IH].
  - by destruct p.
  - destruct p; try done. simpl. unfold bind. by rewrite IH.
Qed.

(** X25. An edit whose generic attachments hold an entry that is not a map
    of fields stops the sender: [Send] panics, and it does so before any
    request to the platform, wherever the entry stands in the list. *)
Theorem Send_edit_malformed_attachment_panics env b fuel msg channelInfo w :
  ~ webhookConfigured b ->
  ordinary msg ->
  Message.ID msg <> "" ->
  channels_getChannel env (World.refreshes w) (Message.Channel msg) = Ok channelInfo ->
  Exists (fun p => isMap p = false) (Message.extra "attachments" msg) ->
  Send env b fuel msg w = Panic.
Proof.
  intros Hapi Hord Hid Hch Hex.
  rewrite (Send_api_mode env b fuel msg w Hapi).
  rewrite (sendAPI_ordinary env b fuel (outgoing env b msg) channelInfo w
             (ordinary_outgoing env b msg Hord) Hch).
  fold (dressed env b msg).
  assert (Hid' : Message.ID (dressed env b msg) = Message.ID msg).
  { unfold dressed, prefixed, unthreaded.
    by destruct (GetBool b _), (config.ParentNotFound _). }
  assert (Hextra : Message.extra "attachments" (dressed env b msg)
                   = Message.extra "attachments" msg).
  { unfold dressed, prefixed, unthreaded.
    by destruct (GetBool b _), (config.ParentNotFound _). }
  unfold bind at 1, editMessage. rewrite Hid'.
  destruct (decide (Message.ID msg = "")); [done|].
  unfold bind at 1, prepareMessageOptions. unfold bind at 1.
  rewrite Hextra. by rewrite (createAttach_panics _ w Hex).
Qed.

Lemma Send_edit_malformed_attachment_panics_scenario :
  Send scenario.accepting scenario.bridge 1 scenario.malformedEdit scenario.world
  = Panic.
Proof.
  apply (Send_edit_malformed_attachment_panics scenario.accepting scenario.bridge 1
           scenario.malformedEdit (Channel.mk "C1" "general" true) scenario.world).
  - intros [_ H]. discriminate H.
  - repeat split; discriminate.
  - discriminate.
  - reflexivity.
  - apply Exists_cons_tl, Exists_cons_hd. reflexivity.
Defined.

(** * Retries at the senders *)

Lemma RetryLoop_ext {A R} (loop loop' : nat -> M A) e (answer : nat -> Result R)
    ok ko :
  (forall n w, loop' n w = loop n w) ->
  RetryLoop loop e answer ok ko -> RetryLoop loop' e answer ok ko.
Proof.
  intros Heq H waits fuel w Hw. destruct (H waits fuel w Hw) as [Hret Hout].
  split; intros Hf.
  - specialize (Hret Hf). rewrite Heq.
    by destruct (answer (World.calls w + length waits)) as [r|[d|s|f a]].
  - rewrite Heq. by apply Hout.
Qed.

Lemma RetryLoop_map {A B R} (loop : nat -> M A) (f : A -> B) e
    (answer : nat -> Result R) ok ko :
  RetryLoop loop e answer ok ko ->
  RetryLoop (fun n => bind (loop n) (fun r => ret (f r))) e answer
    (fun r => f (ok r)) (fun err => f (ko err)).
Proof.
  intros H waits fuel w Hw. destruct (H waits fuel w Hw) as [Hret Hout].
  split; intros Hf.
  - specialize (Hret Hf). unfold bind.
    destruct (answer (World.calls w + length waits)) as [r|[d|s|f' a]];
      [by rewrite Hret|done|by rewrite Hret..].
  - unfold bind. by rewrite (Hout Hf).
Qed.

Lemma createAttach_any_world entries w attachments w' :
  createAttach entries w = Ret attachments w' ->
  forall w0, createAttach entries w0 = Ret attachments w0.
Proof.
  revert attachments w'. induction entries as [|[] entries IH]; simpl; try done.
  - by intros ? ? [= <- _].
  - intros attachments w'. unfold bind.
    destruct (createAttach entries w) as [rest w1| |]; [|done..].
    intros [= <- _] w0. by rewrite (IH rest w1 eq_refl w0).
Qed.

Lemma nativeAttachments_any_world entries w attachments w' :
  nativeAttachments entries w = Ret attachments w' ->
  forall w0, nativeAttachments entries w0 = Ret attachments w0.
Proof.
  revert attachments w'. induction entries as [|[] entries IH]; simpl; try done.
  - by intros ? ? [= <- _].
  - intros attachments w'. unfold bind.
    destruct (nativeAttachments entries w) as [rest w1| |]; [|done..].
    intros [= <- _] w0. by rewrite (IH rest w1 eq_refl w0).
Qed.

Lemma prepared_intro env b msg w opts w' :
  prepareMessageOptions env b msg w = Ret opts w' -> prepared env b msg opts.
Proof.
  unfold prepared, prepareMessageOptions, bind. intros H w0. revert H.
  destruct (createAttach _ w) as [files w1| |] eqn:E1; [|done..].
  rewrite (createAttach_any_world _ _ _ _ E1 w0).
  destruct (Message.Extra msg).
  - destruct (nativeAttachments _ w1) as [native w2| |] eqn:E2; [|done..].
    rewrite (nativeAttachments_any_world _ _ _ _ E2 w0). by intros [= <- _].
  - by intros [= <- _].
Qed.

Section SenderRetries.
Variable env : Env.
Variable b : Bslack.
Variable msg : Message.t.
Variable channelInfo : Channel.t.

Lemma postAPIMessage_retries opts :
  Message.Text msg <> "" ->
  prepared env b msg opts ->
  RetryLoop (fun n => postAPIMessage env b n msg channelInfo)
    (EPostMessage (Channel.ID channelInfo) opts)
    (fun k => sc_PostMessage env k (Channel.ID channelInfo) opts)
    (fun id => (id, None)) (fun err => ("", Some err)).
Proof.
  intros Htext Hopts.
  eapply RetryLoop_ext;
    [|apply (postAPIMessage_loop_retries env (Channel.ID channelInfo) opts)].
  intros n w. cbv beta.
  unfold postAPIMessage. destruct (decide (Message.Text msg = "")); [done|].
  unfold bind at 1. by rewrite Hopts.
Qed.

Lemma editMessage_retries opts :
  Message.ID msg <> "" ->
  prepared env b msg opts ->
  RetryLoop (fun n => editMessage env b n msg channelInfo)
    (EUpdateMessage (Channel.ID channelInfo) (Message.ID msg) opts)
    (fun k => answered (sc_UpdateMessage env k (Channel.ID channelInfo)
                          (Message.ID msg) opts))
    (fun _ => (true, None)) (fun err => (true, Some err)).
Proof.
  intros Hid Hopts.
  eapply RetryLoop_ext;
    [|apply (editMessage_loop_retries env (Channel.ID channelInfo) (Message.ID msg) opts)].
  intros n w. cbv beta.
  unfold editMessage. destruct (decide (Message.ID msg = "")); [done|].
  unfold bind at 1. by rewrite Hopts.
Qed.

Lemma deleteMessage_retries :
  Message.Event msg = config.EventMsgDelete ->
  Message.ID msg <> "" ->
  RetryLoop (fun n => deleteMessage env n msg channelInfo)
    (EDeleteMessage (Channel.ID channelInfo) (Message.ID msg))
    (fun k => answered (sc_DeleteMessage env k (Channel.ID channelInfo)
                          (Message.ID msg)))
    (fun _ => (true, None)) (fun err => (true, Some err)).
Proof.
  intros Hev Hid.
  eapply RetryLoop_ext;
    [|apply (deleteMessage_loop_retries env (Channel.ID channelInfo) (Message.ID msg))].
  intros n w. cbv beta.
  unfold deleteMessage. rewrite Hev.
  destruct (decide (config.EventMsgDelete = config.EventMsgDelete)); [|done].
  by destruct (decide (Message.ID msg = "")).
Qed.

Lemma updateTopic_retries text :
  extractTopicOrPurpose env (Message.Text msg) = ("topic", text) ->
  RetryLoop (fun n => updateTopicOrPurpose env n msg channelInfo)
    (ESetTopicOfConversation (Channel.ID channelInfo) text)
    (fun k => answered (sc_SetTopicOfConversation env k (Channel.ID channelInfo) text))
    (fun _ => None) (fun err => Some err).
Proof.
  intros Hkind.
  eapply RetryLoop_ext;
    [|apply (setTopic_loop_retries env (Channel.ID channelInfo) text)].
  intros n w. cbv beta.
  unfold updateTopicOrPurpose. by rewrite Hkind.
Qed.

Lemma updatePurpose_retries text :
  extractTopicOrPurpose env (Message.Text msg) = ("purpose", text) ->
  RetryLoop (fun n => updateTopicOrPurpose env n msg channelInfo)
    (ESetPurposeOfConversation (Channel.ID channelInfo) text)
    (fun k => answered (sc_SetPurposeOfConversation env k (Channel.ID channelInfo)
                          text))
    (fun _ => None) (fun err => Some err).
Proof.
  intros Hkind.
  eapply RetryLoop_ext;
    [|apply (setPurpose_loop_retries env (Channel.ID channelInfo) text)].
  intros n w. cbv beta.
  unfold updateTopicOrPurpose. by rewrite Hkind.
Qed.
End SenderRetries.

Section SendRetries.
Variable env : Env.
Variable b : Bslack.
Variable msg : Message.t.
Variable channelInfo : Channel.t.
Hypothesis Hapi : ~ webhookConfigured b.
Hypothesis Hch : resolves env msg channelInfo.

Lemma dressed_ID : Message.ID (dressed env b msg) = Message.ID msg.
Proof.
  unfold dressed, prefixed, unthreaded.
  by destruct (GetBool b _), (config.ParentNotFound _).
Qed.

Lemma Send_ordinary n w :
  ordinary msg ->
  Send env b n msg w =
  bind (editMessage env b n (dressed env b msg) channelInfo)
    (fun r =>
       if r.1 then ret (Message.ID msg, r.2)
       else if decide (0 < Message.lenExtra msg)%nat then
         postExtraMsgs env b n
           (helper_HandleExtra env (dressed env b msg)) channelInfo ;;;
         uploadFile env (dressed env b msg) (Channel.ID channelInfo)
       else postAPIMessage env b n (dressed env b msg) channelInfo) w.
Proof.
  intros Hord. rewrite (Send_api_mode env b n msg w Hapi).
  by rewrite (sendAPI_ordinary env b n (outgoing env b msg) channelInfo w
                (ordinary_outgoing env b msg Hord) (Hch (World.refreshes w))).
Qed.

Lemma Send_post_retries opts :
  ordinary msg ->
  Message.ID msg = "" ->
  Message.lenExtra msg = 0 ->
  Message.Text (dressed env b msg) <> "" ->
  prepared env b (dressed env b msg) opts ->
  RetryLoop (fun n => Send env b n msg)
    (EPostMessage (Channel.ID channelInfo) opts)
    (fun k => sc_PostMessage env k (Channel.ID channelInfo) opts)
    (fun id => (id, None)) (fun err => ("", Some err)).
Proof.
  intros Hord Hid Hextra Htext Hopts.
  eapply RetryLoop_ext;
    [|apply (postAPIMessage_retries env b (dressed env b msg) channelInfo opts
               Htext Hopts)].
  intros n w. cbv beta. rewrite (Send_ordinary n w Hord).
  unfold bind at 1, editMessage. rewrite dressed_ID, Hid. simpl.
  by rewrite Hextra.
Qed.

Lemma Send_edit_retries opts :
  ordinary msg ->
  Message.ID msg <> "" ->
  prepared env b (dressed env b msg) opts ->
  RetryLoop (fun n => Send env b n msg)
    (EUpdateMessage (Channel.ID channelInfo) (Message.ID msg) opts)
    (fun k => answered (sc_UpdateMessage env k (Channel.ID channelInfo)
                          (Message.ID msg) opts))
    (fun _ => (Message.ID msg, None)) (fun err => (Message.ID msg, Some err)).
Proof.
  intros Hord Hid Hopts.
  assert (Hid' : Message.ID (dressed env b msg) <> "") by by rewrite dressed_ID.
  pose proof (RetryLoop_map _ (fun r : bool * option error => (Message.ID msg, r.2))
                _ _ _ _
                (editMessage_retries env b (dressed env b msg) channelInfo opts
                   Hid' Hopts)) as H.
  rewrite dressed_ID in H.
  eapply RetryLoop_ext; [|exact H].
  intros n w. cbv beta. rewrite (Send_ordinary n w Hord). unfold bind.
  destruct (editMessage env b n (dressed env b msg) channelInfo w)
    as [[handled e] w1| |] eqn:E; [|done..].
  destruct handled; [done|]. exfalso. revert E.
  unfold editMessage. destruct (decide _) as [|_]; [done|].
  unfold bind at 1. rewrite Hopts. clear.
  generalize (Channel.ID channelInfo) (Message.ID (dressed env b msg)). intros c t.
  revert w. induction n as [|n IH]; intros w; simpl; [done|].
  unfold bind at 1, request.
  destruct (sc_UpdateMessage env _ _ _ _) as [err|]; [|done].
  unfold bind at 1. destruct err; simpl; try done. apply IH.
Qed.

Lemma Send_delete_retries :
  Message.Event msg = config.EventMsgDelete ->
  Message.ID msg <> "" ->
  RetryLoop (fun n => Send env b n msg)
    (EDeleteMessage (Channel.ID channelInfo) (Message.ID msg))
    (fun k => answered (sc_DeleteMessage env k (Channel.ID channelInfo)
                          (Message.ID msg)))
    (fun _ => (Message.ID msg, None)) (fun err => (Message.ID msg, Some err)).
Proof.
  intros Hev Hid.
  eapply RetryLoop_ext;
    [|apply (RetryLoop_map _ (fun r : bool * option error => (Message.ID msg, r.2))
               _ _ _ _
               (deleteMessage_loop_retries env (Channel.ID channelInfo)
                  (Message.ID msg)))].
  intros n w. cbv beta. rewrite (Send_api_mode env b n msg w Hapi).
  rewrite (sendAPI_delete env b n (outgoing env b msg) w Hev).
  change (Message.Channel (outgoing env b msg)) with (Message.Channel msg).
  change (Message.ID (outgoing env b msg)) with (Message.ID msg).
  rewrite (Hch (World.refreshes w)). by destruct (decide _).
Qed.

Lemma Send_topic_run n w :
  Message.Event msg = config.EventTopicChange ->
  GetBool b "SyncTopic" = true ->
  Send env b n msg w
  = bind (updateTopicOrPurpose env n (outgoing env b msg) channelInfo)
      (fun e => ret ("", e)) w.
Proof.
  intros Hev Hsync. rewrite (Send_api_mode env b n msg w Hapi).
  rewrite (sendAPI_topic env b n (outgoing env b msg) channelInfo w Hev
             (Hch (World.refreshes w)) (or_introl Hsync)).
  unfold handleTopicOrPurpose.
  change (Message.Event (outgoing env b msg)) with (Message.Event msg).
  rewrite Hev, Hsync. simpl. unfold bind.
  by destruct (updateTopicOrPurpose env n (outgoing env b msg) channelInfo w).
Qed.

Lemma Send_topic_retries text :
  Message.Event msg = config.EventTopicChange ->
  GetBool b "SyncTopic" = true ->
  extractTopicOrPurpose env (Message.Text (outgoing env b msg)) = ("topic", text) ->
  RetryLoop (fun n => Send env b n msg)
    (ESetTopicOfConversation (Channel.ID channelInfo) text)
    (fun k => answered (sc_SetTopicOfConversation env k (Channel.ID channelInfo) text))
    (fun _ => ("", None)) (fun err => ("", Some err)).
Proof.
  intros Hev Hsync Hkind.
  eapply RetryLoop_ext;
    [|apply (RetryLoop_map _ (fun e : option error => ("", e)) _ _ _ _
               (updateTopic_retries env (outgoing env b msg) channelInfo text Hkind))].
  intros n w. cbv beta. by apply Send_topic_run.
Qed.

Lemma Send_purpose_retries text :
  Message.Event msg = config.EventTopicChange ->
  GetBool b "SyncTopic" = true ->
  extractTopicOrPurpose env (Message.Text (outgoing env b msg)) = ("purpose", text) ->
  RetryLoop (fun n => Send env b n msg)
    (ESetPurposeOfConversation (Channel.ID channelInfo) text)
    (fun k => answered (sc_SetPurposeOfConversation env k (Channel.ID channelInfo)
                          text))
    (fun _ => ("", None)) (fun err => ("", Some err)).
Proof.
  intros Hev Hsync Hkind.
  eapply RetryLoop_ext;
    [|apply (RetryLoop_map _ (fun e : option error => ("", e)) _ _ _ _
               (updatePurpose_retries env (outgoing env b msg) channelInfo text Hkind))].
  intros n w. cbv beta. by apply Send_topic_run.
Qed.
End SendRetries.

(** C5. Each platform call of the API sender (post, edit, delete, set
    topic, set purpose) sits in a retry loop, in the function that makes
    it and seen from [Send]: after an answer classified as retryable the
    same call is issued again once the indicated wait was slept, however
    many retryable answers came before and for every bound on the number
    of rounds that is not yet used up; the sender returns only with a
    success or with an error that is not retryable.  A call answered with
    two retryable errors and then accepted is issued three times, and the
    clock has advanced by the two waits. *)
Theorem api_calls_retry_until_settled env b msg channelInfo opts text :
  (Message.Text msg <> "" ->
   prepared env b msg opts ->
   RetryLoop (fun n => postAPIMessage env b n msg channelInfo)
     (EPostMessage (Channel.ID channelInfo) opts)
     (fun k => sc_PostMessage env k (Channel.ID channelInfo) opts)
     (fun id => (id, None)) (fun err => ("", Some err)))
  /\ (Message.ID msg <> "" ->
      prepared env b msg opts ->
      RetryLoop (fun n => editMessage env b n msg channelInfo)
        (EUpdateMessage (Channel.ID channelInfo) (Message.ID msg) opts)
        (fun k => answered (sc_UpdateMessage env k (Channel.ID channelInfo)
                              (Message.ID msg) opts))
        (fun _ => (true, None)) (fun err => (true, Some err)))
  /\ (Message.Event msg = config.EventMsgDelete ->
      Message.ID msg <> "" ->
      RetryLoop (fun n => deleteMessage env n msg channelInfo)
        (EDeleteMessage (Channel.ID channelInfo) (Message.ID msg))
        (fun k => answered (sc_DeleteMessage env k (Channel.ID channelInfo)
                              (Message.ID msg)))
        (fun _ => (true, None)) (fun err => (true, Some err)))
  /\ (extractTopicOrPurpose env (Message.Text msg) = ("topic", text) ->
      RetryLoop (fun n => updateTopicOrPurpose env n msg channelInfo)
        (ESetTopicOfConversation (Channel.ID channelInfo) text)
        (fun k => answered (sc_SetTopicOfConversation env k
                              (Channel.ID channelInfo) text))
        (fun _ => None) (fun err => Some err))
  /\ (extractTopicOrPurpose env (Message.Text msg) = ("purpose", text) ->
      RetryLoop (fun n => updateTopicOrPurpose env n msg channelInfo)
        (ESetPurposeOfConversation (Channel.ID channelInfo) text)
        (fun k => answered (sc_SetPurposeOfConversation env k
                              (Channel.ID channelInfo) text))
        (fun _ => None) (fun err => Some err))
  /\ (~ webhookConfigured b ->
      resolves env msg channelInfo ->
      (ordinary msg ->
       Message.ID msg = "" ->
       Message.lenExtra msg = 0 ->
       Message.Text (dressed env b msg) <> "" ->
       prepared env b (dressed env b msg) opts ->
       RetryLoop (fun n => Send env b n msg)
         (EPostMessage (Channel.ID channelInfo) opts)
         (fun k => sc_PostMessage env k (Channel.ID channelInfo) opts)
         (fun id => (id, None)) (fun err => ("", Some err)))
      /\ (ordinary msg ->
          Message.ID msg <> "" ->
          prepared env b (dressed env b msg) opts ->
          RetryLoop (fun n => Send env b n msg)
            (EUpdateMessage (Channel.ID channelInfo) (Message.ID msg) opts)
            (fun k => answered (sc_UpdateMessage env k (Channel.ID channelInfo)
                                  (Message.ID msg) opts))
            (fun _ => (Message.ID msg, None))
            (fun err => (Message.ID msg, Some err)))
      /\ (Message.Event msg = config.EventMsgDelete ->
          Message.ID msg <> "" ->
          RetryLoop (fun n => Send env b n msg)
            (EDeleteMessage (Channel.ID channelInfo) (Message.ID msg))
            (fun k => answered (sc_DeleteMessage env k (Channel.ID channelInfo)
                                  (Message.ID msg)))
            (fun _ => (Message.ID msg, None))
            (fun err => (Message.ID msg, Some err)))
      /\ (Message.Event msg = config.EventTopicChange ->
          GetBool b "SyncTopic" = true ->
          extractTopicOrPurpose env (Message.Text (outgoing env b msg))
          = ("topic", text) ->
          RetryLoop (fun n => Send env b n msg)
            (ESetTopicOfConversation (Channel.ID channelInfo) text)
            (fun k => answered (sc_SetTopicOfConversation env k
                                  (Channel.ID channelInfo) text))
            (fun _ => ("", None)) (fun err => ("", Some err)))
      /\ (Message.Event msg = config.EventTopicChange ->
          GetBool b "SyncTopic" = true ->
          extractTopicOrPurpose env (Message.Text (outgoing env b msg))
          = ("purpose", text) ->
          RetryLoop (fun n => Send env b n msg)
            (ESetPurposeOfConversation (Channel.ID channelInfo) text)
            (fun k => answered (sc_SetPurposeOfConversation env k
                                  (Channel.ID channelInfo) text))
            (fun _ => ("", None)) (fun err => ("", Some err))))
  /\ (forall e waits w,
        World.calls (afterRetries e waits w) = World.calls w + length waits + 1
        /\ World.trace (afterRetries e waits w)
           = (World.trace w ++ concat ((fun d => [e; ESleep d]) <$> waits) ++ [e])%list
        /\ World.now (afterRetries e waits w)
           = (World.now w + foldr Z.add 0 (Z.max 0 <$> waits))%Z
        /\ World.cache (afterRetries e waits w) = World.cache w)
  /\ (forall e d1 d2 w,
        (0 <= d1)%Z -> (0 <= d2)%Z ->
        World.calls (afterRetries e [d1; d2] w) = World.calls w + 3
        /\ World.trace (afterRetries e [d1; d2] w)
           = (World.trace w ++ [e; ESleep d1; e; ESleep d2; e])%list
        /\ World.now (afterRetries e [d1; d2] w) = (World.now w + (d1 + d2))%Z).
Proof.
  split; [apply postAPIMessage_retries|].
  split; [apply editMessage_retries|].
  split; [apply deleteMessage_retries|].
  split; [apply updateTopic_retries|].
  split; [apply updatePurpose_retries|].
  split.
  { intros Hapi Hch.
    split; [by apply Send_post_retries|].
    split; [by apply Send_edit_retries|].
    split; [by apply Send_delete_retries|].
    split; [by apply Send_topic_retries|by apply Send_purpose_retries]. }
  split.
  - intros e waits w.
    auto using afterRetries_calls, afterRetries_trace, afterRetries_now,
      afterRetries_cache.
  - intros e d1 d2 w H1 H2.
    rewrite afterRetries_calls, afterRetries_trace, afterRetries_now. cbn.
    split; [lia|]. split; [by rewrite <- ?app_assoc|lia].
Qed.

(** In the scenario the post of a plain message is answered with waits of
    two and three seconds and then accepted: [Send] has made three
    requests and slept five seconds. *)
Lemma api_calls_retry_scenario :
  Send scenario.env scenario.bridge 3 scenario.hello scenario.world
  = Ret (scenario.posted, None)
      (World.mk [] (5 * time.Second) 3 0 false
         [EPostMessage "C1" (messageOptions scenario.env scenario.bridge
                               scenario.hello []);
          ESleep (2 * time.Second);
          EPostMessage "C1" (messageOptions scenario.env scenario.bridge
                               scenario.hello []);
          ESleep (3 * time.Second);
          EPostMessage "C1" (messageOptions scenario.env scenario.bridge
                               scenario.hello [])]).
Proof.
  destruct (api_calls_retry_until_settled scenario.env scenario.bridge scenario.hello
              (Channel.mk "C1" "general" true)
              (messageOptions scenario.env scenario.bridge scenario.hello []) "")
    as (_ & _ & _ & _ & _ & HSend & _).
  destruct HSend as (Hpost & _).
  - intros [_ H]. discriminate H.
  - intros k. reflexivity.
  - refine (proj1 (Hpost _ _ _ _ _ [2 * time.Second; 3 * time.Second]%Z 3
                     scenario.world _) _).
    + repeat split; discriminate.
    + reflexivity.
    + reflexivity.
    + discriminate.
    + intros w. reflexivity.
    + intros [|[|i]] d Hi; simplify_eq/=; done.
    + simpl. lia.
Defined.
